(** * Open Protocol nutrunner client: a shallow embedding of [index.js]

    The development follows the layout of the source file: string and
    number primitives of the host language, the state factory, the client
    object (an explicit world threaded through a small state-and-exception
    monad), framing, MID parsers, the MID-to-state projection, the
    tightening lifecycle, the interlock gate and the public operations.

    Conventions.
    - JavaScript strings are [string]; the wire carries 7-bit ASCII, so one
      character is one byte.
    - JavaScript numbers are modelled on the fragment the protocol uses:
      integers and NaN ([num]).  Values divided by 100 by the parsers are
      kept as hundredths ([Centi]).
    - [socket.write] appends the written text to the socket's log; a [null]
      socket raises a [TypeError].
    - [emit] appends to the event log and calls the listeners, which are
      observers that may throw; which events they throw on is a parameter.
    - Timers are not clocks: an armed timer may fire at any later step. *)

From Stdlib Require Import Bool Arith ZArith NArith List String Ascii Lia.
From Stdlib Require Import DecimalString DecimalN.
Import ListNotations.
Local Open Scope string_scope.
Local Open Scope Z_scope.

Set Implicit Arguments.
Set Warnings "-register-all,-notation-for-abbreviation,-abstract-large-number".

(* ================================================================== *)
(** * Host-language primitives *)
(* ================================================================== *)

Module Js.

(** ** Strings *)

Fixpoint drop (n : nat) (s : string) : string :=
  match n, s with
  | O, _ => s
  | S _, EmptyString => EmptyString
  | S n', String _ s' => drop n' s'
  end.

Fixpoint take (n : nat) (s : string) : string :=
  match n, s with
  | O, _ => EmptyString
  | S _, EmptyString => EmptyString
  | S n', String c s' => String c (take n' s')
  end.

(** [s.slice(a, b)] and [s.slice(a)] for non-negative indices. *)
Definition slice (a b : nat) (s : string) : string := take (b - a) (drop a s).
Definition slice_from (a : nat) (s : string) : string := drop a s.

(** [s[i]]: a character or [undefined]. *)
Definition char_at (i : nat) (s : string) : option ascii := String.get i s.

(** [s.charAt(i) || '0']. *)
Definition charAt_or (i : nat) (dflt : string) (s : string) : string :=
  match String.get i s with
  | Some c => String c EmptyString
  | None => dflt
  end.

Fixpoint repeat_char (c : ascii) (n : nat) : string :=
  match n with
  | O => EmptyString
  | S n' => String c (repeat_char c n')
  end.

Definition padStart (width : nat) (c : ascii) (s : string) : string :=
  repeat_char c (width - String.length s) ++ s.

Definition padEnd (width : nat) (c : ascii) (s : string) : string :=
  s ++ repeat_char c (width - String.length s).

(** [s.replace(/\0/g, '')]. *)
Fixpoint strip_nul (s : string) : string :=
  match s with
  | EmptyString => EmptyString
  | String c s' =>
      if Ascii.eqb c zero then strip_nul s' else String c (strip_nul s')
  end.

Definition is_digit (c : ascii) : bool :=
  let n := nat_of_ascii c in (48 <=? n)%nat && (n <=? 57)%nat.

(** White space and line terminators of the ASCII range. *)
Definition is_space (c : ascii) : bool :=
  let n := nat_of_ascii c in
  ((9 <=? n)%nat && (n <=? 13)%nat) || (n =? 32)%nat.

Fixpoint all_chars (p : ascii -> bool) (s : string) : bool :=
  match s with
  | EmptyString => true
  | String c s' => p c && all_chars p s'
  end.

(** [/^\d{4}$/.test(s)]. *)
Definition four_digits (s : string) : bool :=
  (String.length s =? 4)%nat && all_chars is_digit s.

Fixpoint trim_start (s : string) : string :=
  match s with
  | String c s' => if is_space c then trim_start s' else s
  | EmptyString => EmptyString
  end.

Fixpoint rev_string (acc s : string) : string :=
  match s with
  | EmptyString => acc
  | String c s' => rev_string (String c acc) s'
  end.

Definition trim_end (s : string) : string :=
  rev_string EmptyString (trim_start (rev_string EmptyString s)).

Definition trim (s : string) : string := trim_end (trim_start s).

(** ** Numbers *)

Inductive num : Type :=
| NaN
| Int (z : Z).

Definition num_eq_dec (a b : num) : {a = b} + {a <> b}.
Proof. decide equality. apply Z.eq_dec. Defined.

(** [a === b] on numbers: NaN differs from everything, itself included. *)
Definition strict_eq (a b : num) : bool :=
  match a, b with
  | Int x, Int y => x =? y
  | _, _ => false
  end.

(** Map keys compare by SameValueZero, where NaN equals NaN. *)
Definition same_value_zero (a b : num) : bool :=
  if num_eq_dec a b then true else false.

Definition lt (a b : num) : bool :=
  match a, b with Int x, Int y => x <? y | _, _ => false end.
Definition gt (a b : num) : bool := lt b a.
Definition ge (a b : num) : bool :=
  match a, b with Int x, Int y => y <=? x | _, _ => false end.

Definition add (a b : num) : num :=
  match a, b with Int x, Int y => Int (x + y) | _, _ => NaN end.
Definition sub (a b : num) : num :=
  match a, b with Int x, Int y => Int (x - y) | _, _ => NaN end.

Definition isNaN (a : num) : bool :=
  match a with NaN => true | Int _ => false end.

(** Truthiness of a number: [0] and [NaN] are falsy. *)
Definition truthy (a : num) : bool :=
  match a with NaN => false | Int z => negb (z =? 0) end.

(** ToNumber of a value that is [null] or a number. *)
Definition of_nullable (a : option num) : num :=
  match a with None => Int 0 | Some n => n end.

Definition digit_value (c : ascii) : Z := Z.of_nat (nat_of_ascii c) - 48.

(** Horner evaluation of the longest prefix of decimal digits; returns the
    value read so far and whether at least one digit was read. *)
Fixpoint read_digits (acc : Z) (seen : bool) (s : string) : Z * bool :=
  match s with
  | String c s' =>
      if is_digit c then read_digits (acc * 10 + digit_value c) true s'
      else (acc, seen)
  | EmptyString => (acc, seen)
  end.

Definition signed_prefix (s : string) : num :=
  match s with
  | String "-"%char s' =>
      let '(v, seen) := read_digits 0 false s' in
      if seen then Int (- v) else NaN
  | String "+"%char s' =>
      let '(v, seen) := read_digits 0 false s' in
      if seen then Int v else NaN
  | _ =>
      let '(v, seen) := read_digits 0 false s in
      if seen then Int v else NaN
  end.

(** [parseInt(s, 10)]: leading white space, an optional sign, then the
    longest run of decimal digits; [NaN] when there is none. *)
Definition parseInt (s : string) : num := signed_prefix (trim_start s).

Definition unsigned_literal (s : string) : num :=
  match s with
  | EmptyString => NaN
  | _ => if all_chars is_digit s then Int (fst (read_digits 0 false s)) else NaN
  end.

(** [Number(s)] on the decimal-integer literals of the protocol: the text
    is trimmed; the empty text is 0; an optionally signed run of decimal
    digits is its value.  Every other text is mapped to [NaN]: fractions,
    exponents and radix prefixes do not occur in protocol fields, which
    are zero-padded decimal. *)
Definition Number (s : string) : num :=
  match trim s with
  | EmptyString => Int 0
  | String "-"%char s' =>
      match unsigned_literal s' with Int v => Int (- v) | NaN => NaN end
  | String "+"%char s' => unsigned_literal s'
  | t => unsigned_literal t
  end.

(** [n.toString()] for a non-negative integer. *)
Definition toString (n : N) : string :=
  NilEmpty.string_of_uint (N.to_uint n).

End Js.

(* ================================================================== *)
(** * Values, results and parsed messages *)
(* ================================================================== *)

(** Plain data as it travels in parsed messages, event payloads and JSON
    text.  [Centi n] is the number [n / 100]. *)
Inductive JV : Type :=
| Undefined
| Null
| Bool (b : bool)
| Num (n : Js.num)
| Centi (n : Js.num)
| Str (s : string)
| Arr (xs : list JV)
| Obj (fields : list (string * JV)).

(** Induction on plain data, through arrays and objects. *)
Section JVInduction.
Variable P : JV -> Prop.
Hypothesis P_Undefined : P Undefined.
Hypothesis P_Null : P Null.
Hypothesis P_Bool : forall b, P (Bool b).
Hypothesis P_Num : forall n, P (Num n).
Hypothesis P_Centi : forall n, P (Centi n).
Hypothesis P_Str : forall s, P (Str s).
Hypothesis P_Arr : forall xs, Forall P xs -> P (Arr xs).
Hypothesis P_Obj : forall fs, Forall (fun kv => P (snd kv)) fs -> P (Obj fs).

End JVInduction.

Inductive TimerState : Type := Armed | Spent.

Inductive SpindleCountSource : Type :=
| src_default | src_mid101 | src_mid061 | src_config | src_manual.

Definition source_name (s : SpindleCountSource) : string :=
  match s with
  | src_default => "default"
  | src_mid101 => "mid101"
  | src_mid061 => "mid061"
  | src_config => "config"
  | src_manual => "manual"
  end.

(** The object returned by [_parse0061] and [_parse0065].  The fields all
    layouts share are record fields; the rest is kept, by name, in
    [extra]. *)
Record Result : Type := mkResult {
  tighteningId : string;
  spindle : Js.num;
  torque : Js.num;                   (* hundredths of a Nm *)
  angle : Js.num;
  torqueStatus : option string;      (* [None] is [undefined] *)
  angleStatus : option string;
  ok : bool;
  extra : list (string * JV)
}.

Record Alarm : Type := mkAlarm {
  alarmCode : string;
  alarm_controllerReady : bool;
  alarm_toolReady : bool;
  alarm_timestamp : string;
  alarm_message : string
}.

Inductive Parsed : Type :=
| PCommStartAck (revision : Js.num)
| PCommandError (failedMid errorCode : Js.num) (message : string)
| PCommandAccepted (acceptedMid : Js.num)
| PParamSet (paramSetId : Js.num)
| PBatchDecrement (batchCounter : Js.num)
| PToolStatus (controllerReady toolEnabled toolRunning alarmActive : bool)
| PVin (vin : string)
| PVinRequired
| PJob (jobId : Js.num)
| PBatch (batchId batchSize batchCounter : Js.num)
| PResult (r : Result)
| PAlarm (a : Alarm)
| PAlarmStatus (alarmStatus : bool) (currentAlarms : list string)
| PMultiSpindle (cycleId : string) (spindleCount : Js.num) (overallOk : bool)
                (timestamp : string)
| PRaw (raw : string).

(* ================================================================== *)
(** * State factory *)
(* ================================================================== *)

Module Connection.
Record t : Type := mk {
  connected : bool;
  linkLayerReady : bool;
  lastMID : option Js.num;
  reconnecting : bool;
  reconnectAttempts : Z
}.
End Connection.

Module Subscriptions.
Record t : Type := mk {
  tighteningResults : bool;
  alarms : bool;
  multiSpindleStatus : bool
}.
End Subscriptions.

Module Protocol.
Record t : Type := mk {
  revision : Js.num;
  subscriptions : Subscriptions.t
}.
End Protocol.

Module Controller.
Record t : Type := mk {
  ready : bool;
  errorActive : bool;
  errorCode : option Js.num;
  alarms : list Alarm
}.
End Controller.

Module Tool.
Record t : Type := mk {
  enabled : bool;
  running : bool;
  spindleCount : Js.num;
  spindleCountSource : SpindleCountSource
}.
End Tool.

Module Product.
Record t : Type := mk {
  vin : option string;
  vinRequired : bool;
  vinValid : bool;
  vinLocked : bool
}.
End Product.

Module Job.
Record t : Type := mk {
  jobId : option Js.num;
  paramSetId : option Js.num;
  active : bool;
  locked : bool
}.
End Job.

Module Batch.
Record t : Type := mk {
  batchId : option Js.num;
  size : option Js.num;
  counter : Js.num;
  active : bool;
  complete : bool;
  locked : bool;
  pendingReset : bool
}.
End Batch.

Module Tightening.
Record t : Type := mk {
  inProgress : bool;
  cycleStartTs : option Z;
  pendingSpindles : list (Js.num * Result);   (* a Map, in insertion order *)
  watchdog : option TimerState                (* [null] or a timer handle *)
}.
End Tightening.

(** An entry of [pendingCommands]; its [timeout] timer is armed for as
    long as the entry is in the table. *)
Record PendingCommand : Type := mkPending {
  pc_mid : N;
  pc_timestamp : Z
}.

Record State : Type := mkState {
  connection : Connection.t;
  protocol : Protocol.t;
  controller : Controller.t;
  tool : Tool.t;
  product : Product.t;
  job : Job.t;
  batch : Batch.t;
  tightening : Tightening.t;
  pendingCommands : list (N * PendingCommand)  (* a Map, in insertion order *)
}.

Definition createInitialState : State :=
  {| connection := Connection.mk false false None false 0;
     protocol := Protocol.mk (Js.Int 1) (Subscriptions.mk false false false);
     controller := Controller.mk false false None [];
     tool := Tool.mk false false (Js.Int 1) src_default;
     product := Product.mk None false false false;
     job := Job.mk None None false false;
     batch := Batch.mk None None (Js.Int 0) false false false false;
     tightening := Tightening.mk false None [] None;
     pendingCommands := [] |}.

(** ** Field updates *)

Definition with_connection (f : Connection.t -> Connection.t) (s : State) : State :=
  mkState (f (connection s)) (protocol s) (controller s) (tool s) (product s)
          (job s) (batch s) (tightening s) (pendingCommands s).
Definition with_protocol (f : Protocol.t -> Protocol.t) (s : State) : State :=
  mkState (connection s) (f (protocol s)) (controller s) (tool s) (product s)
          (job s) (batch s) (tightening s) (pendingCommands s).
Definition with_controller (f : Controller.t -> Controller.t) (s : State) : State :=
  mkState (connection s) (protocol s) (f (controller s)) (tool s) (product s)
          (job s) (batch s) (tightening s) (pendingCommands s).
Definition with_tool (f : Tool.t -> Tool.t) (s : State) : State :=
  mkState (connection s) (protocol s) (controller s) (f (tool s)) (product s)
          (job s) (batch s) (tightening s) (pendingCommands s).
Definition with_product (f : Product.t -> Product.t) (s : State) : State :=
  mkState (connection s) (protocol s) (controller s) (tool s) (f (product s))
          (job s) (batch s) (tightening s) (pendingCommands s).
Definition with_job (f : Job.t -> Job.t) (s : State) : State :=
  mkState (connection s) (protocol s) (controller s) (tool s) (product s)
          (f (job s)) (batch s) (tightening s) (pendingCommands s).
Definition with_batch (f : Batch.t -> Batch.t) (s : State) : State :=
  mkState (connection s) (protocol s) (controller s) (tool s) (product s)
          (job s) (f (batch s)) (tightening s) (pendingCommands s).
Definition with_tightening (f : Tightening.t -> Tightening.t) (s : State) : State :=
  mkState (connection s) (protocol s) (controller s) (tool s) (product s)
          (job s) (batch s) (f (tightening s)) (pendingCommands s).
Definition with_pendingCommands
    (f : list (N * PendingCommand) -> list (N * PendingCommand)) (s : State) : State :=
  mkState (connection s) (protocol s) (controller s) (tool s) (product s)
          (job s) (batch s) (tightening s) (f (pendingCommands s)).

Module Set_.
Import Connection Protocol Controller Tool Product Job Batch Tightening.

Definition connected v (c : Connection.t) :=
  Connection.mk v (linkLayerReady c) (lastMID c) (reconnecting c) (reconnectAttempts c).
Definition linkLayerReady v (c : Connection.t) :=
  Connection.mk (Connection.connected c) v (lastMID c) (reconnecting c) (reconnectAttempts c).
Definition lastMID v (c : Connection.t) :=
  Connection.mk (Connection.connected c) (Connection.linkLayerReady c) v
                (reconnecting c) (reconnectAttempts c).
Definition reconnecting v (c : Connection.t) :=
  Connection.mk (Connection.connected c) (Connection.linkLayerReady c)
                (Connection.lastMID c) v (reconnectAttempts c).
Definition reconnectAttempts v (c : Connection.t) :=
  Connection.mk (Connection.connected c) (Connection.linkLayerReady c)
                (Connection.lastMID c) (Connection.reconnecting c) v.

Definition revision v (p : Protocol.t) := Protocol.mk v (subscriptions p).
Definition sub_tighteningResults v (p : Protocol.t) :=
  Protocol.mk (Protocol.revision p)
    (Subscriptions.mk v (Subscriptions.alarms (subscriptions p))
                      (Subscriptions.multiSpindleStatus (subscriptions p))).
Definition sub_alarms v (p : Protocol.t) :=
  Protocol.mk (Protocol.revision p)
    (Subscriptions.mk (Subscriptions.tighteningResults (subscriptions p)) v
                      (Subscriptions.multiSpindleStatus (subscriptions p))).

Definition ready v (c : Controller.t) :=
  Controller.mk v (errorActive c) (errorCode c) (Controller.alarms c).
Definition errorActive v (c : Controller.t) :=
  Controller.mk (Controller.ready c) v (errorCode c) (Controller.alarms c).
Definition alarms v (c : Controller.t) :=
  Controller.mk (Controller.ready c) (Controller.errorActive c) (errorCode c) v.

Definition enabled v (t : Tool.t) :=
  Tool.mk v (running t) (spindleCount t) (spindleCountSource t).
Definition running v (t : Tool.t) :=
  Tool.mk (Tool.enabled t) v (spindleCount t) (spindleCountSource t).
Definition spindleCount v (t : Tool.t) :=
  Tool.mk (Tool.enabled t) (Tool.running t) v (spindleCountSource t).
Definition spindleCountSource v (t : Tool.t) :=
  Tool.mk (Tool.enabled t) (Tool.running t) (Tool.spindleCount t) v.

Definition vin v (p : Product.t) :=
  Product.mk v (vinRequired p) (vinValid p) (vinLocked p).
Definition vinRequired v (p : Product.t) :=
  Product.mk (Product.vin p) v (vinValid p) (vinLocked p).
Definition vinValid v (p : Product.t) :=
  Product.mk (Product.vin p) (Product.vinRequired p) v (vinLocked p).
Definition vinLocked v (p : Product.t) :=
  Product.mk (Product.vin p) (Product.vinRequired p) (Product.vinValid p) v.

Definition jobId v (j : Job.t) := Job.mk v (paramSetId j) (Job.active j) (Job.locked j).
Definition paramSetId v (j : Job.t) :=
  Job.mk (Job.jobId j) v (Job.active j) (Job.locked j).
Definition job_active v (j : Job.t) :=
  Job.mk (Job.jobId j) (Job.paramSetId j) v (Job.locked j).
Definition job_locked v (j : Job.t) :=
  Job.mk (Job.jobId j) (Job.paramSetId j) (Job.active j) v.

Definition counter v (b : Batch.t) :=
  Batch.mk (batchId b) (size b) v (Batch.active b) (complete b) (Batch.locked b)
           (pendingReset b).
Definition batch_active v (b : Batch.t) :=
  Batch.mk (batchId b) (size b) (Batch.counter b) v (complete b) (Batch.locked b)
           (pendingReset b).
Definition complete v (b : Batch.t) :=
  Batch.mk (batchId b) (size b) (Batch.counter b) (Batch.active b) v (Batch.locked b)
           (pendingReset b).
Definition pendingReset v (b : Batch.t) :=
  Batch.mk (batchId b) (size b) (Batch.counter b) (Batch.active b) (Batch.complete b)
           (Batch.locked b) v.

Definition inProgress v (t : Tightening.t) :=
  Tightening.mk v (cycleStartTs t) (pendingSpindles t) (watchdog t).
Definition cycleStartTs v (t : Tightening.t) :=
  Tightening.mk (Tightening.inProgress t) v (pendingSpindles t) (watchdog t).
Definition pendingSpindles v (t : Tightening.t) :=
  Tightening.mk (Tightening.inProgress t) (Tightening.cycleStartTs t) v (watchdog t).
Definition watchdog v (t : Tightening.t) :=
  Tightening.mk (Tightening.inProgress t) (Tightening.cycleStartTs t)
                (Tightening.pendingSpindles t) v.
End Set_.

(** ** Maps in insertion order *)

Section AssocMap.
Variables (K V : Type) (eqb : K -> K -> bool).

Definition map_has (k : K) (m : list (K * V)) : bool :=
  existsb (fun e => eqb (fst e) k) m.

(** [Map.prototype.set]: a present key keeps its position. *)
Fixpoint map_set (k : K) (v : V) (m : list (K * V)) : list (K * V) :=
  match m with
  | [] => [(k, v)]
  | (k', v') :: m' => if eqb k' k then (k, v) :: m' else (k', v') :: map_set k v m'
  end.

Fixpoint map_delete (k : K) (m : list (K * V)) : list (K * V) :=
  match m with
  | [] => []
  | (k', v') :: m' => if eqb k' k then m' else (k', v') :: map_delete k m'
  end.

Definition map_values (m : list (K * V)) : list V := map snd m.
End AssocMap.

(* ================================================================== *)
(** * JSON serialisation and the object store *)
(* ================================================================== *)

(** Live objects as [JSON.stringify] reads them: plain data, [Map]
    instances and timer handles. *)
Inductive Live : Type :=
| LUndefined
| LNull
| LBool (b : bool)
| LNum (n : Js.num)
| LCenti (n : Js.num)
| LStr (s : string)
| LArray (xs : list Live)
| LObject (fields : list (string * Live))
| LMap (entries : list (Live * Live))
| LTimeout (st : TimerState).

Definition live_string (s : option string) : Live :=
  match s with None => LNull | Some x => LStr x end.
Definition live_num (n : option Js.num) : Live :=
  match n with None => LNull | Some x => LNum x end.
Definition live_ts (n : option Z) : Live :=
  match n with None => LNull | Some x => LNum (Js.Int x) end.
Definition live_status (s : option string) : Live :=
  match s with None => LUndefined | Some x => LStr x end.

Fixpoint live_of_JV (j : JV) : Live :=
  match j with
  | Undefined => LUndefined
  | Null => LNull
  | Bool b => LBool b
  | Num n => LNum n
  | Centi n => LCenti n
  | Str s => LStr s
  | Arr xs => LArray (map live_of_JV xs)
  | Obj fs => LObject (map (fun kv => (fst kv, live_of_JV (snd kv))) fs)
  end.

Definition live_result (r : Result) : Live :=
  LObject (([ ("tighteningId", LStr (tighteningId r));
             ("spindle", LNum (spindle r));
             ("torque", LCenti (torque r));
             ("angle", LNum (angle r));
             ("torqueStatus", live_status (torqueStatus r));
             ("angleStatus", live_status (angleStatus r));
             ("ok", LBool (ok r)) ]
           ++ map (fun kv => (fst kv, live_of_JV (snd kv))) (extra r))%list).

Definition live_alarm (a : Alarm) : Live :=
  LObject [ ("alarmCode", LStr (alarmCode a));
            ("controllerReady", LBool (alarm_controllerReady a));
            ("toolReady", LBool (alarm_toolReady a));
            ("timestamp", LStr (alarm_timestamp a));
            ("message", LStr (alarm_message a)) ].

Definition live_pending (e : N * PendingCommand) : Live * Live :=
  (LNum (Js.Int (Z.of_N (fst e))),
   LObject [ ("mid", LNum (Js.Int (Z.of_N (pc_mid (snd e)))));
             ("timestamp", LNum (Js.Int (pc_timestamp (snd e))));
             ("timeout", LTimeout Armed) ]).

Definition live_watchdog (w : option TimerState) : Live :=
  match w with None => LNull | Some st => LTimeout st end.

(** The object graph rooted at [this.state]. *)
Definition state_object (s : State) : Live :=
  LObject
    [ ("connection", LObject
        [ ("connected", LBool (Connection.connected (connection s)));
          ("linkLayerReady", LBool (Connection.linkLayerReady (connection s)));
          ("lastMID", live_num (Connection.lastMID (connection s)));
          ("reconnecting", LBool (Connection.reconnecting (connection s)));
          ("reconnectAttempts",
             LNum (Js.Int (Connection.reconnectAttempts (connection s)))) ]);
      ("protocol", LObject
        [ ("revision", LNum (Protocol.revision (protocol s)));
          ("subscriptions", LObject
            [ ("tighteningResults",
                 LBool (Subscriptions.tighteningResults
                          (Protocol.subscriptions (protocol s))));
              ("alarms",
                 LBool (Subscriptions.alarms (Protocol.subscriptions (protocol s))));
              ("multiSpindleStatus",
                 LBool (Subscriptions.multiSpindleStatus
                          (Protocol.subscriptions (protocol s)))) ]) ]);
      ("controller", LObject
        [ ("ready", LBool (Controller.ready (controller s)));
          ("errorActive", LBool (Controller.errorActive (controller s)));
          ("errorCode", live_num (Controller.errorCode (controller s)));
          ("alarms", LArray (map live_alarm (Controller.alarms (controller s)))) ]);
      ("tool", LObject
        [ ("enabled", LBool (Tool.enabled (tool s)));
          ("running", LBool (Tool.running (tool s)));
          ("spindleCount", LNum (Tool.spindleCount (tool s)));
          ("spindleCountSource",
             LStr (source_name (Tool.spindleCountSource (tool s)))) ]);
      ("product", LObject
        [ ("vin", live_string (Product.vin (product s)));
          ("vinRequired", LBool (Product.vinRequired (product s)));
          ("vinValid", LBool (Product.vinValid (product s)));
          ("vinLocked", LBool (Product.vinLocked (product s))) ]);
      ("job", LObject
        [ ("jobId", live_num (Job.jobId (job s)));
          ("paramSetId", live_num (Job.paramSetId (job s)));
          ("active", LBool (Job.active (job s)));
          ("locked", LBool (Job.locked (job s))) ]);
      ("batch", LObject
        [ ("batchId", live_num (Batch.batchId (batch s)));
          ("size", live_num (Batch.size (batch s)));
          ("counter", LNum (Batch.counter (batch s)));
          ("active", LBool (Batch.active (batch s)));
          ("complete", LBool (Batch.complete (batch s)));
          ("locked", LBool (Batch.locked (batch s)));
          ("pendingReset", LBool (Batch.pendingReset (batch s))) ]);
      ("tightening", LObject
        [ ("inProgress", LBool (Tightening.inProgress (tightening s)));
          ("cycleStartTs", live_ts (Tightening.cycleStartTs (tightening s)));
          ("pendingSpindles",
             LMap (map (fun e => (LNum (fst e), live_result (snd e)))
                       (Tightening.pendingSpindles (tightening s))));
          ("watchdog", live_watchdog (Tightening.watchdog (tightening s))) ]);
      ("pendingCommands", LMap (map live_pending (pendingCommands s))) ].

Section Json.

(** What [JSON.stringify] makes of a timer handle of the runtime: a JSON
    value, or [None] when it throws (a handle linked into the runtime's
    timer lists is a circular structure). *)
Variable timer_toJSON : TimerState -> option JV.

Definition json_num (n : Js.num) (j : JV) : JV :=
  if Js.isNaN n then Null else j.

Section Members.
Variable stringify : Live -> option (option JV).

(** The elements of an array: [undefined] is written as [null]. *)
Fixpoint json_elems (xs : list Live) : option (list JV) :=
  match xs with
  | [] => Some []
  | x :: xs' =>
      match stringify x, json_elems xs' with
      | Some (Some j), Some r => Some (j :: r)
      | Some None, Some r => Some (Null :: r)
      | _, _ => None
      end
  end.

(** The properties of an object: [undefined] ones are left out. *)
Fixpoint json_props (fs : list (string * Live)) : option (list (string * JV)) :=
  match fs with
  | [] => Some []
  | (k, x) :: fs' =>
      match stringify x, json_props fs' with
      | Some (Some j), Some r => Some ((k, j) :: r)
      | Some None, Some r => Some r
      | _, _ => None
      end
  end.
End Members.

(** [JSON.stringify]: the result is the JSON text, kept as its syntax
    tree.  [None] is a thrown TypeError; [Some None] is [undefined]. *)
Fixpoint JSON_stringify (v : Live) : option (option JV) :=
  match v with
  | LUndefined => Some None
  | LNull => Some (Some Null)
  | LBool b => Some (Some (Bool b))
  | LNum n => Some (Some (json_num n (Num n)))
  | LCenti n => Some (Some (json_num n (Centi n)))
  | LStr s => Some (Some (Str s))
  | LArray xs =>
      match json_elems JSON_stringify xs with
      | Some r => Some (Some (Arr r))
      | None => None
      end
  | LObject fs =>
      match json_props JSON_stringify fs with
      | Some r => Some (Some (Obj r))
      | None => None
      end
  | LMap _ => Some (Some (Obj []))
  | LTimeout st =>
      match timer_toJSON st with Some j => Some (Some j) | None => None end
  end.

(** [getState()]: [JSON.parse(JSON.stringify(this.state))], as the value
    it denotes; [None] when serialisation throws. *)
Definition getState_value (s : State) : option JV :=
  match JSON_stringify (state_object s) with
  | Some (Some j) => Some j
  | _ => None
  end.

End Json.

(** [JSON.parse] builds its result out of fresh objects.  The store is the
    list of all objects allocated so far; a reference is an index. *)
Module Store.

Definition loc := nat.

Inductive val : Type :=
| VUndefined | VNull | VBool (b : bool) | VNum (n : Js.num) | VCenti (n : Js.num)
| VStr (s : string) | VRef (l : loc).

Inductive obj : Type :=
| Object (fields : list (string * val))
| Array (elems : list val).

Definition t := list obj.



Definition val_fresh (from : nat) (v : val) : Prop :=
  match v with VRef l => (from <= l)%nat | _ => True end.


End Store.

Section Allocation.
Variable parse : JV -> Store.t -> Store.val * Store.t.


End Allocation.


(* ================================================================== *)
(** * Errors and events *)
(* ================================================================== *)

Inductive InterlockCode : Type :=
| NOT_CONNECTED | LINK_NOT_READY | TOOL_DISABLED | TOOL_RUNNING
| CTRL_NOT_READY | ALARM_ACTIVE | VIN_REQUIRED | JOB_NOT_ACTIVE.

(** Thrown values.  [ListenerError] is whatever a listener throws. *)
Inductive Err : Type :=
| InterlockError (code : InterlockCode)
| CommandError (mid : N)
| TypeError (message : string)
| Error (message : string)
| ListenerError.

(** The payload of [frameError], by its [type]. *)
Inductive FrameError : Type :=
| invalid_length (buffer : string)
| length_out_of_range (length : Js.num).

(** [emit(name, payload)], one constructor per event name. *)
Module Ev.
Inductive t : Type :=
| connected
| disconnected
| reconnecting (attempt delay : Z)
| error
| linkEstablished (revision : Js.num)
| frameError (payload : FrameError)
| parseError (mid : Js.num) (error : Err)
| commandTimeout (mid cmdId : N)
| commandAborted (mid cmdId : N)
| commandSuccess (mid : Js.num) (cmdId : N) (data : option Parsed)
| commandFailed (mid : Js.num) (cmdId : N) (data : option Parsed)
| commandError (d : Parsed)
| commandAccepted (mid : Js.num)
| batchResetFailed (d : Parsed)
| batchResetConfirmed
| vinRequired
| jobSelected (jobId : Js.num)
| batchStarted (b : Batch.t)
| batchProgress (counter : Js.num) (size : option Js.num) (remaining : Js.num)
| batchCompleted (b : Batch.t)
| vinLocked (vin : string)
| spindleCountUpdated (count : Js.num) (source : SpindleCountSource)
| spindleResult (d : Result)
| tighteningCycleStarted (timestamp : Z)
| tighteningCycleCompleted (results : list Result) (overallOk : bool) (duration : Z)
| tighteningIncomplete (expected : Js.num) (received : nat) (results : list Result)
| alarm (d : Alarm)
| alarmStatus (d : Parsed)
| multiSpindleCycleComplete (d : Parsed)
| stateChanged (snapshot : JV).
End Ev.

(* ================================================================== *)
(** * Defaults *)
(* ================================================================== *)

Definition DEFAULT_PORT : Z := 4545.
Definition HEARTBEAT_INTERVAL_MS : Z := 7000.
Definition TIGHTENING_TIMEOUT_MS : Z := 8000.
Definition RECONNECT_INITIAL_DELAY_MS : Z := 1000.
Definition RECONNECT_MAX_DELAY_MS : Z := 30000.
Definition RECONNECT_BACKOFF_FACTOR : Z := 2.
Definition COMMAND_TIMEOUT_MS : Z := 5000.
Definition FRAME_VALIDATION_ENABLED : bool := true.

(* ================================================================== *)
(** * The client object and its environment *)
(* ================================================================== *)

Record Socket : Type := mkSocket {
  written : list string;      (* arguments of [socket.write], oldest first *)
  destroyed : bool
}.

Record World : Type := mkWorld {
  autoReconnect : bool;
  validateFrames : bool;
  configuredSpindleCount : option Js.num;
  allowDuplicateCommands : bool;
  socket : option Socket;
  buffer : string;
  state : State;
  lastTrafficTs : Z;
  heartbeatTimer : option TimerState;
  reconnectTimer : option TimerState;
  reconnectDelay : Z;
  commandSeq : N;
  _lastCommandId : option N;
  now : Z;                    (* [Date.now()] *)
  events : list Ev.t          (* emitted events, oldest first *)
}.

Record Config : Type := mkConfig {
  cfg_autoReconnect : bool;
  cfg_validateFrames : bool;
  cfg_spindleCount : option Js.num;
  cfg_allowDuplicateCommands : bool
}.

Definition default_config : Config :=
  mkConfig true FRAME_VALIDATION_ENABLED None false.

(** [new OpenProtocolNutrunner(config)] at time [t]. *)
Definition constructor (c : Config) (t : Z) : World :=
  {| autoReconnect := cfg_autoReconnect c;
     validateFrames := cfg_validateFrames c;
     configuredSpindleCount := cfg_spindleCount c;
     allowDuplicateCommands := cfg_allowDuplicateCommands c;
     socket := None;
     buffer := "";
     state := createInitialState;
     lastTrafficTs := t;
     heartbeatTimer := None;
     reconnectTimer := None;
     reconnectDelay := RECONNECT_INITIAL_DELAY_MS;
     commandSeq := 0%N;
     _lastCommandId := None;
     now := t;
     events := [] |}.

Definition set_autoReconnect v (w : World) : World :=
  mkWorld v (validateFrames w) (configuredSpindleCount w) (allowDuplicateCommands w)
    (socket w) (buffer w) (state w) (lastTrafficTs w) (heartbeatTimer w)
    (reconnectTimer w) (reconnectDelay w) (commandSeq w) (_lastCommandId w) (now w)
    (events w).
Definition set_socket v (w : World) : World :=
  mkWorld (autoReconnect w) (validateFrames w) (configuredSpindleCount w)
    (allowDuplicateCommands w) v (buffer w) (state w) (lastTrafficTs w)
    (heartbeatTimer w) (reconnectTimer w) (reconnectDelay w) (commandSeq w)
    (_lastCommandId w) (now w) (events w).
Definition set_buffer v (w : World) : World :=
  mkWorld (autoReconnect w) (validateFrames w) (configuredSpindleCount w)
    (allowDuplicateCommands w) (socket w) v (state w) (lastTrafficTs w)
    (heartbeatTimer w) (reconnectTimer w) (reconnectDelay w) (commandSeq w)
    (_lastCommandId w) (now w) (events w).
Definition with_state (f : State -> State) (w : World) : World :=
  mkWorld (autoReconnect w) (validateFrames w) (configuredSpindleCount w)
    (allowDuplicateCommands w) (socket w) (buffer w) (f (state w)) (lastTrafficTs w)
    (heartbeatTimer w) (reconnectTimer w) (reconnectDelay w) (commandSeq w)
    (_lastCommandId w) (now w) (events w).
Definition set_lastTrafficTs v (w : World) : World :=
  mkWorld (autoReconnect w) (validateFrames w) (configuredSpindleCount w)
    (allowDuplicateCommands w) (socket w) (buffer w) (state w) v
    (heartbeatTimer w) (reconnectTimer w) (reconnectDelay w) (commandSeq w)
    (_lastCommandId w) (now w) (events w).
Definition set_heartbeatTimer v (w : World) : World :=
  mkWorld (autoReconnect w) (validateFrames w) (configuredSpindleCount w)
    (allowDuplicateCommands w) (socket w) (buffer w) (state w) (lastTrafficTs w)
    v (reconnectTimer w) (reconnectDelay w) (commandSeq w)
    (_lastCommandId w) (now w) (events w).
Definition set_reconnectTimer v (w : World) : World :=
  mkWorld (autoReconnect w) (validateFrames w) (configuredSpindleCount w)
    (allowDuplicateCommands w) (socket w) (buffer w) (state w) (lastTrafficTs w)
    (heartbeatTimer w) v (reconnectDelay w) (commandSeq w)
    (_lastCommandId w) (now w) (events w).
Definition set_reconnectDelay v (w : World) : World :=
  mkWorld (autoReconnect w) (validateFrames w) (configuredSpindleCount w)
    (allowDuplicateCommands w) (socket w) (buffer w) (state w) (lastTrafficTs w)
    (heartbeatTimer w) (reconnectTimer w) v (commandSeq w)
    (_lastCommandId w) (now w) (events w).
Definition set_commandSeq v (w : World) : World :=
  mkWorld (autoReconnect w) (validateFrames w) (configuredSpindleCount w)
    (allowDuplicateCommands w) (socket w) (buffer w) (state w) (lastTrafficTs w)
    (heartbeatTimer w) (reconnectTimer w) (reconnectDelay w) v
    (_lastCommandId w) (now w) (events w).
Definition set_lastCommandId v (w : World) : World :=
  mkWorld (autoReconnect w) (validateFrames w) (configuredSpindleCount w)
    (allowDuplicateCommands w) (socket w) (buffer w) (state w) (lastTrafficTs w)
    (heartbeatTimer w) (reconnectTimer w) (reconnectDelay w) (commandSeq w)
    v (now w) (events w).
Definition set_now v (w : World) : World :=
  mkWorld (autoReconnect w) (validateFrames w) (configuredSpindleCount w)
    (allowDuplicateCommands w) (socket w) (buffer w) (state w) (lastTrafficTs w)
    (heartbeatTimer w) (reconnectTimer w) (reconnectDelay w) (commandSeq w)
    (_lastCommandId w) v (events w).
Definition add_event (e : Ev.t) (w : World) : World :=
  mkWorld (autoReconnect w) (validateFrames w) (configuredSpindleCount w)
    (allowDuplicateCommands w) (socket w) (buffer w) (state w) (lastTrafficTs w)
    (heartbeatTimer w) (reconnectTimer w) (reconnectDelay w) (commandSeq w)
    (_lastCommandId w) (now w) (events w ++ [e])%list.

(** The texts handed to [socket.write] so far. *)
Definition wire (w : World) : list string :=
  match socket w with Some sk => written sk | None => [] end.

(** ** Computations: state, exceptions, and a loop that may not end *)

Inductive Res (A : Type) : Type :=
| Ok (a : A)
| Throw (e : Err)
| Hang.
Arguments Ok {A} a.
Arguments Throw {A} e.
Arguments Hang {A}.

Definition M (A : Type) : Type := World -> Res A * World.

Definition ret {A} (a : A) : M A := fun w => (Ok a, w).
Definition throw {A} (e : Err) : M A := fun w => (Throw e, w).
Definition hang {A} : M A := fun w => (Hang, w).
Definition bind {A B} (m : M A) (k : A -> M B) : M B :=
  fun w =>
    match m w with
    | (Ok a, w') => k a w'
    | (Throw e, w') => (Throw e, w')
    | (Hang, w') => (Hang, w')
    end.
Definition get : M World := fun w => (Ok w, w).
Definition modify (f : World -> World) : M unit := fun w => (Ok tt, f w).
Definition update (f : State -> State) : M unit := modify (with_state f).
Definition when (b : bool) (m : M unit) : M unit := if b then m else ret tt.

Notation "x <- c1 ;; c2" := (bind c1 (fun x => c2))
  (at level 61, c1 at next level, right associativity).
Notation "c1 ;; c2" := (bind c1 (fun _ => c2))
  (at level 61, right associativity).

(** [try { m } catch (err) { h err }]. *)
Definition try_catch {A} (m : M A) (h : Err -> M A) : M A :=
  fun w =>
    match m w with
    | (Throw e, w') => h e w'
    | r => r
    end.

(** [try { m } finally { fin }]. *)
Definition try_finally {A} (m : M A) (fin : M unit) : M A :=
  fun w =>
    match m w with
    | (Hang, w') => (Hang, w')
    | (r, w') =>
        match fin w' with
        | (Ok _, w'') => (r, w'')
        | (Throw e, w'') => (Throw e, w'')
        | (Hang, w'') => (Hang, w'')
        end
    end.

Fixpoint for_each {A} (f : A -> M unit) (l : list A) : M unit :=
  match l with
  | [] => ret tt
  | a :: l' => f a ;; for_each f l'
  end.

(* ================================================================== *)
(** * Framing: encoding *)
(* ================================================================== *)

(** The text [sendMID] hands to [socket.write]. *)
Definition frame_text (mid : N) (payload : string) (expectAck : bool) : string :=
  let midStr := Js.padStart 4 "0" (Js.toString mid) in
  let rev := "001" in
  let noAck := if expectAck then "0" else "1" in
  let station := "01" in
  let spindle := "01" in
  let spare := "    " in
  let headerRest := rev ++ noAck ++ station ++ spindle ++ spare in
  let body := midStr ++ headerRest ++ payload in
  let len := Js.padStart 4 "0" (Js.toString (N.of_nat (String.length body + 4))) in
  len ++ body.

(* ================================================================== *)
(** * Framing: decoding *)
(* ================================================================== *)

(** An index argument of [slice] against a text of length [len]: [NaN]
    is 0, a negative index counts from the end, all clamped. *)
Definition rel_index (len : nat) (n : Js.num) : nat :=
  match n with
  | Js.NaN => O
  | Js.Int z =>
      if z <? 0 then Z.to_nat (Z.max 0 (Z.of_nat len + z))
      else Nat.min (Z.to_nat z) len
  end.

(** What one turn of the [while] loop of [_onData] decides from the
    buffer alone. *)
Inductive Framing : Type :=
| Wait                                  (* leave the loop, keep the buffer *)
| Resync (e : FrameError)               (* frame error: drop one character *)
| Frame (mid : Js.num) (frame payload rest : string).

Definition next_frame (validate : bool) (buffer : string) : Framing :=
  if (String.length buffer <? 4)%nat then Wait else
  let lenStr := Js.slice 0 4 buffer in
  if validate && negb (Js.four_digits lenStr) then
    Resync (invalid_length (Js.slice 0 20 buffer))
  else
    let len := Js.parseInt lenStr in
    if validate && (Js.lt len (Js.Int 20) || Js.gt len (Js.Int 9999)) then
      Resync (length_out_of_range len)
    else if Js.lt (Js.Int (Z.of_nat (String.length buffer))) len then Wait
    else
      let n := rel_index (String.length buffer) len in
      let frame := Js.slice 4 n buffer in
      let rest := Js.slice_from n buffer in
      let mid := Js.parseInt (Js.slice 0 4 frame) in
      let payload := Js.slice_from 16 frame in
      Frame mid frame payload rest.

(* ================================================================== *)
(** * MID parsers *)
(* ================================================================== *)

Definition char_is (i : nat) (c : ascii) (p : string) : bool :=
  match Js.char_at i p with
  | Some c' => Ascii.eqb c' c
  | None => false
  end.

Definition char_str (i : nat) (p : string) : option string :=
  match Js.char_at i p with
  | Some c => Some (String c EmptyString)
  | None => None
  end.

Definition jv_status (s : option string) : JV :=
  match s with Some x => Str x | None => Undefined end.

Fixpoint alarm_codes (fuel : nat) (str : string) : list string :=
  match fuel with
  | O => []
  | S fuel' =>
      match str with
      | EmptyString => []
      | _ =>
          let code := Js.slice 0 4 str in
          let tail := alarm_codes fuel' (Js.slice_from 4 str) in
          if String.eqb code "0000" then tail else code :: tail
      end
  end.

Definition _parseAlarmList (str : string) : list string :=
  alarm_codes (String.length str) str.

Definition _parse0061 (rev : Js.num) (p : string) : Result :=
  if Js.strict_eq rev (Js.Int 1) then
    let torqueStatus := char_str 22 p in
    let angleStatus := char_str 23 p in
    {| tighteningId := Js.slice 0 10 p;
       spindle := Js.Int 1;
       torque := Js.Number (Js.slice 10 16 p);
       angle := Js.Number (Js.slice 16 22 p);
       torqueStatus := torqueStatus;
       angleStatus := angleStatus;
       ok := char_is 22 "1" p && char_is 23 "1" p;
       extra := [] |}
  else if Js.strict_eq rev (Js.Int 4) then
    {| tighteningId := Js.slice 157 167 p;
       spindle := Js.Int 1;
       torque := Js.Number (Js.slice 92 98 p);
       angle := Js.Number (Js.slice 113 118 p);
       torqueStatus := char_str 72 p;
       angleStatus := char_str 73 p;
       ok := char_is 71 "1" p;
       extra :=
         [ ("cellId", Num (Js.Number (Js.slice 0 4 p)));
           ("channelId", Num (Js.Number (Js.slice 4 6 p)));
           ("controllerName", Str (Js.trim (Js.slice 6 31 p)));
           ("vin", Str (Js.trim (Js.slice 31 56 p)));
           ("jobId", Num (Js.Number (Js.slice 56 60 p)));
           ("paramSetId", Num (Js.Number (Js.slice 60 63 p)));
           ("batchSize", Num (Js.Number (Js.slice 63 67 p)));
           ("batchCounter", Num (Js.Number (Js.slice 67 71 p)));
           ("torqueMin", Centi (Js.Number (Js.slice 74 80 p)));
           ("torqueMax", Centi (Js.Number (Js.slice 80 86 p)));
           ("torqueTarget", Centi (Js.Number (Js.slice 86 92 p)));
           ("angleMin", Num (Js.Number (Js.slice 98 103 p)));
           ("angleMax", Num (Js.Number (Js.slice 103 108 p)));
           ("angleTarget", Num (Js.Number (Js.slice 108 113 p)));
           ("timestamp", Str (Js.slice 118 137 p));
           ("lastPsetChange", Str (Js.slice 137 156 p));
           ("batchStatus", jv_status (char_str 156 p)) ] |}
  else
    let n := Js.Number (Js.slice 10 12 p) in
    let spindleNum := if Js.truthy n then n else Js.Int 1 in
    let torqueStatus := Js.charAt_or 42 "0" p in
    let angleStatus := Js.charAt_or 43 "0" p in
    let batchStatus := Js.charAt_or 49 "0" p in
    {| tighteningId := Js.slice 0 10 p;
       spindle := spindleNum;
       torque := Js.Number (Js.slice 12 18 p);
       angle := Js.Number (Js.slice 18 24 p);
       torqueStatus := Some torqueStatus;
       angleStatus := Some angleStatus;
       ok := String.eqb torqueStatus "1" && String.eqb angleStatus "1";
       extra :=
         [ ("torqueMin", Centi (Js.Number (Js.slice 24 30 p)));
           ("torqueMax", Centi (Js.Number (Js.slice 30 36 p)));
           ("torqueFinal", Centi (Js.Number (Js.slice 36 42 p)));
           ("timestamp", Str (Js.slice 44 63 p));
           ("batchStatus", Str batchStatus);
           ("vin", Str (Js.trim (Js.slice 63 88 p)));
           ("jobId", Num (Js.Number (Js.slice 88 92 p)));
           ("paramSetId", Num (Js.Number (Js.slice 92 95 p))) ] |}.

Definition _parse0065 (p : string) : Result :=
  let torqueStatus := Js.charAt_or 24 "0" p in
  let angleStatus := Js.charAt_or 25 "0" p in
  let n := Js.Number (Js.slice 10 12 p) in
  {| tighteningId := Js.slice 0 10 p;
     spindle := if Js.truthy n then n else Js.Int 1;
     torque := Js.Number (Js.slice 12 18 p);
     angle := Js.Number (Js.slice 18 24 p);
     torqueStatus := Some torqueStatus;
     angleStatus := Some angleStatus;
     ok := String.eqb torqueStatus "1" && String.eqb angleStatus "1";
     extra := [ ("timestamp", Str (Js.slice 26 45 p)) ] |}.

(** [_parseMID(mid, p)]; it reads [this.state.protocol.revision] for
    MID 61. *)
Definition _parseMID (s : State) (mid : Js.num) (p : string) : Parsed :=
  match mid with
  | Js.Int 2 | Js.Int 3 =>
      let revStr := Js.trim (Js.slice 0 2 p) in
      let revision := Js.parseInt revStr in
      PCommStartAck (if Js.isNaN revision then Js.Int 1 else revision)
  | Js.Int 4 =>
      PCommandError (Js.Number (Js.slice 0 4 p)) (Js.Number (Js.slice 4 8 p))
                    (Js.trim (Js.slice_from 8 p))
  | Js.Int 5 => PCommandAccepted (Js.Number (Js.slice 0 4 p))
  | Js.Int 11 => PParamSet (Js.Number (Js.slice 0 3 p))
  | Js.Int 21 => PBatchDecrement (Js.Number (Js.slice 0 4 p))
  | Js.Int 41 =>
      PToolStatus (char_is 0 "1" p) (char_is 1 "1" p) (char_is 2 "1" p)
                  (char_is 3 "1" p)
  | Js.Int 51 => PVin (Js.trim p)
  | Js.Int 52 => PVinRequired
  | Js.Int 35 => PJob (Js.Number (Js.slice 0 4 p))
  | Js.Int 31 =>
      PBatch (Js.Number (Js.slice 0 4 p)) (Js.Number (Js.slice 4 8 p))
             (Js.Number (Js.slice 8 12 p))
  | Js.Int 61 => PResult (_parse0061 (Protocol.revision (protocol s)) p)
  | Js.Int 65 => PResult (_parse0065 p)
  | Js.Int 70 =>
      PAlarm {| alarmCode := Js.slice 0 4 p;
                alarm_controllerReady := char_is 4 "1" p;
                alarm_toolReady := char_is 5 "1" p;
                alarm_timestamp := Js.slice 6 25 p;
                alarm_message := Js.trim (Js.slice_from 25 p) |}
  | Js.Int 76 => PAlarmStatus (char_is 0 "1" p) (_parseAlarmList (Js.slice_from 1 p))
  | Js.Int 101 =>
      PMultiSpindle (Js.slice 0 10 p) (Js.Number (Js.slice 10 12 p))
                    (char_is 12 "1" p) (Js.slice 13 32 p)
  | _ => PRaw p
  end.

(* ================================================================== *)
(** * Sample environments *)
(* ================================================================== *)

(** Listeners that never throw. *)
Definition quiet_listeners : Ev.t -> bool := fun _ => false.

(** Listeners of [spindleResult] that always throw. *)
Definition failing_result_listener : Ev.t -> bool :=
  fun e => match e with Ev.spindleResult _ => true | _ => false end.

(** A runtime whose armed timers do not serialise and whose spent timers
    serialise to an empty object. *)
Definition sample_timer_toJSON : TimerState -> option JV :=
  fun st => match st with Armed => None | Spent => Some (Obj []) end.

(* ================================================================== *)
(** * Client *)
(* ================================================================== *)

Section Client.

(** The listeners registered on the client: whether the listeners of an
    event throw when it is emitted. *)
Variable listener_throws : Ev.t -> bool.

(** The runtime's JSON image of a timer handle (see [JSON_stringify]). *)
Variable timer_toJSON : TimerState -> option JV.

Definition emit (e : Ev.t) : M unit :=
  fun w => (if listener_throws e then Throw ListenerError else Ok tt, add_event e w).

Definition getState : M JV :=
  fun w =>
    match getState_value timer_toJSON (state w) with
    | Some j => (Ok j, w)
    | None => (Throw (TypeError "Converting circular structure to JSON"), w)
    end.

(** ** Heartbeat *)

Definition _touchTraffic : M unit := modify (fun w => set_lastTrafficTs (now w) w).

Definition _stopHeartbeat : M unit :=
  w <- get ;;
  match heartbeatTimer w with
  | Some _ => modify (set_heartbeatTimer None)
  | None => ret tt
  end.

Definition _startHeartbeat : M unit :=
  _stopHeartbeat ;; modify (set_heartbeatTimer (Some Armed)).

(** ** Framing *)

Definition socket_write (text : string) : M unit :=
  fun w =>
    match socket w with
    | Some sk =>
        (Ok tt, set_socket (Some (mkSocket (written sk ++ [text])%list (destroyed sk))) w)
    | None => (Throw (TypeError "Cannot read properties of null (reading 'write')"), w)
    end.

Definition has_pending (mid : N) (s : State) : bool :=
  existsb (fun c => N.eqb (pc_mid (snd c)) mid) (pendingCommands s).

Definition sendMID (mid : N) (payload : string) (expectAck : bool) : M (option N) :=
  _touchTraffic ;;
  w <- get ;;
  when (expectAck && negb (allowDuplicateCommands w))
       (when (has_pending mid (state w)) (throw (CommandError mid))) ;;
  let text := frame_text mid payload expectAck in
  when expectAck
       (w <- get ;;
        let cmdId := N.succ (commandSeq w) in
        modify (set_commandSeq cmdId) ;;
        update (with_pendingCommands
                  (map_set N.eqb cmdId (mkPending mid (now w)))) ;;
        modify (set_lastCommandId (Some cmdId))) ;;
  socket_write text ;;
  w <- get ;;
  ret (_lastCommandId w).

(** ** Tightening lifecycle *)

Definition _clearWatchdog : M unit :=
  w <- get ;;
  match Tightening.watchdog (tightening (state w)) with
  | Some _ => update (with_tightening (Set_.watchdog None))
  | None => ret tt
  end.

Definition _startWatchdog : M unit :=
  _clearWatchdog ;;
  update (with_tightening (Set_.watchdog (Some Armed))).

(** The callback armed by [_startWatchdog]. *)
Definition watchdog_callback : M unit :=
  w <- get ;;
  let partialResults :=
    map_values (Tightening.pendingSpindles (tightening (state w))) in
  update (with_tightening (Set_.inProgress false)) ;;
  update (with_tightening (Set_.pendingSpindles [])) ;;
  emit (Ev.tighteningIncomplete (Tool.spindleCount (tool (state w)))
                                (List.length partialResults) partialResults).

Definition _startTighteningCycle : M unit :=
  update (with_tightening (Set_.inProgress true)) ;;
  w <- get ;;
  update (with_tightening (Set_.cycleStartTs (Some (now w)))) ;;
  _startWatchdog ;;
  emit (Ev.tighteningCycleStarted (now w)).

Definition vin_truthy (v : option string) : bool :=
  match v with
  | Some (String _ _) => true
  | _ => false
  end.

Definition vin_text (v : option string) : string :=
  match v with Some x => x | None => "" end.

Definition ts_number (t : option Z) : Z :=
  match t with Some x => x | None => 0 end.

Definition _handleTighteningResult (d : Result) : M unit :=
  w <- get ;;
  when (negb (Product.vinLocked (product (state w)))
        && vin_truthy (Product.vin (product (state w))))
       (update (with_product (Set_.vinLocked true)) ;;
        emit (Ev.vinLocked (vin_text (Product.vin (product (state w)))))) ;;
  w <- get ;;
  when (match Tool.spindleCountSource (tool (state w)) with
        | src_default => Js.gt (spindle d) (Tool.spindleCount (tool (state w)))
        | _ => false
        end)
       (update (with_tool (Set_.spindleCount (spindle d))) ;;
        update (with_tool (Set_.spindleCountSource src_mid061)) ;;
        emit (Ev.spindleCountUpdated (spindle d) src_mid061)) ;;
  emit (Ev.spindleResult d) ;;
  update (with_tightening (fun t =>
    Set_.pendingSpindles
      (map_set Js.same_value_zero (spindle d) d (Tightening.pendingSpindles t)) t)) ;;
  w <- get ;;
  if Js.lt (Js.Int (Z.of_nat (List.length (Tightening.pendingSpindles
                                            (tightening (state w))))))
           (Tool.spindleCount (tool (state w)))
  then ret tt
  else
    _clearWatchdog ;;
    let results := map_values (Tightening.pendingSpindles (tightening (state w))) in
    let overallOk := forallb ok results in
    update (with_tightening (Set_.pendingSpindles [])) ;;
    update (with_tightening (Set_.inProgress false)) ;;
    when (Batch.active (batch (state w)) && negb (Batch.complete (batch (state w))))
         (update (with_batch (fun b =>
            Set_.counter (Js.add (Batch.counter b) (Js.Int 1)) b)) ;;
          w <- get ;;
          let b := batch (state w) in
          emit (Ev.batchProgress (Batch.counter b) (Batch.size b)
                  (Js.sub (Js.of_nullable (Batch.size b)) (Batch.counter b))) ;;
          when (Js.ge (Batch.counter b) (Js.of_nullable (Batch.size b)))
               (update (with_batch (Set_.complete true)) ;;
                update (with_batch (Set_.batch_active false)) ;;
                w <- get ;;
                emit (Ev.batchCompleted (batch (state w))))) ;;
    w <- get ;;
    emit (Ev.tighteningCycleCompleted results overallOk
            (now w - ts_number (Tightening.cycleStartTs (tightening (state w))))).

(** ** Pending commands *)

Fixpoint first_pending (mid : Js.num) (m : list (N * PendingCommand)) : option N :=
  match m with
  | [] => None
  | (cmdId, cmd) :: m' =>
      if Js.strict_eq (Js.Int (Z.of_N (pc_mid cmd))) mid then Some cmdId
      else first_pending mid m'
  end.

Definition _resolvePendingCommand (mid : Js.num) (success : bool)
    (data : option Parsed) : M unit :=
  w <- get ;;
  match first_pending mid (pendingCommands (state w)) with
  | Some cmdId =>
      update (with_pendingCommands (map_delete N.eqb cmdId)) ;;
      emit (if success then Ev.commandSuccess mid cmdId data
            else Ev.commandFailed mid cmdId data)
  | None => ret tt
  end.

Definition _clearPendingCommands : M unit :=
  w <- get ;;
  for_each (fun e => emit (Ev.commandAborted (pc_mid (snd e)) (fst e)))
           (pendingCommands (state w)) ;;
  update (with_pendingCommands (fun _ => [])).

(** The callback of the [timeout] timer of entry [cmdId]. *)
Definition command_timeout_callback (cmdId mid : N) : M unit :=
  update (with_pendingCommands (map_delete N.eqb cmdId)) ;;
  emit (Ev.commandTimeout mid cmdId).

(** ** Public API: subscriptions *)

Definition subscribeTighteningResults : M unit :=
  sendMID 60 "" true ;;
  update (with_protocol (Set_.sub_tighteningResults true)).

Definition unsubscribeTighteningResults : M unit :=
  sendMID 63 "" false ;;
  update (with_protocol (Set_.sub_tighteningResults false)).

Definition subscribeAlarms : M unit :=
  sendMID 70 "" true ;;
  update (with_protocol (Set_.sub_alarms true)).

Definition unsubscribeAlarms : M unit :=
  sendMID 73 "" false ;;
  update (with_protocol (Set_.sub_alarms false)).

Definition acknowledgeAlarm : M unit :=
  sendMID 78 "" true ;; ret tt.

(** ** MID to state *)

(** [_handleMID(mid, d)].  [d] is what [_parseMID] made of the payload of
    this [mid], so each case of the [switch] meets the shape it reads. *)
Definition _handleMID (mid : Js.num) (d : Parsed) : M unit :=
  update (with_connection (Set_.lastMID (Some mid))) ;;
  match mid, d with
  | Js.Int 2, PCommStartAck revision
  | Js.Int 3, PCommStartAck revision =>
      update (with_protocol (Set_.revision revision)) ;;
      update (with_connection (Set_.linkLayerReady true)) ;;
      emit (Ev.linkEstablished revision) ;;
      subscribeTighteningResults ;;
      subscribeAlarms
  | Js.Int 4, PCommandError failedMid _ _ =>
      _resolvePendingCommand failedMid false (Some d) ;;
      emit (Ev.commandError d) ;;
      w <- get ;;
      when (Batch.pendingReset (batch (state w)))
           (update (with_batch (Set_.pendingReset false)) ;;
            emit (Ev.batchResetFailed d))
  | Js.Int 5, PCommandAccepted acceptedMid =>
      _resolvePendingCommand acceptedMid true None ;;
      emit (Ev.commandAccepted acceptedMid) ;;
      w <- get ;;
      when (Batch.pendingReset (batch (state w))
            && Js.strict_eq acceptedMid (Js.Int 20))
           (update (with_batch (Set_.counter (Js.Int 0))) ;;
            update (with_batch (Set_.complete false)) ;;
            update (with_batch (Set_.pendingReset false)) ;;
            emit Ev.batchResetConfirmed)
  | Js.Int 11, PParamSet paramSetId =>
      update (with_job (Set_.paramSetId (Some paramSetId)))
  | Js.Int 21, PBatchDecrement batchCounter =>
      update (with_batch (Set_.counter batchCounter))
  | Js.Int 41, PToolStatus controllerReady toolEnabled toolRunning alarmActive =>
      update (with_controller (Set_.ready controllerReady)) ;;
      update (with_tool (Set_.enabled toolEnabled)) ;;
      update (with_tool (Set_.running toolRunning)) ;;
      update (with_controller (Set_.errorActive alarmActive)) ;;
      w <- get ;;
      when (toolRunning && negb (Tightening.inProgress (tightening (state w))))
           _startTighteningCycle
  | Js.Int 51, PVin vin =>
      update (with_product (Set_.vin (Some vin))) ;;
      update (with_product (Set_.vinValid true))
  | Js.Int 52, PVinRequired =>
      update (with_product (Set_.vinRequired true)) ;;
      emit Ev.vinRequired
  | Js.Int 35, PJob jobId =>
      update (with_job (Set_.jobId (Some jobId))) ;;
      update (with_job (Set_.job_active true)) ;;
      update (with_job (Set_.job_locked true)) ;;
      update (with_product (Set_.vinLocked false)) ;;
      emit (Ev.jobSelected jobId)
  | Js.Int 31, PBatch batchId batchSize batchCounter =>
      update (with_batch (fun _ =>
        Batch.mk (Some batchId) (Some batchSize) batchCounter true false true false)) ;;
      update (with_product (Set_.vinLocked false)) ;;
      w <- get ;;
      emit (Ev.batchStarted (batch (state w)))
  | Js.Int 61, PResult r
  | Js.Int 65, PResult r =>
      try_finally (_handleTighteningResult r)
                  (sendMID 62 "" false ;; ret tt)
  | Js.Int 70, PAlarm a =>
      update (with_controller (fun c =>
        Set_.alarms (Controller.alarms c ++ [a])%list c)) ;;
      update (with_controller (Set_.errorActive true)) ;;
      emit (Ev.alarm a)
  | Js.Int 76, PAlarmStatus alarmStatus _ =>
      when (negb alarmStatus)
           (update (with_controller (Set_.alarms [])) ;;
            update (with_controller (Set_.errorActive false))) ;;
      emit (Ev.alarmStatus d)
  | Js.Int 101, PMultiSpindle _ spindleCount _ _ =>
      w <- get ;;
      when (match Tool.spindleCountSource (tool (state w)) with
            | src_config | src_manual => false
            | _ => Js.gt spindleCount (Js.Int 0)
            end)
           (update (with_tool (Set_.spindleCount spindleCount)) ;;
            update (with_tool (Set_.spindleCountSource src_mid101)) ;;
            emit (Ev.spindleCountUpdated spindleCount src_mid101)) ;;
      emit (Ev.multiSpindleCycleComplete d)
  | _, _ => ret tt
  end ;;
  snapshot <- getState ;;
  emit (Ev.stateChanged snapshot).

(** The [try]/[catch] of [_onData]: parse one frame and project it. *)
Definition process_frame (mid : Js.num) (payload : string) : M unit :=
  try_catch
    (w <- get ;;
     let parsed := _parseMID (state w) mid payload in
     _handleMID mid parsed)
    (fun err => emit (Ev.parseError mid err)).

Fixpoint _onData_loop (fuel : nat) : M unit :=
  match fuel with
  | O => hang
  | S fuel' =>
      w <- get ;;
      match next_frame (validateFrames w) (buffer w) with
      | Wait => ret tt
      | Resync e =>
          emit (Ev.frameError e) ;;
          modify (fun w => set_buffer (Js.slice_from 1 (buffer w)) w) ;;
          _onData_loop fuel'
      | Frame mid _ payload rest =>
          modify (set_buffer rest) ;;
          process_frame mid payload ;;
          _onData_loop fuel'
      end
  end.

Definition _onData (data : string) : M unit :=
  _touchTraffic ;;
  modify (fun w => set_buffer (buffer w ++ Js.strip_nul data) w) ;;
  w <- get ;;
  _onData_loop (S (String.length (buffer w))).

(** ** Interlocks *)

Definition _check (cmd : string) : M unit :=
  w <- get ;;
  let s := state w in
  when (negb (Connection.connected (connection s)))
       (throw (InterlockError NOT_CONNECTED)) ;;
  when (negb (Connection.linkLayerReady (connection s)))
       (throw (InterlockError LINK_NOT_READY)) ;;
  when (String.eqb cmd "startTightening")
       (when (negb (Tool.enabled (tool s))) (throw (InterlockError TOOL_DISABLED)) ;;
        when (Tool.running (tool s)) (throw (InterlockError TOOL_RUNNING)) ;;
        when (negb (Controller.ready (controller s)))
             (throw (InterlockError CTRL_NOT_READY)) ;;
        when (Controller.errorActive (controller s))
             (throw (InterlockError ALARM_ACTIVE)) ;;
        when (Product.vinRequired (product s) && negb (Product.vinValid (product s)))
             (throw (InterlockError VIN_REQUIRED)) ;;
        when (negb (Job.active (job s))) (throw (InterlockError JOB_NOT_ACTIVE))).

(** ** Public API: commands *)

Definition startTightening : M (option N) :=
  _check "startTightening" ;;
  sendMID 43 "" true.

Definition downloadVIN (vin : string) : M (option N) :=
  when (25 <? String.length vin)%nat (throw (Error "VIN exceeds 25 characters")) ;;
  sendMID 50 (Js.padEnd 25 " " vin) true.

Definition selectJob (jobId : N) : M (option N) :=
  let payload := Js.padStart 4 "0" (Js.toString jobId) in
  sendMID 34 payload true.

Definition selectParameterSet (paramSetId : N) : M (option N) :=
  let payload := Js.padStart 3 "0" (Js.toString paramSetId) in
  sendMID 18 payload true.

Definition enableTool : M (option N) := sendMID 42 "" true.

Definition disableTool : M (option N) := sendMID 45 "" true.

Definition resetBatch : M (option N) :=
  update (with_batch (Set_.pendingReset true)) ;;
  sendMID 20 "" true.

Definition decrementBatch : M (option N) := sendMID 21 "" true.

(** ** Public API: configuration and state *)

Definition setSpindleCount (count : Js.num) : M unit :=
  when (Js.lt count (Js.Int 1) || Js.gt count (Js.Int 99))
       (throw (Error "Spindle count must be between 1 and 99")) ;;
  update (with_tool (Set_.spindleCount count)) ;;
  update (with_tool (Set_.spindleCountSource src_manual)) ;;
  emit (Ev.spindleCountUpdated count src_manual).

Definition isConnected (w : World) : bool := Connection.connected (connection (state w)).

Definition isReady (w : World) : bool :=
  Connection.connected (connection (state w))
  && Connection.linkLayerReady (connection (state w))
  && Controller.ready (controller (state w))
  && negb (Controller.errorActive (controller (state w))).

Definition getSpindleCount (w : World) : Js.num * SpindleCountSource :=
  (Tool.spindleCount (tool (state w)), Tool.spindleCountSource (tool (state w))).

(** ** Connection *)

Definition _stopReconnect : M unit :=
  w <- get ;;
  match reconnectTimer w with
  | Some _ => modify (set_reconnectTimer None)
  | None => ret tt
  end.

Definition _scheduleReconnect : M unit :=
  _stopReconnect ;;
  update (with_connection (Set_.reconnecting true)) ;;
  update (with_connection (fun c =>
    Set_.reconnectAttempts (Connection.reconnectAttempts c + 1) c)) ;;
  w <- get ;;
  emit (Ev.reconnecting (Connection.reconnectAttempts (connection (state w)))
                        (reconnectDelay w)) ;;
  modify (set_reconnectTimer (Some Armed)).

(** The callback [net.createConnection] runs once the socket is open. *)
Definition connect_callback : M unit :=
  update (with_connection (Set_.connected true)) ;;
  update (with_connection (Set_.reconnecting false)) ;;
  update (with_connection (Set_.reconnectAttempts 0)) ;;
  modify (set_reconnectDelay RECONNECT_INITIAL_DELAY_MS) ;;
  w <- get ;;
  match configuredSpindleCount w with
  | Some n =>
      update (with_tool (Set_.spindleCount n)) ;;
      update (with_tool (Set_.spindleCountSource src_config))
  | None => ret tt
  end ;;
  emit Ev.connected ;;
  _startHeartbeat ;;
  sendMID 1 "" false ;;
  ret tt.

(** [connect()]; [opens] tells whether the transport opens the socket or
    reports an error.  [Ok true] resolves the promise, [Ok false] rejects
    it. *)
Definition connect (opens : bool) : M bool :=
  w <- get ;;
  if Connection.connected (connection (state w)) then ret true
  else
    modify (set_socket (Some (mkSocket [] false))) ;;
    if opens then connect_callback ;; ret true
    else emit Ev.error ;; ret false.

Definition disconnect : M unit :=
  modify (set_autoReconnect false) ;;
  _stopReconnect ;;
  w <- get ;;
  match socket w with
  | Some _ =>
      sendMID 2 "" false ;;
      modify (fun w =>
        match socket w with
        | Some sk => set_socket (Some (mkSocket (written sk) true)) w
        | None => w
        end)
  | None => ret tt
  end.

Definition _onClose : M unit :=
  w <- get ;;
  let wasConnected := Connection.connected (connection (state w)) in
  _stopHeartbeat ;;
  _clearWatchdog ;;
  _clearPendingCommands ;;
  update (with_connection (Set_.connected false)) ;;
  update (with_connection (Set_.linkLayerReady false)) ;;
  modify (set_buffer "") ;;
  emit Ev.disconnected ;;
  w <- get ;;
  when (autoReconnect w && wasConnected) _scheduleReconnect.

(** The callback armed by [_scheduleReconnect]. *)
Definition reconnect_callback (opens : bool) : M unit :=
  resolved <- connect opens ;;
  when (negb resolved)
       (modify (fun w =>
          set_reconnectDelay
            (Z.min (reconnectDelay w * RECONNECT_BACKOFF_FACTOR) RECONNECT_MAX_DELAY_MS) w) ;;
        _scheduleReconnect).

(** The callback of the heartbeat interval. *)
Definition heartbeat_callback : M unit :=
  w <- get ;;
  if negb (Connection.connected (connection (state w))) then ret tt
  else
    let idle := now w - lastTrafficTs w in
    when (HEARTBEAT_INTERVAL_MS <=? idle) (sendMID 9999 "" false ;; ret tt).

(* ================================================================== *)
(** * Executions *)
(* ================================================================== *)

Inductive Call : Type :=
| call_connect (opens : bool)
| call_disconnect
| call_sendMID (mid : N) (payload : string) (expectAck : bool)
| call_subscribeTighteningResults
| call_unsubscribeTighteningResults
| call_subscribeAlarms
| call_unsubscribeAlarms
| call_acknowledgeAlarm
| call_startTightening
| call_downloadVIN (vin : string)
| call_selectJob (jobId : N)
| call_selectParameterSet (paramSetId : N)
| call_enableTool
| call_disableTool
| call_resetBatch
| call_decrementBatch
| call_setSpindleCount (count : Js.num)
| call_getState.

Definition run_call (c : Call) : M unit :=
  match c with
  | call_connect opens => connect opens ;; ret tt
  | call_disconnect => disconnect
  | call_sendMID mid payload expectAck => sendMID mid payload expectAck ;; ret tt
  | call_subscribeTighteningResults => subscribeTighteningResults
  | call_unsubscribeTighteningResults => unsubscribeTighteningResults
  | call_subscribeAlarms => subscribeAlarms
  | call_unsubscribeAlarms => unsubscribeAlarms
  | call_acknowledgeAlarm => acknowledgeAlarm
  | call_startTightening => startTightening ;; ret tt
  | call_downloadVIN vin => downloadVIN vin ;; ret tt
  | call_selectJob jobId => selectJob jobId ;; ret tt
  | call_selectParameterSet paramSetId => selectParameterSet paramSetId ;; ret tt
  | call_enableTool => enableTool ;; ret tt
  | call_disableTool => disableTool ;; ret tt
  | call_resetBatch => resetBatch ;; ret tt
  | call_decrementBatch => decrementBatch ;; ret tt
  | call_setSpindleCount count => setSpindleCount count
  | call_getState => getState ;; ret tt
  end.

(** What the event loop can run next: a call by the application, data or
    a close from the socket, a timer that is armed, or the passing of
    time. *)
Inductive Action : Type :=
| act_call (c : Call)
| act_data (data : string)
| act_close
| act_watchdog
| act_command_timeout (cmdId : N)
| act_heartbeat
| act_reconnect (opens : bool)
| act_elapse (ms : Z).

Fixpoint pending_mid (cmdId : N) (m : list (N * PendingCommand)) : option N :=
  match m with
  | [] => None
  | (k, cmd) :: m' => if N.eqb k cmdId then Some (pc_mid cmd) else pending_mid cmdId m'
  end.

Definition run_action (a : Action) : M unit :=
  match a with
  | act_call c => run_call c
  | act_data data =>
      w <- get ;;
      match socket w with Some _ => _onData data | None => ret tt end
  | act_close =>
      w <- get ;;
      match socket w with Some _ => _onClose | None => ret tt end
  | act_watchdog =>
      w <- get ;;
      match Tightening.watchdog (tightening (state w)) with
      | Some Armed =>
          update (with_tightening (Set_.watchdog (Some Spent))) ;;
          watchdog_callback
      | _ => ret tt
      end
  | act_command_timeout cmdId =>
      w <- get ;;
      match pending_mid cmdId (pendingCommands (state w)) with
      | Some mid => command_timeout_callback cmdId mid
      | None => ret tt
      end
  | act_heartbeat =>
      w <- get ;;
      match heartbeatTimer w with
      | Some Armed => heartbeat_callback
      | _ => ret tt
      end
  | act_reconnect opens =>
      w <- get ;;
      match reconnectTimer w with
      | Some Armed =>
          modify (set_reconnectTimer (Some Spent)) ;;
          reconnect_callback opens
      | _ => ret tt
      end
  | act_elapse ms => modify (fun w => set_now (now w + Z.max 0 ms) w)
  end.

(** One step of the event loop: the world the action leaves behind,
    whether it returned or threw. *)
Definition step (a : Action) (w : World) : World := snd (run_action a w).

Definition run (w : World) (l : list Action) : World := fold_left (fun w a => step a w) l w.

Definition reachable_from (w0 w : World) : Prop := exists l, w = run w0 l.

(** Worlds a client constructed with configuration [c] can be in. *)
Definition reachable (c : Config) (w : World) : Prop :=
  exists t, reachable_from (constructor c t) w.

(* ================================================================== *)
(** * Vocabulary of the properties *)
(* ================================================================== *)

(** The interlock table of [startTightening]: the predicates a state has
    to satisfy, in their order, each with the code of its violation. *)
Definition interlock_table : list ((State -> bool) * InterlockCode) :=
  [ (fun s => Connection.connected (connection s), NOT_CONNECTED);
    (fun s => Connection.linkLayerReady (connection s), LINK_NOT_READY);
    (fun s => Tool.enabled (tool s), TOOL_DISABLED);
    (fun s => negb (Tool.running (tool s)), TOOL_RUNNING);
    (fun s => Controller.ready (controller s), CTRL_NOT_READY);
    (fun s => negb (Controller.errorActive (controller s)), ALARM_ACTIVE);
    (fun s => implb (Product.vinRequired (product s)) (Product.vinValid (product s)),
     VIN_REQUIRED);
    (fun s => Job.active (job s), JOB_NOT_ACTIVE) ].

(** The code of the violated rule of smallest index, if a rule is
    violated. *)
Definition first_violation (s : State) : option InterlockCode :=
  option_map snd (find (fun rule => negb (fst rule s)) interlock_table).

(** [stable I m]: running [m] from a world in [I] leaves a world in [I],
    however [m] ends. *)
Definition stable (I : World -> Prop) {A} (m : M A) : Prop :=
  forall w, I w -> I (snd (m w)).

(** [batch.complete] implies not [batch.active]. *)
Definition complete_inactive (w : World) : Prop :=
  Batch.complete (batch (state w)) = true -> Batch.active (batch (state w)) = false.




(** The MIDs of the entries of [pendingCommands], in table order. *)
Definition pending_mids (s : State) : list N :=
  map (fun e => pc_mid (snd e)) (pendingCommands s).

(** One-per-MID enforcement is on and no MID has two pending entries. *)
Definition one_per_mid (w : World) : Prop :=
  allowDuplicateCommands w = false /\ NoDup (pending_mids (state w)).

(** The events emitted on the way from [w] to [w']. *)
Definition emitted_since (w w' : World) : list Ev.t :=
  skipn (List.length (events w)) (events w').

(** ** Tightening cycles in the event log *)

Definition is_completed (e : Ev.t) : bool :=
  match e with Ev.tighteningCycleCompleted _ _ _ => true | _ => false end.


Definition count_events (p : Ev.t -> bool) (l : list Ev.t) : nat :=
  List.length (filter p l).

(** Reading the log as a sequence of cycles.  A cycle is opened by
    [tighteningCycleStarted] and closed by the next
    [tighteningCycleCompleted] or [tighteningIncomplete].  [None] marks a
    log that is not such a sequence: a start inside an open cycle, or a
    watchdog report with no cycle open.  A [tighteningCycleCompleted] with
    no cycle open is the completion of results that arrived outside any
    cycle. *)
Definition cycle_step (st : option bool) (e : Ev.t) : option bool :=
  match e with
  | Ev.tighteningCycleStarted _ =>
      match st with Some false => Some true | _ => None end
  | Ev.tighteningCycleCompleted _ _ _ =>
      match st with Some _ => Some false | None => None end
  | Ev.tighteningIncomplete _ _ _ =>
      match st with Some true => Some false | _ => None end
  | _ => st
  end.

Definition cycle_state (log : list Ev.t) : option bool :=
  fold_left cycle_step log (Some false).

Definition in_progress (w : World) : bool :=
  Tightening.inProgress (tightening (state w)).

(** The log and the state agree on whether a cycle is open, and a
    watchdog is armed only inside a cycle. *)
Definition cycle_invariant (w : World) : Prop :=
  cycle_state (events w) = Some (in_progress w)
  /\ (Tightening.watchdog (tightening (state w)) = Some Armed ->
      in_progress w = true).



(** ** Frames *)

(** A payload the encoder accepts: 7-bit ASCII without NUL. *)
Definition valid_payload (payload : string) : Prop :=
  Js.all_chars (fun c => let n := nat_of_ascii c in (1 <=? n)%nat && (n <=? 127)%nat)
               payload = true.

(** A number below 10000 is written on four digits and read back. *)
Definition pad4_ok (n : N) : bool :=
  let s := Js.padStart 4 "0" (Js.toString n) in
  (String.length s =? 4)%nat && Js.four_digits s
  && Js.strict_eq (Js.parseInt s) (Js.Int (Z.of_N n)).

(** [total m]: [m] returns or throws; it does not run forever. *)
Definition total {A} (m : M A) : Prop := forall w, fst (m w) <> Hang.

(** The decode buffer holds [b] and frame validation is set to [v]. *)
Definition decoding (b : string) (v : bool) (w : World) : Prop :=
  buffer w = b /\ validateFrames w = v.

(** ** Snapshots *)











(* ================================================================== *)
(** * Vocabulary of the decoder, the command table and the link *)
(* ================================================================== *)

(** Several events appended to the log, oldest first. *)
Definition add_events (l : list Ev.t) (w : World) : World :=
  fold_left (fun w e => add_event e w) l w.

(** The world in which [_onData] enters its loop: the traffic time stamp
    taken and the buffer holding [b]. *)
Definition receiving (b : string) (w : World) : World :=
  set_buffer b (set_lastTrafficTs (now w) w).

(** A length field that is falsy as a number: not a number, or zero. *)
Definition length_field_falsy (b : string) : Prop :=
  Js.truthy (Js.parseInt (Js.slice 0 4 b)) = false.

(** ** Streams of frames *)

(** The arguments of one [sendMID]. *)
Record Message : Type := mkMessage {
  msg_mid : N;
  msg_payload : string;
  msg_expectAck : bool
}.

(** A message the framing can carry: a MID of at most four digits and a
    payload of 7-bit ASCII without NUL that keeps the frame within 9999
    characters. *)
Definition encodable (m : Message) : Prop :=
  (msg_mid m < 10000)%N
  /\ valid_payload (msg_payload m)
  /\ Z.of_nat (String.length (msg_payload m)) + 20 <= 9999.

Definition encode (m : Message) : string :=
  frame_text (msg_mid m) (msg_payload m) (msg_expectAck m).

(** The frames of several messages, one after the other. *)
Fixpoint stream (ms : list Message) : string :=
  match ms with
  | [] => ""
  | m :: ms' => encode m ++ stream ms'
  end.

(** Each message dispatched once, in order, the buffer holding the part
    of the stream that comes after it. *)
Fixpoint dispatch_all (ms : list Message) (w : World) : World :=
  match ms with
  | [] => w
  | m :: ms' =>
      dispatch_all ms'
        (snd (process_frame (Js.Int (Z.of_N (msg_mid m))) (msg_payload m)
                (set_buffer (stream ms') w)))
  end.

(** Characters that are neither decimal digits nor NUL. *)
Definition garbage (g : string) : Prop :=
  Js.all_chars (fun c => negb (Js.is_digit c) && negb (Ascii.eqb c zero)) g = true.

(** The frame errors reported while [g] is dropped, one character at a
    time, in front of [rest]. *)
Fixpoint garbage_errors (g rest : string) : list Ev.t :=
  match g with
  | EmptyString => []
  | String _ g' =>
      Ev.frameError (invalid_length (Js.slice 0 20 (g ++ rest)))
      :: garbage_errors g' rest
  end.

(** ** Command identifiers *)

(** The keys of [pendingCommands], in table order. *)
Definition command_ids (s : State) : list N := map fst (pendingCommands s).

(** No identifier is in the table twice and each one was handed out by
    the counter: it lies between 1 and [commandSeq]. *)
Definition ids_in_sequence (w : World) : Prop :=
  NoDup (command_ids (state w))
  /\ Forall (fun k => (1 <= k <= commandSeq w)%N) (command_ids (state w)).

(** [sendMID] gets past its duplicate check for [mid]. *)
Definition may_send (mid : N) (w : World) : Prop :=
  allowDuplicateCommands w = true \/ has_pending mid (state w) = false.

Definition null_socket_error : Err :=
  TypeError "Cannot read properties of null (reading 'write')".

(** The log begins with [l]. *)
Definition log_extends (l : list Ev.t) (w : World) : Prop :=
  exists tail, events w = (l ++ tail)%list.

(** The pending table is [m]. *)
Definition table_is (m : list (N * PendingCommand)) (w : World) : Prop :=
  pendingCommands (state w) = m.

(** A number below [10 ^ width], written on [width] digits, is read back
    by [Number]. *)
Definition number_pad_ok (width : nat) (n : N) : bool :=
  let s := Js.padStart width "0" (Js.toString n) in
  (String.length s =? width)%nat
  && Js.strict_eq (Js.Number s) (Js.Int (Z.of_N n)).

(** ** The link *)

Definition is_reconnecting (e : Ev.t) : bool :=
  match e with Ev.reconnecting _ _ => true | _ => false end.

(** One [commandAborted] for each entry of a pending table, in table
    order. *)
Definition aborted (m : list (N * PendingCommand)) : list Ev.t :=
  map (fun e => Ev.commandAborted (pc_mid (snd e)) (fst e)) m.

(** Whether [_onClose] goes on to schedule a reconnect. *)
Definition reconnects_on_close (w : World) : bool :=
  autoReconnect w && Connection.connected (connection (state w)).

Definition delay_in_bounds (w : World) : Prop :=
  RECONNECT_INITIAL_DELAY_MS <= reconnectDelay w <= RECONNECT_MAX_DELAY_MS.

(** Reconnecting is off, no reconnect timer is armed, and the log holds
    [n] [reconnecting] events. *)
Definition reconnect_off (n : nat) (w : World) : Prop :=
  autoReconnect w = false
  /\ reconnectTimer w <> Some Armed
  /\ count_events is_reconnecting (events w) = n.

(** The keep-alive frame. *)
Definition keep_alive : string := "0020999900110101    ".

(** ** Spindle count *)

(** The spindle count is [n], set by the configuration or by hand. *)
Definition count_fixed (n : Js.num) (s : SpindleCountSource) (w : World) : Prop :=
  Tool.spindleCount (tool (state w)) = n
  /\ Tool.spindleCountSource (tool (state w)) = s
  /\ (s = src_config \/ s = src_manual).

(** ** Alarm lists *)

Fixpoint concat_codes (codes : list string) : string :=
  match codes with
  | [] => ""
  | c :: cs => c ++ concat_codes cs
  end.

(** An alarm code other than the empty slot ["0000"]. *)
Definition reported (c : string) : bool := negb (String.eqb c "0000").

(** ** The handshake *)



(** ** Collecting the results of a cycle *)

(** The results [ds] handled one after the other. *)
Definition collect (ds : list Result) (w : World) : World :=
  fold_left (fun w d => snd (_handleTighteningResult d w)) ds w.

(** The collected results, by spindle, in arrival order. *)
Definition by_spindle (ds : list Result) : list (Js.num * Result) :=
  map (fun d => (spindle d, d)) ds.

(** The listeners of the events a result emits before its cycle
    completes do not throw. *)
Definition result_listeners_quiet : Prop :=
  (forall v, listener_throws (Ev.vinLocked v) = false)
  /\ (forall d, listener_throws (Ev.spindleResult d) = false)
  /\ (forall c s r, listener_throws (Ev.batchProgress c s r) = false)
  /\ (forall b, listener_throws (Ev.batchCompleted b) = false).

(** The log has grown from [l] by events that complete no cycle. *)
Definition grows_quietly (l : list Ev.t) (w : World) : Prop :=
  exists evs, events w = (l ++ evs)%list /\ count_events is_completed evs = 0%nat.

(* ================================================================== *)
(** * Reasoning about computations *)
(* ================================================================== *)

Section Stable.
Variable I : World -> Prop.

Lemma stable_ret {A} (a : A) : stable I (ret a).
Proof. intros w H; exact H. Qed.

Lemma stable_throw {A} (e : Err) : stable I (@throw A e).
Proof. intros w H; exact H. Qed.

Lemma stable_hang {A} : stable I (@hang A).
Proof. intros w H; exact H. Qed.

Lemma stable_get : stable I get.
Proof. intros w H; exact H. Qed.

Lemma stable_bind {A B} (m : M A) (k : A -> M B) :
  stable I m -> (forall a, stable I (k a)) -> stable I (bind m k).
Proof.
  intros Hm Hk w H. unfold bind.
  specialize (Hm w H). destruct (m w) as [[a| e |] w']; simpl in *; auto.
  apply Hk; exact Hm.
Qed.

Lemma stable_modify (f : World -> World) :
  (forall w, I w -> I (f w)) -> stable I (modify f).
Proof. intros Hf w H; apply Hf; exact H. Qed.

Lemma stable_update (f : State -> State) :
  (forall w, I w -> I (with_state f w)) -> stable I (update f).
Proof. intros Hf w H; apply Hf; exact H. Qed.

(** Two assignments in a row may break [I] in between. *)
Lemma stable_update2 {A} (f g : State -> State) (k : M A) :
  (forall w, I w -> I (with_state g (with_state f w))) ->
  stable I k ->
  stable I (update f ;; update g ;; k).
Proof. intros Hfg Hk w H. unfold bind, update, modify. simpl. apply Hk, Hfg, H. Qed.

Lemma stable_when (b : bool) (m : M unit) : stable I m -> stable I (when b m).
Proof. intros Hm. destruct b; simpl; [exact Hm | apply stable_ret]. Qed.

Lemma stable_if {A} (b : bool) (m1 m2 : M A) :
  stable I m1 -> stable I m2 -> stable I (if b then m1 else m2).
Proof. destruct b; auto. Qed.

Lemma stable_try_catch {A} (m : M A) (h : Err -> M A) :
  stable I m -> (forall e, stable I (h e)) -> stable I (try_catch m h).
Proof.
  intros Hm Hh w H. unfold try_catch.
  specialize (Hm w H). destruct (m w) as [[a| e |] w']; simpl in *; auto.
  apply Hh; exact Hm.
Qed.

Lemma stable_try_finally {A} (m : M A) (fin : M unit) :
  stable I m -> stable I fin -> stable I (try_finally m fin).
Proof.
  intros Hm Hf w H. unfold try_finally.
  specialize (Hm w H). destruct (m w) as [[a| e |] w']; simpl in *; auto;
    specialize (Hf w' Hm); destruct (fin w') as [[[]| e' |] w'']; simpl in *; auto.
Qed.

Lemma stable_for_each {A} (f : A -> M unit) (l : list A) :
  (forall a, stable I (f a)) -> stable I (for_each f l).
Proof.
  intros Hf. induction l as [|a l IH]; simpl.
  - apply stable_ret.
  - apply stable_bind; [apply Hf | intros _; exact IH].
Qed.

Lemma stable_emit (e : Ev.t) :
  (forall w, I w -> I (add_event e w)) -> stable I (emit e).
Proof. intros He w H. unfold emit; simpl. apply He, H. Qed.

Lemma stable_getState : stable I getState.
Proof.
  intros w H. unfold getState.
  destruct (getState_value timer_toJSON (state w)); exact H.
Qed.

Lemma stable_socket_write (text : string) :
  (forall w sk, I w -> socket w = Some sk ->
     I (set_socket (Some (mkSocket (written sk ++ [text])%list (destroyed sk))) w)) ->
  stable I (socket_write text).
Proof.
  intros Hs w H. unfold socket_write.
  destruct (socket w) as [sk|] eqn:E; simpl; [apply Hs; assumption | exact H].
Qed.

End Stable.

Ltac head_of t := lazymatch t with ?f _ => head_of f | _ => t end.

Ltac unfold_head :=
  lazymatch goal with
  | |- stable _ ?m => let h := head_of m in unfold h
  end.

(** Decompose a computation along its structure; [side] discharges the
    assignments and emissions, [ops] the calls of other operations. *)
Ltac stable_struct side ops :=
  lazymatch goal with
  | |- stable _ (ret _) => apply stable_ret
  | |- stable _ (throw _) => apply stable_throw
  | |- stable _ hang => apply stable_hang
  | |- stable _ get => apply stable_get
  | |- stable _ getState => apply stable_getState
  | |- stable _ (when _ _) => apply stable_when
  | |- stable _ (try_catch _ _) => apply stable_try_catch; [|intro]
  | |- stable _ (try_finally _ _) => apply stable_try_finally
  | |- stable _ (for_each _ _) => apply stable_for_each; intro
  | |- stable _ (bind (update _) (fun _ => bind (update _) _)) =>
      first [ apply stable_update2; [solve [side] | ]
            | apply stable_bind; [|intro] ]
  | |- stable _ (bind _ _) => apply stable_bind; [|intro]
  | |- stable _ (modify _) => apply stable_modify; side
  | |- stable _ (update _) => apply stable_update; side
  | |- stable _ (emit _) => apply stable_emit; side
  | |- stable _ (socket_write _) => apply stable_socket_write; side
  | |- stable _ (if ?b then _ else _) => destruct b
  | |- stable _ (match ?x with _ => _ end) => destruct x
  | |- stable _ (let _ := _ in _) => cbv zeta
  | |- _ => ops
  end.

(* ================================================================== *)
(** * Interlock gate *)
(* ================================================================== *)

(** C1. In a state that violates one or more of the eight preconditions,
    [startTightening()] throws the interlock error of the first violated
    rule, and leaves the whole client, its socket included, as it was:
    nothing is written. *)
Theorem startTightening_interlock_order :
  forall (w : World) (code : InterlockCode),
    first_violation (state w) = Some code ->
    startTightening w = (Throw (InterlockError code), w).
Proof.
  intros w code H.
  unfold first_violation, interlock_table in H. simpl in H.
  unfold startTightening, _check, bind, get, when, throw, ret.
  destruct (Connection.connected (connection (state w))); simpl in *;
    [|inversion H; reflexivity].
  destruct (Connection.linkLayerReady (connection (state w))); simpl in *;
    [|inversion H; reflexivity].
  destruct (Tool.enabled (tool (state w))); simpl in *;
    [|inversion H; reflexivity].
  destruct (Tool.running (tool (state w))); simpl in *;
    [inversion H; reflexivity|].
  destruct (Controller.ready (controller (state w))); simpl in *;
    [|inversion H; reflexivity].
  destruct (Controller.errorActive (controller (state w))); simpl in *;
    [inversion H; reflexivity|].
  destruct (Product.vinRequired (product (state w)));
    destruct (Product.vinValid (product (state w))); simpl in *;
    try (inversion H; reflexivity);
    (destruct (Job.active (job (state w))); simpl in *;
      [discriminate H | inversion H; reflexivity]).
Qed.

(** With no rule violated the command goes out. *)
Lemma startTightening_admitted (w : World) :
  first_violation (state w) = None ->
  startTightening w = sendMID 43 "" true w.
Proof.
  intros H.
  unfold first_violation, interlock_table in H. simpl in H.
  unfold startTightening, _check. unfold bind at 1 2. unfold get, when, throw, ret.
  destruct (Connection.connected (connection (state w))); simpl in *;
    [|discriminate H].
  destruct (Connection.linkLayerReady (connection (state w))); simpl in *;
    [|discriminate H].
  destruct (Tool.enabled (tool (state w))); simpl in *; [|discriminate H].
  destruct (Tool.running (tool (state w))); simpl in *; [discriminate H|].
  destruct (Controller.ready (controller (state w))); simpl in *; [|discriminate H].
  destruct (Controller.errorActive (controller (state w))); simpl in *;
    [discriminate H|].
  destruct (Product.vinRequired (product (state w)));
    destruct (Product.vinValid (product (state w))); simpl in *;
    try discriminate H;
    (destruct (Job.active (job (state w))); simpl in *;
      [reflexivity | discriminate H]).
Qed.

(* ================================================================== *)
(** * Batch invariants *)
(* ================================================================== *)

Ltac split_socket :=
  repeat match goal with
         | |- context [match socket ?w with _ => _ end] => destruct (socket w); simpl in *
         end.

Ltac ci_side :=
  intros; unfold complete_inactive in *; simpl in *; split_socket;
  first [ assumption | intros; discriminate | reflexivity | auto ].

Create HintDb ci.

Ltac ci_auto :=
  repeat first [ solve [auto with ci nocore]
               | stable_struct ci_side ltac:(idtac; unfold_head) ].

Lemma ci_sendMID mid payload expectAck :
  stable complete_inactive (sendMID mid payload expectAck).
Proof. ci_auto. Qed.
#[local] Hint Resolve ci_sendMID : ci.

Lemma ci_handleTighteningResult d :
  stable complete_inactive (_handleTighteningResult d).
Proof. ci_auto. Qed.
#[local] Hint Resolve ci_handleTighteningResult : ci.

Lemma ci_handleMID mid d : stable complete_inactive (_handleMID mid d).
Proof. ci_auto. Qed.
#[local] Hint Resolve ci_handleMID : ci.

Lemma ci_onData_loop fuel : stable complete_inactive (_onData_loop fuel).
Proof. induction fuel as [|fuel IH]; simpl; ci_auto. Qed.
#[local] Hint Resolve ci_onData_loop : ci.


Lemma stable_run (I : World -> Prop) :
  (forall a, stable I (run_action a)) ->
  forall l w, I w -> I (run w l).
Proof.
  intros Hstep l. induction l as [|a l IH]; intros w H; simpl.
  - exact H.
  - apply IH. unfold step. apply Hstep, H.
Qed.


(** Symbolic execution: split on the test the outermost stuck [match] of
    the goal waits for. *)
Ltac split_on x :=
  lazymatch x with
  | context [match ?y with _ => _ end] => split_on y
  | context [if ?y then _ else _] => split_on y
  | _ => destruct x eqn:?
  end.

Ltac mcase :=
  match goal with
  | |- context [match ?x with _ => _ end] => split_on x
  | |- context [if ?b then _ else _] => split_on b
  end; simpl in *.


(* ================================================================== *)
(** * Command tracker *)
(* ================================================================== *)

Lemma has_pending_false mid s :
  has_pending mid s = false -> ~ In mid (pending_mids s).
Proof.
  unfold has_pending, pending_mids. intros H Hin.
  apply in_map_iff in Hin. destruct Hin as [e [He Hin]].
  assert (X : existsb (fun c => N.eqb (pc_mid (snd c)) mid) (pendingCommands s) = true).
  { apply existsb_exists. exists e. split; [exact Hin|]. apply N.eqb_eq, He. }
  congruence.
Qed.

Lemma has_pending_true mid s :
  has_pending mid s = true -> In mid (pending_mids s).
Proof.
  unfold has_pending, pending_mids. intros H.
  apply existsb_exists in H. destruct H as [e [Hin He]].
  apply in_map_iff. exists e. split; [apply N.eqb_eq, He | exact Hin].
Qed.

Lemma in_mids_map_set x k v (m : list (N * PendingCommand)) :
  In x (map (fun e => pc_mid (snd e)) (map_set N.eqb k v m)) ->
  x = pc_mid v \/ In x (map (fun e => pc_mid (snd e)) m).
Proof.
  induction m as [|[k' v'] m IH]; simpl.
  - intros [H|[]]; auto.
  - destruct (N.eqb k' k); simpl.
    + intros [H|H]; auto.
    + intros [H|H]; auto. destruct (IH H); auto.
Qed.

Lemma nodup_mids_map_set k v (m : list (N * PendingCommand)) :
  ~ In (pc_mid v) (map (fun e => pc_mid (snd e)) m) ->
  NoDup (map (fun e => pc_mid (snd e)) m) ->
  NoDup (map (fun e => pc_mid (snd e)) (map_set N.eqb k v m)).
Proof.
  induction m as [|[k' v'] m IH]; simpl; intros Hnot Hnd.
  - constructor; [intros [] | constructor].
  - inversion Hnd as [|? ? Hx Hnd']; subst.
    destruct (N.eqb k' k); simpl.
    + constructor; [tauto | exact Hnd'].
    + constructor.
      * intros Hin. apply in_mids_map_set in Hin. destruct Hin as [E|Hin]; tauto.
      * apply IH; tauto.
Qed.

Lemma in_mids_map_delete x k (m : list (N * PendingCommand)) :
  In x (map (fun e => pc_mid (snd e)) (map_delete N.eqb k m)) ->
  In x (map (fun e => pc_mid (snd e)) m).
Proof.
  induction m as [|[k' v'] m IH]; simpl; auto.
  destruct (N.eqb k' k); simpl; intros H; tauto.
Qed.

Lemma nodup_mids_map_delete k (m : list (N * PendingCommand)) :
  NoDup (map (fun e => pc_mid (snd e)) m) ->
  NoDup (map (fun e => pc_mid (snd e)) (map_delete N.eqb k m)).
Proof.
  induction m as [|[k' v'] m IH]; simpl; intros Hnd; auto.
  inversion Hnd as [|? ? Hx Hnd']; subst.
  destruct (N.eqb k' k); simpl; auto.
  constructor; [|auto]. intros Hin. apply Hx. eapply in_mids_map_delete, Hin.
Qed.

Ltac opm_side :=
  intros; unfold one_per_mid, pending_mids in *; simpl in *; split_socket;
  first [ assumption
        | split; [tauto | apply nodup_mids_map_delete; tauto]
        | split; [tauto | constructor]
        | auto ].

Create HintDb opm.

Ltac opm_auto :=
  repeat first [ solve [auto with opm nocore]
               | stable_struct opm_side ltac:(idtac; unfold_head) ].

Lemma opm_sendMID mid payload expectAck :
  stable one_per_mid (sendMID mid payload expectAck).
Proof.
  intros w [Ha Hn].
  unfold sendMID, _touchTraffic, socket_write, update, modify, when, bind, ret,
    get, throw.
  simpl. rewrite Ha. simpl.
  destruct expectAck; simpl.
  - destruct (has_pending mid (state w)) eqn:Hp; simpl.
    + split; assumption.
    + assert (Hset : NoDup (map (fun e => pc_mid (snd e))
               (map_set N.eqb (N.succ (commandSeq w)) (mkPending mid (now w))
                  (pendingCommands (state w))))).
      { apply nodup_mids_map_set; [apply has_pending_false, Hp | exact Hn]. }
      destruct (socket w); simpl; split; assumption.
  - destruct (socket w); simpl; split; assumption.
Qed.
#[local] Hint Resolve opm_sendMID : opm.

Lemma opm_handleMID mid d : stable one_per_mid (_handleMID mid d).
Proof. opm_auto. Qed.
#[local] Hint Resolve opm_handleMID : opm.

Lemma opm_onData_loop fuel : stable one_per_mid (_onData_loop fuel).
Proof. induction fuel as [|fuel IH]; simpl; opm_auto. Qed.
#[local] Hint Resolve opm_onData_loop : opm.


Lemma sendMID_pending_fails mid payload w :
  allowDuplicateCommands w = false ->
  has_pending mid (state w) = true ->
  sendMID mid payload true w
  = (Throw (CommandError mid), set_lastTrafficTs (now w) w).
Proof.
  intros Ha Hp.
  unfold sendMID, _touchTraffic, when, bind, modify, get, throw, ret.
  simpl. rewrite Ha, Hp. reflexivity.
Qed.



(* ================================================================== *)
(** * Mandatory acknowledgement of results *)
(* ================================================================== *)

Lemma handleTighteningResult_socket d w :
  exists r w',
    _handleTighteningResult d w = (r, w') /\ r <> Hang /\ socket w' = socket w.
Proof.
  unfold _handleTighteningResult, _clearWatchdog, emit, update, modify, when,
    bind, ret, get, throw.
  simpl.
  repeat mcase.
  all: eexists; eexists; split; [reflexivity|]; split; [discriminate | reflexivity].
Qed.

Lemma sendMID_no_ack mid payload w sk :
  socket w = Some sk ->
  exists w',
    sendMID mid payload false w = (Ok (_lastCommandId w), w')
    /\ socket w' = Some (mkSocket (written sk ++ [frame_text mid payload false])%list
                                  (destroyed sk)).
Proof.
  intros Hs.
  unfold sendMID, _touchTraffic, socket_write, when, bind, modify, get, ret.
  simpl. rewrite Hs. simpl. eexists. split; reflexivity.
Qed.

Lemma acknowledged_in_finally r0 w sk :
  socket w = Some sk ->
  exists r w',
    try_finally (_handleTighteningResult r0) (sendMID 62 "" false ;; ret tt) w
    = (r, w')
    /\ r <> Hang
    /\ wire w' = (wire w ++ [frame_text 62 "" false])%list.
Proof.
  intros Hs. unfold try_finally.
  destruct (handleTighteningResult_socket r0 w) as [res [w2 [E2 [Hh Hs2]]]].
  rewrite E2.
  assert (Hsk2 : socket w2 = Some sk) by (rewrite Hs2; exact Hs).
  destruct (sendMID_no_ack 62 "" w2 Hsk2) as [w3 [E3 Hs3]].
  assert (F : (sendMID 62 "" false ;; ret tt) w2 = (Ok tt, w3)).
  { unfold bind. rewrite E3. reflexivity. }
  rewrite F.
  assert (Hwire : wire w3 = (wire w ++ [frame_text 62 "" false])%list).
  { unfold wire. rewrite Hs3, Hs. reflexivity. }
  destruct res as [[]| e |]; [| |congruence];
    eexists; eexists; (split; [reflexivity|]); (split; [discriminate|]);
    exact Hwire.
Qed.

Lemma result_frame_acknowledged r0 mid w sk :
  socket w = Some sk ->
  mid = Js.Int 61 \/ mid = Js.Int 65 ->
  exists r w',
    _handleMID mid (PResult r0) w = (r, w') /\ r <> Hang
    /\ wire w' = (wire w ++ [frame_text 62 "" false])%list.
Proof.
  intros Hs Hmid.
  assert (E : _handleMID mid (PResult r0)
              = (update (with_connection (Set_.lastMID (Some mid))) ;;
                 try_finally (_handleTighteningResult r0)
                             (sendMID 62 "" false ;; ret tt) ;;
                 snapshot <- getState ;;
                 emit (Ev.stateChanged snapshot))).
  { destruct Hmid; subst mid; reflexivity. }
  rewrite E. clear E.
  unfold bind at 1. unfold update, modify.
  destruct (acknowledged_in_finally r0
              (with_state (with_connection (Set_.lastMID (Some mid))) w) Hs)
    as [res [w3 [E3 [Hh Hwire]]]].
  unfold bind at 1. rewrite E3.
  change (wire (with_state (with_connection (Set_.lastMID (Some mid))) w))
    with (wire w) in Hwire.
  destruct res as [[]| e |]; [| |congruence].
  - unfold bind, getState, emit.
    destruct (getState_value timer_toJSON (state w3)) as [j|].
    + destruct (listener_throws (Ev.stateChanged j));
        eexists; eexists; (split; [reflexivity|]); (split; [discriminate|]);
        exact Hwire.
    + eexists; eexists; (split; [reflexivity|]); (split; [discriminate|]);
        exact Hwire.
  - eexists; eexists; (split; [reflexivity|]); (split; [discriminate|]);
      exact Hwire.
Qed.

(** C3. Processing an inbound MID 0061 or MID 0065 hands exactly one text
    to the socket, the MID 0062 acknowledgement, whatever the payload and
    whether or not a listener throws during aggregation. *)
Theorem result_always_acknowledged :
  forall (w : World) (mid : Js.num) (payload : string) (sk : Socket),
    socket w = Some sk ->
    mid = Js.Int 61 \/ mid = Js.Int 65 ->
    exists r w',
      process_frame mid payload w = (r, w') /\ r <> Hang
      /\ wire w' = (wire w ++ [frame_text 62 "" false])%list.
Proof.
  intros w mid payload sk Hs Hmid.
  unfold process_frame, try_catch. unfold bind at 1. unfold get.
  assert (Hp : exists r0, _parseMID (state w) mid payload = PResult r0).
  { destruct Hmid; subst mid; simpl; eexists; reflexivity. }
  destruct Hp as [r0 ->].
  destruct (result_frame_acknowledged r0 w Hs Hmid) as [r [w' [E [Hh Hw]]]].
  rewrite E.
  destruct r as [[]| e |]; [| |congruence].
  - eexists; eexists; (split; [reflexivity|]); (split; [discriminate|]); exact Hw.
  - unfold emit.
    destruct (listener_throws (Ev.parseError mid e));
      eexists; eexists; (split; [reflexivity|]); (split; [discriminate|]);
      unfold wire in *; simpl; exact Hw.
Qed.

(* ================================================================== *)
(** * Batch reset protocol *)
(* ================================================================== *)

Lemma skipn_length_app {A} (l x : list A) : skipn (List.length l) (l ++ x)%list = x.
Proof. induction l as [|a l IH]; simpl; auto. Qed.

Ltac since_log :=
  unfold emitted_since; simpl;
  repeat rewrite <- app_assoc; rewrite skipn_length_app; simpl.


Section CommandListeners.

(** The listeners of the command events, which are emitted before the
    batch is touched, do not throw. *)
Hypothesis commandSuccess_quiet :
  forall mid cmdId data, listener_throws (Ev.commandSuccess mid cmdId data) = false.
Hypothesis commandFailed_quiet :
  forall mid cmdId data, listener_throws (Ev.commandFailed mid cmdId data) = false.
Hypothesis commandAccepted_quiet :
  forall mid, listener_throws (Ev.commandAccepted mid) = false.
Hypothesis commandError_quiet :
  forall d, listener_throws (Ev.commandError d) = false.






End CommandListeners.

(* ================================================================== *)
(** * Completion exclusivity *)
(* ================================================================== *)

Lemma count_events_app p (l1 l2 : list Ev.t) :
  count_events p (l1 ++ l2)%list = (count_events p l1 + count_events p l2)%nat.
Proof. unfold count_events. rewrite filter_app, length_app. reflexivity. Qed.

Ltac split_listener :=
  match goal with
  | |- context [listener_throws ?e] => destruct (listener_throws e)
  end.


Lemma cycle_watchdog_action : stable cycle_invariant (run_action act_watchdog).
Proof.
  intros w Hinv.
  unfold run_action, watchdog_callback, emit, update, modify, bind, get, ret.
  simpl.
  destruct (Tightening.watchdog (tightening (state w))) as [[|]|] eqn:Hw; simpl;
    try exact Hinv.
  destruct Hinv as [Hlog Harm]. specialize (Harm Hw).
  unfold cycle_invariant, cycle_state, in_progress in *; simpl.
  rewrite fold_left_app, Hlog, Harm; simpl.
  split; [reflexivity | intros; discriminate].
Qed.

Lemma cycle_startTighteningCycle w :
  cycle_invariant w -> in_progress w = false ->
  cycle_invariant (snd (_startTighteningCycle w)).
Proof.
  intros [Hlog Harm] Hp.
  unfold _startTighteningCycle, _startWatchdog, _clearWatchdog, emit, update,
    modify, bind, get, ret.
  simpl.
  unfold cycle_invariant, cycle_state, in_progress in *.
  destruct (Tightening.watchdog (tightening (state w))); simpl;
    try split_listener; simpl; rewrite fold_left_app, Hlog, Hp; simpl;
    (split; [reflexivity | intros; reflexivity]).
Qed.

Lemma cycle_tool_running (toolRunning : bool) :
  stable cycle_invariant
    (w <- get ;;
     when (toolRunning && negb (Tightening.inProgress (tightening (state w))))
          _startTighteningCycle).
Proof.
  intros w H. unfold bind, get.
  destruct toolRunning; simpl; [|exact H].
  destruct (Tightening.inProgress (tightening (state w))) eqn:Hp; simpl; [exact H|].
  apply cycle_startTighteningCycle; assumption.
Qed.

Section BatchListeners.

Hypothesis batchProgress_quiet :
  forall c s r, listener_throws (Ev.batchProgress c s r) = false.
Hypothesis batchCompleted_quiet :
  forall b, listener_throws (Ev.batchCompleted b) = false.

Ltac run_result :=
  unfold _handleTighteningResult, _clearWatchdog, emit, update, modify, when,
    bind, ret, get, throw;
  simpl;
  repeat first [ rewrite batchProgress_quiet; simpl
               | rewrite batchCompleted_quiet; simpl
               | mcase ].

Lemma cycle_handleTighteningResult d :
  stable cycle_invariant (_handleTighteningResult d).
Proof.
  intros w [Hlog Harm].
  run_result.
  all: unfold cycle_invariant, cycle_state, in_progress in *; simpl in *.
  all: repeat rewrite fold_left_app; simpl; rewrite Hlog; simpl.
  all: split; [reflexivity | first [assumption | intros; congruence]].
Qed.


Ltac cyc_side :=
  intros; unfold cycle_invariant, cycle_state, in_progress in *; simpl in *;
  split_socket; try rewrite fold_left_app; simpl;
  first [ assumption
        | match goal with
          | H : _ /\ _ |- _ =>
              destruct H; split; [assumption | first [assumption | intros; discriminate]]
          end
        | auto ].

Create HintDb cyc.
#[local] Hint Resolve cycle_watchdog_action cycle_tool_running
  cycle_handleTighteningResult : cyc.

Ltac cyc_auto :=
  repeat first [ solve [auto with cyc nocore]
               | stable_struct cyc_side ltac:(idtac; unfold_head) ].

Lemma cycle_handleMID mid d : stable cycle_invariant (_handleMID mid d).
Proof. cyc_auto. Qed.
#[local] Hint Resolve cycle_handleMID : cyc.

Lemma cycle_onData_loop fuel : stable cycle_invariant (_onData_loop fuel).
Proof. induction fuel as [|fuel IH]; simpl; cyc_auto. Qed.
#[local] Hint Resolve cycle_onData_loop : cyc.



End BatchListeners.

(* ================================================================== *)
(** * Frame round trip *)
(* ================================================================== *)

Lemma length_app_string (a b : string) :
  String.length (a ++ b) = (String.length a + String.length b)%nat.
Proof. induction a as [|c a IH]; simpl; auto. Qed.

Lemma take_app_exact (a b : string) : Js.take (String.length a) (a ++ b) = a.
Proof. induction a as [|c a IH]; simpl; [destruct b|]; congruence. Qed.

Lemma drop_app_exact (a b : string) : Js.drop (String.length a) (a ++ b) = b.
Proof. induction a as [|c a IH]; simpl; auto. Qed.

Lemma drop_all (a : string) : Js.drop (String.length a) a = "".
Proof. induction a as [|c a IH]; simpl; auto. Qed.

Lemma take_all (a : string) : Js.take (String.length a) a = a.
Proof. induction a as [|c a IH]; simpl; congruence. Qed.

Lemma strip_nul_app (a b : string) :
  Js.strip_nul (a ++ b) = Js.strip_nul a ++ Js.strip_nul b.
Proof.
  induction a as [|c a IH]; simpl; auto.
  destruct (Ascii.eqb c zero); simpl; congruence.
Qed.

Lemma strip_nul_digits (s : string) :
  Js.all_chars Js.is_digit s = true -> Js.strip_nul s = s.
Proof.
  induction s as [|c s IH]; simpl; auto.
  intros H. apply andb_prop in H. destruct H as [Hc Hs].
  destruct (Ascii.eqb c zero) eqn:E.
  - apply Ascii.eqb_eq in E. subst c. discriminate Hc.
  - rewrite IH; auto.
Qed.

Lemma strip_nul_valid (s : string) : valid_payload s -> Js.strip_nul s = s.
Proof.
  unfold valid_payload. induction s as [|c s IH]; simpl; auto.
  intros H. apply andb_prop in H. destruct H as [Hc Hs].
  destruct (Ascii.eqb c zero) eqn:E.
  - apply Ascii.eqb_eq in E. subst c. discriminate Hc.
  - rewrite IH; auto.
Qed.

Lemma pad4_table :
  forallb pad4_ok (map N.of_nat (seq 0 (N.to_nat 10000))) = true.
Proof. vm_compute. reflexivity. Qed.

Lemma pad4_spec (n : N) :
  (n < 10000)%N ->
  let s := Js.padStart 4 "0" (Js.toString n) in
  String.length s = 4%nat /\ Js.four_digits s = true
  /\ Js.parseInt s = Js.Int (Z.of_N n).
Proof.
  intros Hn s.
  assert (Hin : In n (map N.of_nat (seq 0 (N.to_nat 10000)))).
  { apply in_map_iff. exists (N.to_nat n). split; [apply N2Nat.id|].
    apply in_seq. lia. }
  pose proof (proj1 (forallb_forall _ _) pad4_table n Hin) as H.
  unfold pad4_ok in H. fold s in H.
  apply andb_prop in H. destruct H as [H H3].
  apply andb_prop in H. destruct H as [H1 H2].
  split; [apply Nat.eqb_eq, H1|]. split; [exact H2|].
  destruct (Js.parseInt s) as [|z]; simpl in H3; [discriminate|].
  apply Z.eqb_eq in H3. congruence.
Qed.

Lemma take_app_n n (a b : string) :
  String.length a = n -> Js.take n (a ++ b) = a.
Proof. intros <-. apply take_app_exact. Qed.

Lemma drop_app_n n (a b : string) :
  String.length a = n -> Js.drop n (a ++ b) = b.
Proof. intros <-. apply drop_app_exact. Qed.

Lemma drop_drop a b (s : string) : Js.drop a (Js.drop b s) = Js.drop (b + a) s.
Proof.
  revert s. induction b as [|b IH]; intros s; simpl; auto.
  destruct s as [|c s]; [destruct a; reflexivity | apply IH].
Qed.

Lemma header_rest_length (expectAck : bool) :
  String.length ("001" ++ (if expectAck then "0" else "1") ++ "01" ++ "01" ++ "    ")
  = 12%nat.
Proof. destruct expectAck; reflexivity. Qed.

Lemma body_length (mid : N) (payload : string) (expectAck : bool) :
  (mid < 10000)%N ->
  String.length
    (Js.padStart 4 "0" (Js.toString mid) ++
     ("001" ++ (if expectAck then "0" else "1") ++ "01" ++ "01" ++ "    ") ++ payload)
  = (16 + String.length payload)%nat.
Proof.
  intros Hmid. destruct (pad4_spec Hmid) as [Hm1 _].
  rewrite length_app_string, Hm1, length_app_string, header_rest_length. lia.
Qed.

Lemma decode_encoded validate mid payload expectAck :
  (mid < 10000)%N ->
  Z.of_nat (String.length payload) + 20 <= 9999 ->
  let text := frame_text mid payload expectAck in
  next_frame validate text
  = Frame (Js.Int (Z.of_N mid)) (Js.slice_from 4 text) payload "".
Proof.
  intros Hmid Hlen text.
  unfold frame_text in text.
  set (mid4 := Js.padStart 4 "0" (Js.toString mid)) in *.
  set (hdr := "001" ++ (if expectAck then "0" else "1") ++ "01" ++ "01" ++ "    ") in *.
  set (body := mid4 ++ hdr ++ payload) in *.
  set (len4 := Js.padStart 4 "0" (Js.toString (N.of_nat (String.length body + 4)))) in *.
  destruct (pad4_spec Hmid) as [Hm1 [_ Hm3]]. fold mid4 in Hm1, Hm3.
  assert (Hh : String.length hdr = 12%nat) by apply header_rest_length.
  assert (Hb : String.length body = (16 + String.length payload)%nat).
  { unfold body. rewrite !length_app_string, Hm1, Hh. lia. }
  assert (Hn : (N.of_nat (String.length body + 4) < 10000)%N) by lia.
  destruct (pad4_spec Hn) as [Hl1 [Hl2 Hl3]]. fold len4 in Hl1, Hl2, Hl3.
  assert (Ht : String.length text = (String.length body + 4)%nat).
  { unfold text. rewrite length_app_string, Hl1. lia. }
  unfold next_frame.
  assert (E1 : (String.length text <? 4)%nat = false) by (apply Nat.ltb_ge; lia).
  rewrite E1.
  assert (E2 : Js.slice 0 4 text = len4).
  { unfold Js.slice, text. simpl Js.drop. apply take_app_n, Hl1. }
  rewrite E2, Hl2, Hl3.
  rewrite andb_false_r.
  assert (E3 : Js.lt (Js.Int (Z.of_N (N.of_nat (String.length body + 4)))) (Js.Int 20)
               || Js.gt (Js.Int (Z.of_N (N.of_nat (String.length body + 4))))
                        (Js.Int 9999) = false).
  { unfold Js.gt, Js.lt. apply orb_false_iff. split; apply Z.ltb_ge; lia. }
  rewrite E3, andb_false_r.
  assert (E4 : Js.lt (Js.Int (Z.of_nat (String.length text)))
                     (Js.Int (Z.of_N (N.of_nat (String.length body + 4)))) = false).
  { unfold Js.lt. apply Z.ltb_ge. lia. }
  rewrite E4.
  assert (E5 : rel_index (String.length text)
                 (Js.Int (Z.of_N (N.of_nat (String.length body + 4))))
               = String.length text).
  { unfold rel_index.
    assert (X : (Z.of_N (N.of_nat (String.length body + 4)) <? 0) = false)
      by (apply Z.ltb_ge; lia).
    rewrite X. lia. }
  rewrite E5.
  assert (E6 : Js.slice 4 (String.length text) text = body).
  { unfold Js.slice, text. rewrite (drop_app_n _ _ Hl1).
    replace (String.length (len4 ++ body) - 4)%nat with (String.length body)
      by (rewrite length_app_string, Hl1; lia).
    apply take_all. }
  assert (E7 : Js.slice_from 4 text = body).
  { unfold Js.slice_from, text. apply drop_app_n, Hl1. }
  rewrite E6, E7.
  assert (E8 : Js.slice_from (String.length text) text = "")
    by (unfold Js.slice_from; apply drop_all).
  rewrite E8.
  assert (E9 : Js.slice 0 4 body = mid4).
  { unfold Js.slice, body. simpl Js.drop. apply take_app_n, Hm1. }
  rewrite E9, Hm3.
  assert (E10 : Js.slice_from 16 body = payload).
  { unfold Js.slice_from, body. change 16%nat with (4 + 12)%nat.
    rewrite <- drop_drop, (drop_app_n _ _ Hm1). apply drop_app_n, Hh. }
  rewrite E10. reflexivity.
Qed.

(** ** The decoder returns *)

Lemma total_ret {A} (a : A) : total (ret a).
Proof. intros w; discriminate. Qed.

Lemma total_throw {A} (e : Err) : total (@throw A e).
Proof. intros w; discriminate. Qed.

Lemma total_get : total get.
Proof. intros w; discriminate. Qed.

Lemma total_modify f : total (modify f).
Proof. intros w; discriminate. Qed.

Lemma total_update f : total (update f).
Proof. intros w; discriminate. Qed.

Lemma total_emit e : total (emit e).
Proof. intros w. unfold emit; simpl. destruct (listener_throws e); discriminate. Qed.

Lemma total_getState : total getState.
Proof.
  intros w. unfold getState.
  destruct (getState_value timer_toJSON (state w)); discriminate.
Qed.

Lemma total_socket_write text : total (socket_write text).
Proof. intros w. unfold socket_write. destruct (socket w); discriminate. Qed.

Lemma total_bind {A B} (m : M A) (k : A -> M B) :
  total m -> (forall a, total (k a)) -> total (bind m k).
Proof.
  intros Hm Hk w. unfold bind. specialize (Hm w).
  destruct (m w) as [[a| e |] w']; simpl in *; try discriminate; [apply Hk | congruence].
Qed.

Lemma total_when b (m : M unit) : total m -> total (when b m).
Proof. intros Hm. destruct b; simpl; [exact Hm | apply total_ret]. Qed.

Lemma total_try_catch {A} (m : M A) (h : Err -> M A) :
  total m -> (forall e, total (h e)) -> total (try_catch m h).
Proof.
  intros Hm Hh w. unfold try_catch. specialize (Hm w).
  destruct (m w) as [[a| e |] w']; simpl in *; try discriminate; [apply Hh | congruence].
Qed.

Lemma total_try_finally {A} (m : M A) (fin : M unit) :
  total m -> total fin -> total (try_finally m fin).
Proof.
  intros Hm Hf w. unfold try_finally. specialize (Hm w).
  destruct (m w) as [[a| e |] w']; simpl in *; try congruence;
    specialize (Hf w'); destruct (fin w') as [[[]| e' |] w'']; simpl in *;
    congruence.
Qed.

Lemma total_for_each {A} (f : A -> M unit) (l : list A) :
  (forall a, total (f a)) -> total (for_each f l).
Proof.
  intros Hf. induction l as [|a l IH]; simpl.
  - apply total_ret.
  - apply total_bind; [apply Hf | intros _; exact IH].
Qed.

Ltac total_step :=
  lazymatch goal with
  | |- total (ret _) => apply total_ret
  | |- total (throw _) => apply total_throw
  | |- total get => apply total_get
  | |- total getState => apply total_getState
  | |- total (when _ _) => apply total_when
  | |- total (try_catch _ _) => apply total_try_catch; [|intro]
  | |- total (try_finally _ _) => apply total_try_finally
  | |- total (for_each _ _) => apply total_for_each; intro
  | |- total (bind _ _) => apply total_bind; [|intro]
  | |- total (modify _) => apply total_modify
  | |- total (update _) => apply total_update
  | |- total (emit _) => apply total_emit
  | |- total (socket_write _) => apply total_socket_write
  | |- total (if ?b then _ else _) => destruct b
  | |- total (match ?x with _ => _ end) => destruct x
  | |- total ?m => let h := head_of m in unfold h
  end.

Lemma total_process_frame mid payload : total (process_frame mid payload).
Proof. repeat total_step. Qed.

Ltac dec_side :=
  intros; unfold decoding in *; simpl in *; split_socket;
  first [ assumption | auto ].

Lemma decoding_process_frame b v mid payload :
  stable (decoding b v) (process_frame mid payload).
Proof. repeat stable_struct dec_side ltac:(idtac; unfold_head). Qed.

Lemma length_drop n (s : string) :
  String.length (Js.drop n s) = (String.length s - n)%nat.
Proof.
  revert s. induction n as [|n IH]; intros s; simpl; [lia|].
  destruct s as [|c s]; simpl; auto.
Qed.

Lemma read_digits_seen s : forall acc, snd (Js.read_digits acc true s) = true.
Proof.
  induction s as [|c s IH]; intros acc; simpl; auto.
  destruct (Js.is_digit c); auto.
Qed.

Lemma parseInt_digit_first c s :
  Js.is_digit c = true -> Js.parseInt (String c s) <> Js.NaN.
Proof.
  intros Hc. unfold Js.parseInt.
  assert (Hsp : Js.is_space c = false).
  { destruct c as [[] [] [] [] [] [] [] []]; try reflexivity; discriminate Hc. }
  simpl Js.trim_start. rewrite Hsp.
  assert (Hseen : forall acc, snd (Js.read_digits acc false (String c s)) = true).
  { intros acc. simpl. rewrite Hc. apply read_digits_seen. }
  unfold Js.signed_prefix.
  destruct c as [[] [] [] [] [] [] [] []]; try discriminate Hc;
    specialize (Hseen 0);
    match goal with
    | |- context [Js.read_digits 0 false ?t] =>
        destruct (Js.read_digits 0 false t) as [v seen]
    end; simpl in Hseen; subst seen; discriminate.
Qed.

Lemma parseInt_four_digits s : Js.four_digits s = true -> Js.parseInt s <> Js.NaN.
Proof.
  unfold Js.four_digits. intros H. apply andb_prop in H. destruct H as [Hl Hd].
  destruct s as [|c s]; [discriminate Hl|].
  simpl in Hd. apply andb_prop in Hd. apply parseInt_digit_first, Hd.
Qed.

Lemma next_frame_shrinks b mid frame payload rest :
  next_frame true b = Frame mid frame payload rest ->
  (String.length rest < String.length b)%nat.
Proof.
  unfold next_frame.
  destruct (String.length b <? 4)%nat eqn:E4; [discriminate|].
  apply Nat.ltb_ge in E4.
  simpl andb.
  destruct (Js.four_digits (Js.slice 0 4 b)) eqn:Ed; [|discriminate].
  apply parseInt_four_digits in Ed. simpl negb. cbv iota.
  destruct (Js.parseInt (Js.slice 0 4 b)) as [|z] eqn:Ez; [congruence|]. simpl.
  destruct (z <? 20) eqn:E20; simpl; [discriminate|].
  destruct (9999 <? z) eqn:E99; simpl; [discriminate|].
  destruct (Z.of_nat (String.length b) <? z) eqn:Elt; [discriminate|].
  apply Z.ltb_ge in E20, E99, Elt.
  intros H. inversion H. subst. unfold Js.slice_from.
  rewrite length_drop.
  assert (X : (z <? 0) = false) by (apply Z.ltb_ge; lia). rewrite X.
  lia.
Qed.

Lemma next_frame_resync_nonempty v b e :
  next_frame v b = Resync e -> (0 < String.length b)%nat.
Proof.
  unfold next_frame.
  destruct (String.length b <? 4)%nat eqn:E4; [discriminate|].
  apply Nat.ltb_ge in E4. intros _. lia.
Qed.

(** With frame validation on, each turn of the loop consumes one
    character or more, so the loop of [_onData] ends within the fuel
    [_onData] gives it. *)
Lemma onData_loop_total fuel :
  forall w, validateFrames w = true ->
            (String.length (buffer w) < fuel)%nat ->
            fst (_onData_loop fuel w) <> Hang.
Proof.
  induction fuel as [|fuel IH]; intros w Hv Hl; [lia|].
  simpl. unfold bind at 1. unfold get. rewrite Hv.
  destruct (next_frame true (buffer w)) as [|e|mid frame payload rest] eqn:E.
  - discriminate.
  - apply next_frame_resync_nonempty in E.
    unfold bind, emit, modify. simpl.
    destruct (listener_throws (Ev.frameError e)); simpl; [discriminate|].
    apply IH; simpl; [exact Hv|].
    destruct (buffer w); simpl in *; lia.
  - apply next_frame_shrinks in E.
    unfold bind at 1. unfold modify.
    unfold bind.
    pose proof (@decoding_process_frame rest true mid payload (set_buffer rest w)) as Hd.
    pose proof (total_process_frame mid payload (set_buffer rest w)) as Ht.
    destruct (process_frame mid payload (set_buffer rest w)) as [[[]| e |] w2];
      simpl in *; try discriminate; [|congruence].
    destruct Hd as [Hb2 Hv2]; [split; [reflexivity | exact Hv]|].
    apply IH; [exact Hv2 | rewrite Hb2; lia].
Qed.

Theorem onData_total data w :
  validateFrames w = true -> fst (_onData data w) <> Hang.
Proof.
  intros Hv. unfold _onData, _touchTraffic. unfold bind, modify, get.
  apply onData_loop_total; simpl; [exact Hv | lia].
Qed.

Lemma onData_loop_one_frame fuel w mid frame payload :
  next_frame (validateFrames w) (buffer w) = Frame mid frame payload "" ->
  exists r,
    _onData_loop (S (S fuel)) w
    = (r, snd (process_frame mid payload (set_buffer "" w)))
    /\ r <> Hang.
Proof.
  intros Hf.
  change (_onData_loop (S (S fuel)) w)
    with ((w0 <- get ;;
           match next_frame (validateFrames w0) (buffer w0) with
           | Wait => ret tt
           | Resync e =>
               emit (Ev.frameError e) ;;
               modify (fun w => set_buffer (Js.slice_from 1 (buffer w)) w) ;;
               _onData_loop (S fuel)
           | Frame mid _ payload rest =>
               modify (set_buffer rest) ;;
               process_frame mid payload ;;
               _onData_loop (S fuel)
           end) w).
  unfold bind at 1. unfold get. rewrite Hf.
  unfold bind at 1. unfold modify.
  pose proof (@decoding_process_frame "" (validateFrames w) mid payload
                (set_buffer "" w) (conj eq_refl eq_refl)) as Hd.
  pose proof (total_process_frame mid payload (set_buffer "" w)) as Ht.
  unfold bind at 1.
  destruct (process_frame mid payload (set_buffer "" w)) as [[[]| e |] w2].
  - destruct Hd as [Hb2 Hv2]. cbn [snd] in Hb2.
    change (_onData_loop (S fuel) w2)
      with ((w0 <- get ;;
             match next_frame (validateFrames w0) (buffer w0) with
             | Wait => ret tt
             | Resync e =>
                 emit (Ev.frameError e) ;;
                 modify (fun w => set_buffer (Js.slice_from 1 (buffer w)) w) ;;
                 _onData_loop fuel
             | Frame mid _ payload rest =>
                 modify (set_buffer rest) ;;
                 process_frame mid payload ;;
                 _onData_loop fuel
             end) w2).
    unfold bind at 1. unfold get. rewrite Hb2.
    change (next_frame (validateFrames w2) "") with Wait.
    exists (Ok tt). split; [reflexivity | discriminate].
  - exists (Throw e). split; [reflexivity | discriminate].
  - exfalso. apply Ht. reflexivity.
Qed.

Lemma strip_nul_frame_text mid payload expectAck :
  (mid < 10000)%N ->
  valid_payload payload ->
  Z.of_nat (String.length payload) + 20 <= 9999 ->
  Js.strip_nul (frame_text mid payload expectAck) = frame_text mid payload expectAck.
Proof.
  intros Hmid Hvalid Hlen.
  pose proof (body_length payload expectAck Hmid) as Hbl.
  assert (Hn : (N.of_nat (String.length
                  (Js.padStart 4 "0" (Js.toString mid) ++
                   ("001" ++ (if expectAck then "0" else "1") ++ "01" ++ "01" ++ "    ")
                   ++ payload) + 4) < 10000)%N) by (rewrite Hbl; lia).
  unfold frame_text.
  destruct (pad4_spec Hmid) as [_ [Hm _]].
  destruct (pad4_spec Hn) as [_ [Hl _]].
  unfold Js.four_digits in Hm, Hl.
  apply andb_prop in Hm. apply andb_prop in Hl.
  rewrite !strip_nul_app.
  rewrite (strip_nul_digits _ (proj2 Hm)), (strip_nul_digits _ (proj2 Hl)).
  rewrite (strip_nul_valid Hvalid).
  destruct expectAck; reflexivity.
Qed.

Lemma frame_text_length mid payload expectAck :
  (mid < 10000)%N ->
  Z.of_nat (String.length payload) + 20 <= 9999 ->
  String.length (frame_text mid payload expectAck)
  = (4 + (16 + String.length payload))%nat.
Proof.
  intros Hmid Hlen.
  pose proof (body_length payload expectAck Hmid) as Hbl.
  assert (Hn : (N.of_nat (String.length
                  (Js.padStart 4 "0" (Js.toString mid) ++
                   ("001" ++ (if expectAck then "0" else "1") ++ "01" ++ "01" ++ "    ")
                   ++ payload) + 4) < 10000)%N) by (rewrite Hbl; lia).
  unfold frame_text. rewrite length_app_string, (proj1 (pad4_spec Hn)), Hbl.
  reflexivity.
Qed.

Lemma header_of_encoded mid payload expectAck :
  (mid < 10000)%N ->
  Z.of_nat (String.length payload) + 20 <= 9999 ->
  let body := Js.slice_from 4 (frame_text mid payload expectAck) in
  Js.slice 0 4 body = Js.padStart 4 "0" (Js.toString mid)
  /\ Js.slice 4 16 body
     = "001" ++ (if expectAck then "0" else "1") ++ "01" ++ "01" ++ "    ".
Proof.
  intros Hmid Hlen body.
  pose proof (body_length payload expectAck Hmid) as Hbl.
  assert (Hn : (N.of_nat (String.length
                  (Js.padStart 4 "0" (Js.toString mid) ++
                   ("001" ++ (if expectAck then "0" else "1") ++ "01" ++ "01" ++ "    ")
                   ++ payload) + 4) < 10000)%N) by (rewrite Hbl; lia).
  assert (Eb : body = Js.padStart 4 "0" (Js.toString mid) ++
                 ("001" ++ (if expectAck then "0" else "1") ++ "01" ++ "01" ++ "    ")
                 ++ payload).
  { unfold body, Js.slice_from, frame_text. apply drop_app_n, (proj1 (pad4_spec Hn)). }
  rewrite Eb. unfold Js.slice. split.
  - apply take_app_n, (proj1 (pad4_spec Hmid)).
  - rewrite (drop_app_n _ _ (proj1 (pad4_spec Hmid))).
    apply take_app_n, header_rest_length.
Qed.

Lemma onData_encoded mid payload expectAck w :
  buffer w = "" ->
  (mid < 10000)%N ->
  valid_payload payload ->
  Z.of_nat (String.length payload) + 20 <= 9999 ->
  let w1 := set_buffer "" (set_lastTrafficTs (now w) w) in
  snd (_onData (frame_text mid payload expectAck) w)
  = snd (process_frame (Js.Int (Z.of_N mid)) payload w1)
  /\ fst (_onData (frame_text mid payload expectAck) w) <> Hang.
Proof.
  intros Hb Hmid Hvalid Hlen w1.
  pose proof (@strip_nul_frame_text mid payload expectAck Hmid Hvalid Hlen) as Hstrip.
  pose proof (@decode_encoded (validateFrames w) mid payload expectAck Hmid Hlen) as Hdec.
  cbv zeta in Hdec.
  pose proof (@frame_text_length mid payload expectAck Hmid Hlen) as Hk.
  set (text := frame_text mid payload expectAck) in *.
  assert (E : _onData text w
              = _onData_loop (S (S (3 + (16 + String.length payload))))
                  (set_buffer text (set_lastTrafficTs (now w) w))).
  { unfold _onData, _touchTraffic. unfold bind, modify, get.
    cbn [buffer set_buffer set_lastTrafficTs].
    rewrite Hb, Hstrip. cbn [append]. rewrite Hk. reflexivity. }
  rewrite E.
  destruct (@onData_loop_one_frame (3 + (16 + String.length payload))
              (set_buffer text (set_lastTrafficTs (now w) w))
              (Js.Int (Z.of_N mid)) (Js.slice_from 4 text) payload Hdec)
    as [r [Er Hr]].
  rewrite Er. split; [reflexivity | exact Hr].
Qed.

(** C8. For a MID of at most four digits and a payload of 7-bit ASCII
    without NUL that keeps the frame within 9999 characters, the decoder
    fed the text of the encoder finds one frame and nothing after it: the
    frame's MID field reads back as the MID, its header is revision 001,
    the NoAck flag ['0'] when an acknowledgement is expected and ['1']
    otherwise, station 01, spindle 01 and four spaces, and its payload is
    the payload; [_onData] returns, having dispatched exactly this MID
    and payload once and emptied the buffer. *)
Theorem frame_round_trip :
  forall (mid : N) (payload : string) (expectAck : bool) (w : World),
    (mid < 10000)%N ->
    valid_payload payload ->
    Z.of_nat (String.length payload) + 20 <= 9999 ->
    buffer w = "" ->
    let text := frame_text mid payload expectAck in
    let body := Js.slice_from 4 text in
    next_frame (validateFrames w) (Js.strip_nul text)
    = Frame (Js.Int (Z.of_N mid)) body payload ""
    /\ Js.parseInt (Js.slice 0 4 body) = Js.Int (Z.of_N mid)
    /\ Js.slice 4 16 body
       = "001" ++ (if expectAck then "0" else "1") ++ "01" ++ "01" ++ "    "
    /\ Js.slice_from 16 body = payload
    /\ snd (_onData text w)
       = snd (process_frame (Js.Int (Z.of_N mid)) payload
                (set_buffer "" (set_lastTrafficTs (now w) w)))
    /\ fst (_onData text w) <> Hang.
Proof.
  intros mid payload expectAck w Hmid Hvalid Hlen Hb text body.
  pose proof (@decode_encoded (validateFrames w) mid payload expectAck Hmid Hlen) as Hdec.
  cbv zeta in Hdec. fold text in Hdec. fold body in Hdec.
  destruct (@header_of_encoded mid payload expectAck Hmid Hlen) as [Hh1 Hh2].
  fold text in Hh1, Hh2. fold body in Hh1, Hh2.
  destruct (@onData_encoded mid payload expectAck w Hb Hmid Hvalid Hlen) as [Ho1 Ho2].
  fold text in Ho1, Ho2.
  split.
  { unfold text at 1. rewrite (@strip_nul_frame_text mid payload expectAck Hmid Hvalid Hlen).
    exact Hdec. }
  split.
  { rewrite Hh1. apply (pad4_spec Hmid). }
  split; [exact Hh2|].
  split.
  { unfold next_frame in Hdec.
    pose proof (body_length payload expectAck Hmid) as Hbl.
    assert (Eb : body = Js.padStart 4 "0" (Js.toString mid) ++
                   ("001" ++ (if expectAck then "0" else "1") ++ "01" ++ "01" ++ "    ")
                   ++ payload).
    { assert (Hn : (N.of_nat (String.length
                      (Js.padStart 4 "0" (Js.toString mid) ++
                       ("001" ++ (if expectAck then "0" else "1") ++ "01" ++ "01" ++ "    ")
                       ++ payload) + 4) < 10000)%N) by (rewrite Hbl; lia).
      unfold body, text, Js.slice_from, frame_text.
      apply drop_app_n, (proj1 (pad4_spec Hn)). }
    rewrite Eb. unfold Js.slice_from. change 16%nat with (4 + 12)%nat.
    rewrite <- drop_drop, (drop_app_n _ _ (proj1 (pad4_spec Hmid))).
    apply drop_app_n, header_rest_length. }
  split; [exact Ho1 | exact Ho2].
Qed.

(* ================================================================== *)
(** * Snapshots *)
(* ================================================================== *)





Lemma val_fresh_le a b v : (a <= b)%nat -> Store.val_fresh b v -> Store.val_fresh a v.
Proof. destruct v; simpl; auto. intros; lia. Qed.









(* ================================================================== *)
(** * Batch invariants, as the code keeps them *)
(* ================================================================== *)

Ltac run_frame :=
  unfold process_frame, try_catch, _parseMID, _handleMID, getState, emit, update,
    modify, when, bind, ret, get, throw;
  simpl;
  repeat mcase.




(* ================================================================== *)
(** * Revision 1 results *)
(* ================================================================== *)

Lemma parse0061_rev1_spindle p : spindle (_parse0061 (Js.Int 1) p) = Js.Int 1.
Proof. reflexivity. Qed.

(* ================================================================== *)
(** * The decoder loop *)
(* ================================================================== *)

Lemma total_dispatch mid payload :
  total (w <- get ;; _handleMID mid (_parseMID (state w) mid payload)).
Proof. repeat total_step. Qed.

(** With quiet [parseError] listeners nothing escapes the [try]/[catch]
    of [_onData]. *)
Lemma process_frame_returns mid payload w :
  (forall m e, listener_throws (Ev.parseError m e) = false) ->
  fst (process_frame mid payload w) = Ok tt.
Proof.
  intros Hq. unfold process_frame, try_catch.
  pose proof (total_dispatch mid payload w) as Ht. cbv zeta.
  destruct ((w0 <- get ;; _handleMID mid (_parseMID (state w0) mid payload)) w)
    as [[[]| e |] w2]; simpl in *.
  - reflexivity.
  - unfold emit. rewrite Hq. reflexivity.
  - congruence.
Qed.

Lemma onData_loop_turn fuel w :
  _onData_loop (S fuel) w
  = match next_frame (validateFrames w) (buffer w) with
    | Wait => (Ok tt, w)
    | Resync e =>
        (emit (Ev.frameError e) ;;
         modify (fun w => set_buffer (Js.slice_from 1 (buffer w)) w) ;;
         _onData_loop fuel) w
    | Frame mid _ payload rest =>
        (process_frame mid payload ;; _onData_loop fuel) (set_buffer rest w)
    end.
Proof.
  simpl. unfold bind at 1. unfold get.
  destruct (next_frame (validateFrames w) (buffer w)); reflexivity.
Qed.

Lemma onData_loop_waits fuel :
  forall w, validateFrames w = true ->
    fst (_onData_loop fuel w) = Ok tt ->
    next_frame true (buffer (snd (_onData_loop fuel w))) = Wait.
Proof.
  induction fuel as [|fuel IH]; intros w Hv; [discriminate|].
  rewrite onData_loop_turn, Hv.
  destruct (next_frame true (buffer w)) as [|e|mid frame payload rest] eqn:E.
  - intros _. exact E.
  - unfold bind, emit, modify. simpl.
    destruct (listener_throws (Ev.frameError e)); simpl; [discriminate|].
    apply IH. exact Hv.
  - unfold bind.
    pose proof (@decoding_process_frame rest true mid payload (set_buffer rest w)
                  (conj eq_refl Hv)) as Hd.
    destruct (process_frame mid payload (set_buffer rest w)) as [[[]| e |] w2];
      simpl in *; try discriminate.
    apply IH. exact (proj2 Hd).
Qed.

(** X1. With frame validation on, [_onData] always ends, whatever the
    data and whatever the buffer held; and when it returns, the decoder
    is waiting on what is left in the buffer: fewer than four characters,
    or the beginning of a frame whose announced length has not arrived
    yet.  No complete frame and no invalid prefix stays behind. *)
Theorem onData_leaves_no_frame :
  forall (data : string) (w : World),
    validateFrames w = true ->
    fst (_onData data w) <> Hang
    /\ (fst (_onData data w) = Ok tt ->
        next_frame true (buffer (snd (_onData data w))) = Wait).
Proof.
  intros data w Hv. split.
  - unfold _onData, _touchTraffic. unfold bind, modify, get.
    apply onData_loop_total; simpl; [exact Hv | lia].
  - unfold _onData, _touchTraffic. unfold bind, modify, get.
    apply onData_loop_waits. exact Hv.
Qed.

Lemma next_frame_stuck b :
  (4 <= String.length b)%nat ->
  length_field_falsy b ->
  next_frame false b = Frame Js.NaN "" "" b.
Proof.
  intros Hl Hz. unfold length_field_falsy in Hz. unfold next_frame.
  assert (E : (String.length b <? 4)%nat = false) by (apply Nat.ltb_ge; exact Hl).
  rewrite E. simpl andb. cbv iota.
  destruct (Js.parseInt (Js.slice 0 4 b)) as [|z]; simpl in *.
  - reflexivity.
  - apply negb_false_iff, Z.eqb_eq in Hz. subst z. simpl.
    assert (E2 : (Z.of_nat (String.length b) <? 0) = false) by (apply Z.ltb_ge; lia).
    rewrite E2. reflexivity.
Qed.

Lemma onData_loop_spins fuel :
  (forall m e, listener_throws (Ev.parseError m e) = false) ->
  forall w, validateFrames w = false ->
    (4 <= String.length (buffer w))%nat ->
    length_field_falsy (buffer w) ->
    fst (_onData_loop fuel w) = Hang.
Proof.
  intros Hq. induction fuel as [|fuel IH]; intros w Hv Hl Hz; [reflexivity|].
  rewrite onData_loop_turn, Hv, (next_frame_stuck Hl Hz).
  unfold bind.
  pose proof (@decoding_process_frame (buffer w) false Js.NaN "" (set_buffer (buffer w) w)
                (conj eq_refl Hv)) as Hd.
  pose proof (process_frame_returns Js.NaN "" (set_buffer (buffer w) w) Hq) as Hr.
  destruct (process_frame Js.NaN "" (set_buffer (buffer w) w)) as [r w2].
  simpl in Hr, Hd. subst r. destruct Hd as [Hb2 Hv2].
  apply IH; [exact Hv2 | rewrite Hb2; exact Hl | rewrite Hb2; exact Hz].
Qed.

(** X2. With frame validation off and [parseError] listeners that do not
    throw, a buffer of four characters or more whose length field is not
    a number, or is zero, stops the decoder for good: each turn of the
    loop of [_onData] dispatches an empty frame with MID [NaN] and leaves
    the buffer as it was, so the loop goes through any number of turns
    without ending. *)
Theorem onData_spins_without_validation :
  forall (data : string) (w : World),
    (forall m e, listener_throws (Ev.parseError m e) = false) ->
    validateFrames w = false ->
    let b := buffer w ++ Js.strip_nul data in
    (4 <= String.length b)%nat ->
    length_field_falsy b ->
    next_frame false b = Frame Js.NaN "" "" b
    /\ (forall fuel, fst (_onData_loop fuel (receiving b w)) = Hang)
    /\ fst (_onData data w) = Hang.
Proof.
  intros data w Hq Hv b Hl Hz.
  split; [apply next_frame_stuck; assumption|].
  split.
  - intros fuel. apply onData_loop_spins; assumption.
  - unfold _onData, _touchTraffic. unfold bind, modify, get.
    apply onData_loop_spins; assumption.
Qed.

(* ================================================================== *)
(** * Frames in a stream *)
(* ================================================================== *)

Lemma app_string_assoc (a b c : string) : (a ++ b) ++ c = a ++ (b ++ c).
Proof. induction a as [|x a IH]; simpl; congruence. Qed.

Lemma app_string_empty (a : string) : a ++ "" = a.
Proof. induction a as [|x a IH]; simpl; congruence. Qed.

Lemma take_app_le n (a b : string) :
  (n <= String.length a)%nat -> Js.take n (a ++ b) = Js.take n a.
Proof.
  revert a. induction n as [|n IH]; intros a Hl; [reflexivity|].
  destruct a as [|c a]; simpl in *; [lia|]. rewrite IH; [reflexivity | lia].
Qed.

Lemma length_strip_nul (s : string) :
  (String.length (Js.strip_nul s) <= String.length s)%nat.
Proof.
  induction s as [|c s IH]; simpl; [lia|].
  destruct (Ascii.eqb c zero); simpl; lia.
Qed.

Lemma strip_nul_same_length (s : string) :
  String.length (Js.strip_nul s) = String.length s -> Js.strip_nul s = s.
Proof.
  induction s as [|c s IH]; simpl; [reflexivity|].
  pose proof (length_strip_nul s) as Hl.
  destruct (Ascii.eqb c zero); simpl; intros H; [lia|].
  rewrite IH; [reflexivity | lia].
Qed.

Lemma strip_nul_parts (a b : string) :
  Js.strip_nul (a ++ b) = a ++ b -> Js.strip_nul a = a /\ Js.strip_nul b = b.
Proof.
  intros H. apply (f_equal String.length) in H.
  rewrite strip_nul_app, !length_app_string in H.
  pose proof (length_strip_nul a). pose proof (length_strip_nul b).
  split; apply strip_nul_same_length; lia.
Qed.

(** The encoded frame in front of more data. *)
Lemma decode_encoded_rest validate mid payload expectAck rest :
  (mid < 10000)%N ->
  Z.of_nat (String.length payload) + 20 <= 9999 ->
  let text := frame_text mid payload expectAck in
  next_frame validate (text ++ rest)
  = Frame (Js.Int (Z.of_N mid)) (Js.slice_from 4 text) payload rest.
Proof.
  intros Hmid Hlen text.
  unfold frame_text in text.
  set (mid4 := Js.padStart 4 "0" (Js.toString mid)) in *.
  set (hdr := "001" ++ (if expectAck then "0" else "1") ++ "01" ++ "01" ++ "    ") in *.
  set (body := mid4 ++ hdr ++ payload) in *.
  set (len4 := Js.padStart 4 "0" (Js.toString (N.of_nat (String.length body + 4)))) in *.
  destruct (pad4_spec Hmid) as [Hm1 [_ Hm3]]. fold mid4 in Hm1, Hm3.
  assert (Hh : String.length hdr = 12%nat) by apply header_rest_length.
  assert (Hb : String.length body = (16 + String.length payload)%nat).
  { unfold body. rewrite !length_app_string, Hm1, Hh. lia. }
  assert (Hn : (N.of_nat (String.length body + 4) < 10000)%N) by lia.
  destruct (pad4_spec Hn) as [Hl1 [Hl2 Hl3]]. fold len4 in Hl1, Hl2, Hl3.
  assert (Ht : String.length text = (String.length body + 4)%nat).
  { unfold text. rewrite length_app_string, Hl1. lia. }
  assert (Hall : String.length (text ++ rest)
                 = (String.length text + String.length rest)%nat)
    by apply length_app_string.
  assert (Etext : text ++ rest = len4 ++ (body ++ rest)).
  { unfold text. apply app_string_assoc. }
  unfold next_frame.
  assert (E1 : (String.length (text ++ rest) <? 4)%nat = false)
    by (apply Nat.ltb_ge; lia).
  rewrite E1.
  assert (E2 : Js.slice 0 4 (text ++ rest) = len4).
  { rewrite Etext. unfold Js.slice. simpl Js.drop. apply take_app_n, Hl1. }
  rewrite E2, Hl2, Hl3.
  rewrite andb_false_r.
  assert (E3 : Js.lt (Js.Int (Z.of_N (N.of_nat (String.length body + 4)))) (Js.Int 20)
               || Js.gt (Js.Int (Z.of_N (N.of_nat (String.length body + 4))))
                        (Js.Int 9999) = false).
  { unfold Js.gt, Js.lt. apply orb_false_iff. split; apply Z.ltb_ge; lia. }
  rewrite E3, andb_false_r.
  assert (E4 : Js.lt (Js.Int (Z.of_nat (String.length (text ++ rest))))
                     (Js.Int (Z.of_N (N.of_nat (String.length body + 4)))) = false).
  { unfold Js.lt. apply Z.ltb_ge. lia. }
  rewrite E4.
  assert (E5 : rel_index (String.length (text ++ rest))
                 (Js.Int (Z.of_N (N.of_nat (String.length body + 4))))
               = String.length text).
  { unfold rel_index.
    assert (X : (Z.of_N (N.of_nat (String.length body + 4)) <? 0) = false)
      by (apply Z.ltb_ge; lia).
    rewrite X. lia. }
  rewrite E5.
  assert (E6 : Js.slice 4 (String.length text) (text ++ rest) = body).
  { rewrite Etext. unfold Js.slice. rewrite (drop_app_n _ _ Hl1).
    replace (String.length text - 4)%nat with (String.length body) by lia.
    apply take_app_exact. }
  assert (E7 : Js.slice_from 4 text = body).
  { unfold Js.slice_from, text. apply drop_app_n, Hl1. }
  rewrite E6, E7.
  assert (E8 : Js.slice_from (String.length text) (text ++ rest) = rest)
    by (unfold Js.slice_from; apply drop_app_exact).
  rewrite E8.
  assert (E9 : Js.slice 0 4 body = mid4).
  { unfold Js.slice, body. simpl Js.drop. apply take_app_n, Hm1. }
  rewrite E9, Hm3.
  assert (E10 : Js.slice_from 16 body = payload).
  { unfold Js.slice_from, body. change 16%nat with (4 + 12)%nat.
    rewrite <- drop_drop, (drop_app_n _ _ Hm1). apply drop_app_n, Hh. }
  rewrite E10. reflexivity.
Qed.

Lemma encode_length m :
  encodable m ->
  String.length (encode m) = (20 + String.length (msg_payload m))%nat.
Proof.
  intros [Hmid [_ Hlen]]. unfold encode.
  rewrite (@frame_text_length _ _ (msg_expectAck m) Hmid Hlen). lia.
Qed.

Lemma strip_nul_stream ms : Forall encodable ms -> Js.strip_nul (stream ms) = stream ms.
Proof.
  induction 1 as [|m ms [Hmid [Hv Hlen]] _ IH]; simpl; [reflexivity|].
  rewrite strip_nul_app, IH. unfold encode.
  rewrite (@strip_nul_frame_text _ _ (msg_expectAck m) Hmid Hv Hlen). reflexivity.
Qed.

Lemma stream_length ms :
  Forall encodable ms -> (List.length ms <= String.length (stream ms))%nat.
Proof.
  induction 1 as [|m ms Hm _ IH]; simpl; [lia|].
  rewrite length_app_string, (encode_length Hm). lia.
Qed.

Lemma onData_loop_stream ms :
  (forall m e, listener_throws (Ev.parseError m e) = false) ->
  Forall encodable ms ->
  forall fuel w,
    buffer w = stream ms ->
    (List.length ms < fuel)%nat ->
    _onData_loop fuel w = (Ok tt, dispatch_all ms w).
Proof.
  intros Hq Hms. induction Hms as [|m ms Hm _ IH]; intros fuel w Hb Hf.
  - destruct fuel as [|fuel]; [simpl in Hf; lia|].
    rewrite onData_loop_turn, Hb. reflexivity.
  - destruct fuel as [|fuel]; [simpl in Hf; lia|].
    rewrite onData_loop_turn, Hb. simpl stream.
    destruct Hm as [Hmid [Hv Hlen]].
    unfold encode.
    rewrite (@decode_encoded_rest (validateFrames w) _ _ (msg_expectAck m)
               (stream ms) Hmid Hlen).
    unfold bind.
    pose proof (@decoding_process_frame (stream ms) (validateFrames w)
                  (Js.Int (Z.of_N (msg_mid m))) (msg_payload m)
                  (set_buffer (stream ms) w) (conj eq_refl eq_refl)) as Hd.
    pose proof (process_frame_returns (Js.Int (Z.of_N (msg_mid m))) (msg_payload m)
                  (set_buffer (stream ms) w) Hq) as Hr.
    simpl dispatch_all.
    destruct (process_frame (Js.Int (Z.of_N (msg_mid m))) (msg_payload m)
                (set_buffer (stream ms) w)) as [r w2].
    simpl in Hr, Hd. subst r. simpl snd.
    apply IH; [exact (proj1 Hd) | simpl in Hf; lia].
Qed.

Lemma dispatch_all_buffer ms :
  forall w, buffer (dispatch_all ms w) = match ms with [] => buffer w | _ => "" end.
Proof.
  induction ms as [|m ms IH]; intros w; simpl; [reflexivity|].
  rewrite IH.
  pose proof (@decoding_process_frame (stream ms) (validateFrames w)
                (Js.Int (Z.of_N (msg_mid m))) (msg_payload m)
                (set_buffer (stream ms) w) (conj eq_refl eq_refl)) as Hd.
  destruct ms; [exact (proj1 Hd) | reflexivity].
Qed.

(** X3. Frames that arrive together are taken apart and dispatched one
    by one.  Provided the [parseError] listeners do not throw, [_onData]
    fed the frames of any number of encodable messages in one piece
    returns, having dispatched the MID and the payload of each message
    once, in the order sent, with the buffer holding what comes after the
    frame being dispatched; the buffer is empty at the end. *)
Theorem onData_splits_stream :
  forall (ms : list Message) (w : World),
    (forall m e, listener_throws (Ev.parseError m e) = false) ->
    Forall encodable ms ->
    buffer w = "" ->
    _onData (stream ms) w = (Ok tt, dispatch_all ms (receiving "" w))
    /\ buffer (dispatch_all ms (receiving "" w)) = "".
Proof.
  intros ms w Hq Hms Hb. split.
  - unfold _onData, _touchTraffic. unfold bind, modify, get.
    cbn [buffer set_buffer set_lastTrafficTs].
    rewrite Hb, (strip_nul_stream Hms). cbn [append].
    rewrite (@onData_loop_stream ms Hq Hms _
               (set_buffer (stream ms) (set_lastTrafficTs (now w) w)));
      [ | reflexivity | pose proof (stream_length Hms); lia ].
    f_equal. destruct ms; reflexivity.
  - rewrite dispatch_all_buffer. destruct ms; reflexivity.
Qed.

Lemma prefix_waits validate mid payload expectAck a b :
  (mid < 10000)%N ->
  Z.of_nat (String.length payload) + 20 <= 9999 ->
  frame_text mid payload expectAck = a ++ b ->
  b <> "" ->
  next_frame validate a = Wait.
Proof.
  intros Hmid Hlen Hsplit Hb.
  pose proof (@frame_text_length mid payload expectAck Hmid Hlen) as Hk.
  pose proof (body_length payload expectAck Hmid) as Hbl.
  assert (Hab : (String.length a + String.length b)%nat
                = (4 + (16 + String.length payload))%nat).
  { rewrite <- Hk, Hsplit. symmetry. apply length_app_string. }
  assert (Hb1 : (0 < String.length b)%nat).
  { destruct b; [congruence | simpl; lia]. }
  unfold next_frame.
  destruct (String.length a <? 4)%nat eqn:E4; [reflexivity|].
  apply Nat.ltb_ge in E4.
  set (body := Js.padStart 4 "0" (Js.toString mid) ++
               ("001" ++ (if expectAck then "0" else "1") ++ "01" ++ "01" ++ "    ")
               ++ payload) in *.
  assert (Hn : (N.of_nat (String.length body + 4) < 10000)%N) by (rewrite Hbl; lia).
  destruct (pad4_spec Hn) as [Hl1 [Hl2 Hl3]].
  assert (E2 : Js.slice 0 4 a
               = Js.padStart 4 "0" (Js.toString (N.of_nat (String.length body + 4)))).
  { unfold Js.slice. simpl Js.drop. change (4 - 0)%nat with 4%nat.
    rewrite <- (take_app_le a b E4), <- Hsplit.
    unfold frame_text. fold body. apply take_app_n, Hl1. }
  rewrite E2, Hl2, Hl3. rewrite andb_false_r.
  assert (E3 : Js.lt (Js.Int (Z.of_N (N.of_nat (String.length body + 4)))) (Js.Int 20)
               || Js.gt (Js.Int (Z.of_N (N.of_nat (String.length body + 4))))
                        (Js.Int 9999) = false).
  { unfold Js.gt, Js.lt. apply orb_false_iff. split; apply Z.ltb_ge; lia. }
  rewrite E3, andb_false_r.
  assert (E5 : Js.lt (Js.Int (Z.of_nat (String.length a)))
                     (Js.Int (Z.of_N (N.of_nat (String.length body + 4)))) = true).
  { unfold Js.lt. apply Z.ltb_lt. lia. }
  rewrite E5. reflexivity.
Qed.

(** X4. A frame that arrives in two pieces is dispatched once, when its
    last character is in.  Fed a piece that stops short of the end of an
    encoded frame, [_onData] returns with the piece in the buffer and
    nothing else changed but the traffic time stamp: no event, no state
    change, nothing written.  Fed the remainder later, in any world whose
    buffer still holds the first piece, it dispatches the MID and the
    payload of the frame once and leaves the buffer empty. *)
Theorem frame_in_two_chunks :
  forall (mid : N) (payload : string) (expectAck : bool) (a b : string)
         (w w1 : World),
    (mid < 10000)%N ->
    valid_payload payload ->
    Z.of_nat (String.length payload) + 20 <= 9999 ->
    frame_text mid payload expectAck = a ++ b ->
    b <> "" ->
    buffer w = "" ->
    buffer w1 = a ->
    _onData a w = (Ok tt, receiving a w)
    /\ snd (_onData b w1)
       = snd (process_frame (Js.Int (Z.of_N mid)) payload (receiving "" w1))
    /\ fst (_onData b w1) <> Hang.
Proof.
  intros mid payload expectAck a b w w1 Hmid Hvalid Hlen Hsplit Hb Hw Hw1.
  pose proof (@strip_nul_frame_text mid payload expectAck Hmid Hvalid Hlen) as Hstrip.
  rewrite Hsplit in Hstrip. destruct (strip_nul_parts _ _ Hstrip) as [Ha Hbb].
  split.
  - unfold _onData, _touchTraffic. unfold bind, modify, get.
    cbn [buffer set_buffer set_lastTrafficTs].
    rewrite Hw, Ha. cbn [append].
    rewrite onData_loop_turn. cbn [buffer set_buffer set_lastTrafficTs validateFrames].
    rewrite (@prefix_waits (validateFrames w) mid payload expectAck a b Hmid Hlen Hsplit Hb).
    reflexivity.
  - pose proof (@decode_encoded (validateFrames w1) mid payload expectAck Hmid Hlen) as Hdec.
    cbv zeta in Hdec.
    pose proof (@frame_text_length mid payload expectAck Hmid Hlen) as Hk.
    assert (E : _onData b w1
                = _onData_loop (S (S (3 + (16 + String.length payload))))
                    (receiving (frame_text mid payload expectAck) w1)).
    { unfold _onData, _touchTraffic. unfold bind, modify, get.
      cbn [buffer set_buffer set_lastTrafficTs].
      rewrite Hw1, Hbb, <- Hsplit, Hk. reflexivity. }
    rewrite E.
    destruct (@onData_loop_one_frame (3 + (16 + String.length payload))
                (receiving (frame_text mid payload expectAck) w1)
                (Js.Int (Z.of_N mid))
                (Js.slice_from 4 (frame_text mid payload expectAck)) payload Hdec)
      as [r [Er Hr]].
    rewrite Er. split; [reflexivity | exact Hr].
Qed.

Lemma set_buffer_add_events b l :
  forall w, set_buffer b (add_events l w) = add_events l (set_buffer b w).
Proof.
  induction l as [|e l IH]; intros w; simpl; [reflexivity|].
  rewrite IH. reflexivity.
Qed.

Lemma first_char_not_digit c s :
  Js.is_digit c = false -> Js.four_digits (Js.slice 0 4 (String c s)) = false.
Proof.
  intros Hc. unfold Js.four_digits, Js.slice. simpl. rewrite Hc.
  apply andb_false_r.
Qed.

Lemma onData_loop_garbage text :
  (forall e, listener_throws (Ev.frameError e) = false) ->
  (4 <= String.length text)%nat ->
  forall g fuel w,
    garbage g ->
    validateFrames w = true ->
    buffer w = g ++ text ->
    _onData_loop (String.length g + fuel) w
    = _onData_loop fuel (set_buffer text (add_events (garbage_errors g text) w)).
Proof.
  intros Hq Ht. induction g as [|c g IH]; intros fuel w Hg Hv Hb.
  - simpl in *. f_equal. destruct w; simpl in *; subst; reflexivity.
  - unfold garbage in Hg. simpl in Hg.
    apply andb_prop in Hg. destruct Hg as [Hc Hg].
    apply andb_prop in Hc. destruct Hc as [Hc _]. apply negb_true_iff in Hc.
    change (String.length (String c g) + fuel)%nat
      with (S (String.length g + fuel)).
    rewrite onData_loop_turn, Hv, Hb.
    assert (E : next_frame true (String c g ++ text)
                = Resync (invalid_length (Js.slice 0 20 (String c g ++ text)))).
    { unfold next_frame.
      assert (E4 : (String.length (String c g ++ text) <? 4)%nat = false).
      { apply Nat.ltb_ge. rewrite length_app_string. lia. }
      rewrite E4. simpl append. rewrite first_char_not_digit by exact Hc. reflexivity. }
    rewrite E. unfold bind, emit, modify. rewrite Hq.
    cbn [fst snd buffer add_event].
    rewrite Hb. simpl Js.slice_from.
    rewrite (IH fuel); [ | exact Hg | exact Hv | reflexivity ].
    f_equal. simpl garbage_errors. simpl add_events.
    rewrite !set_buffer_add_events. reflexivity.
Qed.

(** X5. The decoder finds its way back to the frames.  With frame
    validation on and [frameError] listeners that do not throw, [_onData]
    fed characters that are neither digits nor NUL followed by an encoded
    frame reports one [invalid_length] frame error per such character,
    each with the first twenty characters of the buffer at that point,
    then dispatches the MID and the payload of the frame once, and
    returns with the buffer empty. *)
Theorem onData_resynchronises :
  forall (g : string) (mid : N) (payload : string) (expectAck : bool) (w : World),
    (forall e, listener_throws (Ev.frameError e) = false) ->
    validateFrames w = true ->
    buffer w = "" ->
    garbage g ->
    (mid < 10000)%N ->
    valid_payload payload ->
    Z.of_nat (String.length payload) + 20 <= 9999 ->
    let text := frame_text mid payload expectAck in
    snd (_onData (g ++ text) w)
    = snd (process_frame (Js.Int (Z.of_N mid)) payload
             (add_events (garbage_errors g text) (receiving "" w)))
    /\ fst (_onData (g ++ text) w) <> Hang.
Proof.
  intros g mid payload expectAck w Hq Hv Hb Hg Hmid Hvalid Hlen text.
  pose proof (@strip_nul_frame_text mid payload expectAck Hmid Hvalid Hlen) as Hstrip.
  pose proof (@decode_encoded true mid payload expectAck Hmid Hlen) as Hdec.
  cbv zeta in Hdec.
  pose proof (@frame_text_length mid payload expectAck Hmid Hlen) as Hk.
  fold text in Hstrip, Hdec, Hk.
  assert (Hgs : Js.strip_nul g = g).
  { clear - Hg. unfold garbage in Hg. induction g as [|c g IH]; simpl in *; [reflexivity|].
    apply andb_prop in Hg. destruct Hg as [Hc Hg].
    apply andb_prop in Hc. destruct Hc as [_ Hc]. apply negb_true_iff in Hc.
    rewrite Hc, IH; [reflexivity | exact Hg]. }
  assert (E : _onData (g ++ text) w
              = _onData_loop (String.length g + S (S (3 + (16 + String.length payload))))
                  (receiving (g ++ text) w)).
  { unfold _onData, _touchTraffic. unfold bind, modify, get.
    cbn [buffer set_buffer set_lastTrafficTs].
    rewrite Hb, strip_nul_app, Hgs, Hstrip. cbn [append].
    rewrite length_app_string, Hk.
    replace (S (String.length g + (4 + (16 + String.length payload))))
      with (String.length g + S (S (3 + (16 + String.length payload))))%nat by lia.
    reflexivity. }
  rewrite E.
  rewrite (@onData_loop_garbage text Hq ltac:(rewrite Hk; lia) g _
             (receiving (g ++ text) w) Hg Hv eq_refl).
  assert (Hdec' : next_frame
                    (validateFrames (set_buffer text
                       (add_events (garbage_errors g text) (receiving (g ++ text) w))))
                    (buffer (set_buffer text
                       (add_events (garbage_errors g text) (receiving (g ++ text) w))))
                  = Frame (Js.Int (Z.of_N mid)) (Js.slice_from 4 text) payload "").
  { cbn [buffer set_buffer].
    replace (validateFrames _) with true; [exact Hdec|].
    cbn [validateFrames set_buffer]. symmetry.
    generalize (garbage_errors g text) (receiving (g ++ text) w)
               (eq_refl : validateFrames (receiving (g ++ text) w) = validateFrames w).
    intros l. induction l as [|e l IH]; intros w0 H0; simpl.
    - rewrite H0. exact Hv.
    - apply IH. exact H0. }
  destruct (@onData_loop_one_frame (3 + (16 + String.length payload)) _ _ _ _ Hdec')
    as [r [Er Hr]].
  rewrite Er. cbn [fst snd]. split; [|exact Hr].
  assert (Ew : set_buffer ""
                 (set_buffer text
                    (add_events (garbage_errors g text) (receiving (g ++ text) w)))
               = add_events (garbage_errors g text) (receiving "" w)).
  { change (set_buffer ""
              (add_events (garbage_errors g text) (receiving (g ++ text) w))
            = add_events (garbage_errors g text) (receiving "" w)).
    rewrite set_buffer_add_events. reflexivity. }
  rewrite Ew. reflexivity.
Qed.

(* ================================================================== *)
(** * Command identifiers *)
(* ================================================================== *)

(** A computation that starts by reading the world may use what it read. *)
Lemma stable_bind_get (I : World -> Prop) {A} (k : World -> M A) :
  (forall w, I w -> I (snd (k w w))) -> stable I (bind get k).
Proof. intros H w Hw. unfold bind, get. apply H, Hw. Qed.

Lemma map_set_fresh (k : N) (v : PendingCommand) (m : list (N * PendingCommand)) :
  ~ In k (map fst m) -> map_set N.eqb k v m = (m ++ [(k, v)])%list.
Proof.
  induction m as [|[k' v'] m IH]; simpl; intros Hn; [reflexivity|].
  destruct (N.eqb k' k) eqn:E.
  - apply N.eqb_eq in E. tauto.
  - rewrite IH; [reflexivity | tauto].
Qed.

Lemma map_delete_last (k : N) (v : PendingCommand) (m : list (N * PendingCommand)) :
  ~ In k (map fst m) -> map_delete N.eqb k (m ++ [(k, v)])%list = m.
Proof.
  induction m as [|[k' v'] m IH]; simpl; intros Hn.
  - rewrite N.eqb_refl. reflexivity.
  - destruct (N.eqb k' k) eqn:E.
    + apply N.eqb_eq in E. tauto.
    + rewrite IH; [reflexivity | tauto].
Qed.

Lemma in_keys_map_delete x k (m : list (N * PendingCommand)) :
  In x (map fst (map_delete N.eqb k m)) -> In x (map fst m).
Proof.
  induction m as [|[k' v'] m IH]; simpl; auto.
  destruct (N.eqb k' k); simpl; intros H; tauto.
Qed.

Lemma nodup_keys_map_delete k (m : list (N * PendingCommand)) :
  NoDup (map fst m) -> NoDup (map fst (map_delete N.eqb k m)).
Proof.
  induction m as [|[k' v'] m IH]; simpl; intros Hnd; auto.
  inversion Hnd as [|? ? Hx Hnd']; subst.
  destruct (N.eqb k' k); simpl; auto.
  constructor; [|auto]. intros Hin. apply Hx. eapply in_keys_map_delete, Hin.
Qed.

Lemma forall_keys_map_delete (P : N -> Prop) k (m : list (N * PendingCommand)) :
  Forall P (map fst m) -> Forall P (map fst (map_delete N.eqb k m)).
Proof.
  intros H. apply Forall_forall. intros x Hx.
  apply in_keys_map_delete in Hx. revert x Hx. apply Forall_forall. exact H.
Qed.

Lemma fresh_id_not_in_table w :
  ids_in_sequence w -> ~ In (N.succ (commandSeq w)) (command_ids (state w)).
Proof.
  intros [_ Hf] Hin.
  pose proof (proj1 (Forall_forall _ _) Hf _ Hin) as H. simpl in H. lia.
Qed.

Lemma ids_after_registration w mid t :
  ids_in_sequence w ->
  NoDup (map fst (map_set N.eqb (N.succ (commandSeq w)) (mkPending mid t)
                    (pendingCommands (state w))))
  /\ Forall (fun k => (1 <= k <= N.succ (commandSeq w))%N)
       (map fst (map_set N.eqb (N.succ (commandSeq w)) (mkPending mid t)
                   (pendingCommands (state w)))).
Proof.
  intros Hi. pose proof (fresh_id_not_in_table Hi) as Hfresh.
  destruct Hi as [Hn Hf]. unfold command_ids in *.
  rewrite map_set_fresh by exact Hfresh. rewrite map_app. simpl. split.
  - apply NoDup_app; [exact Hn | constructor; [intros [] | constructor] |].
    intros x Hx [E|[]]. subst x. exact (Hfresh Hx).
  - apply Forall_app. split.
    + eapply Forall_impl; [|exact Hf]. simpl. intros; lia.
    + constructor; [lia | constructor].
Qed.

Ltac ids_side :=
  intros; unfold ids_in_sequence, command_ids in *; simpl in *; split_socket;
  first [ assumption
        | split; [apply nodup_keys_map_delete; tauto
                 | apply forall_keys_map_delete; tauto]
        | split; constructor
        | auto ].

Create HintDb ids.

Ltac ids_auto :=
  repeat first [ solve [auto with ids nocore]
               | stable_struct ids_side ltac:(idtac; unfold_head) ].

Lemma ids_sendMID mid payload expectAck :
  stable ids_in_sequence (sendMID mid payload expectAck).
Proof.
  intros w Hi.
  destruct (ids_after_registration mid (now w) Hi) as [Hn' Hf'].
  unfold sendMID, _touchTraffic, socket_write, update, modify, when, bind, ret,
    get, throw.
  simpl.
  destruct expectAck; simpl;
    [destruct (allowDuplicateCommands w); simpl;
       [|destruct (has_pending mid (state w)); simpl] |];
    try exact Hi;
    destruct (socket w); simpl; try exact Hi; split; assumption.
Qed.
#[local] Hint Resolve ids_sendMID : ids.

Lemma ids_handleMID mid d : stable ids_in_sequence (_handleMID mid d).
Proof. ids_auto. Qed.
#[local] Hint Resolve ids_handleMID : ids.

Lemma ids_onData_loop fuel : stable ids_in_sequence (_onData_loop fuel).
Proof. induction fuel as [|fuel IH]; simpl; ids_auto. Qed.
#[local] Hint Resolve ids_onData_loop : ids.

Lemma ids_run_action a : stable ids_in_sequence (run_action a).
Proof. ids_auto. Qed.

Lemma reachable_ids c w : reachable c w -> ids_in_sequence w.
Proof.
  intros [t [l ->]]. apply stable_run.
  - exact ids_run_action.
  - split; constructor.
Qed.

Lemma sendMID_registers w mid payload sk :
  ids_in_sequence w ->
  socket w = Some sk ->
  may_send mid w ->
  exists w1,
    sendMID mid payload true w = (Ok (Some (N.succ (commandSeq w))), w1)
    /\ pendingCommands (state w1)
       = (pendingCommands (state w)
            ++ [(N.succ (commandSeq w), mkPending mid (now w))])%list
    /\ commandSeq w1 = N.succ (commandSeq w)
    /\ wire w1 = (wire w ++ [frame_text mid payload true])%list
    /\ events w1 = events w
    /\ allowDuplicateCommands w1 = allowDuplicateCommands w.
Proof.
  intros Hi Hs Hm.
  pose proof (fresh_id_not_in_table Hi) as Hfresh. unfold command_ids in Hfresh.
  assert (Hgate : (if allowDuplicateCommands w then false
                   else has_pending mid (state w)) = false).
  { destruct Hm as [Hm|Hm]; rewrite Hm; [reflexivity|].
    destruct (allowDuplicateCommands w); reflexivity. }
  unfold sendMID, _touchTraffic, socket_write, update, modify, when, bind, ret,
    get, throw.
  simpl.
  destruct (allowDuplicateCommands w) eqn:Ea; simpl;
    [|rewrite Hgate; simpl]; rewrite Hs; simpl;
    (eexists; split; [reflexivity|]);
    (split; [apply map_set_fresh; exact Hfresh|]);
    (split; [reflexivity|]);
    (split; [unfold wire; simpl; rewrite Hs; reflexivity|]);
    (split; [reflexivity | exact Ea]).
Qed.

(** X6. Command identifiers are never reused.  In every reachable world
    the identifiers in the pending table are pairwise different and lie
    between 1 and the command counter; and a command that expects an
    acknowledgement and passes the duplicate check on an open socket
    returns the counter plus one, makes it the new counter, is added at
    the end of the table under this identifier with its MID and the
    current time, every older entry left in place, and writes its
    frame. *)
Theorem command_ids_fresh :
  forall (c : Config) (w : World),
    reachable c w ->
    ids_in_sequence w
    /\ forall mid payload sk,
         socket w = Some sk ->
         may_send mid w ->
         exists w1,
           sendMID mid payload true w = (Ok (Some (N.succ (commandSeq w))), w1)
           /\ pendingCommands (state w1)
              = (pendingCommands (state w)
                   ++ [(N.succ (commandSeq w), mkPending mid (now w))])%list
           /\ commandSeq w1 = N.succ (commandSeq w)
           /\ wire w1 = (wire w ++ [frame_text mid payload true])%list.
Proof.
  intros c w Hr. pose proof (reachable_ids Hr) as Hi.
  split; [exact Hi|].
  intros mid payload sk Hs Hm.
  destruct (sendMID_registers payload Hi Hs Hm) as [w1 [E [Ht [Hc [Hw _]]]]].
  exists w1. repeat split; assumption.
Qed.

Lemma pending_mid_last (k mid : N) t (m : list (N * PendingCommand)) :
  ~ In k (map fst m) ->
  pending_mid k (m ++ [(k, mkPending mid t)])%list = Some mid.
Proof.
  induction m as [|[k' v'] m IH]; simpl; intros Hn.
  - rewrite N.eqb_refl. reflexivity.
  - destruct (N.eqb k' k) eqn:E.
    + apply N.eqb_eq in E. tauto.
    + apply IH. tauto.
Qed.

Lemma has_pending_last (k mid : N) t (s : State) (m : list (N * PendingCommand)) :
  pendingCommands s = (m ++ [(k, mkPending mid t)])%list ->
  has_pending mid s = true.
Proof.
  intros E. unfold has_pending. rewrite E, existsb_app. simpl.
  rewrite N.eqb_refl. apply orb_true_iff. right. reflexivity.
Qed.

(** X7. A command that is not answered is given up when its timer
    fires.  From a reachable world, after a command that expects an
    acknowledgement has gone out its MID is pending; when the timeout of
    its identifier fires, the pending table is again what it was before
    the command, the one event emitted is [commandTimeout] with the MID
    and the identifier of the command, and nothing is written. *)
Theorem command_timeout_frees_mid :
  forall (c : Config) (w : World) (mid : N) (payload : string) (sk : Socket),
    reachable c w ->
    socket w = Some sk ->
    may_send mid w ->
    let id := N.succ (commandSeq w) in
    let w1 := snd (sendMID mid payload true w) in
    let w2 := step (act_command_timeout id) w1 in
    fst (sendMID mid payload true w) = Ok (Some id)
    /\ has_pending mid (state w1) = true
    /\ pendingCommands (state w2) = pendingCommands (state w)
    /\ emitted_since w1 w2 = [Ev.commandTimeout mid id]
    /\ wire w2 = wire w1.
Proof.
  intros c w mid payload sk Hr Hs Hm id w1 w2.
  pose proof (reachable_ids Hr) as Hi.
  pose proof (fresh_id_not_in_table Hi) as Hfresh. unfold command_ids in Hfresh.
  destruct (sendMID_registers payload Hi Hs Hm) as [w1' [E [Ht _]]].
  assert (E1 : w1 = w1') by (unfold w1; rewrite E; reflexivity).
  split; [rewrite E; reflexivity|].
  split; [rewrite E1; eapply has_pending_last; exact Ht|].
  clearbody w1. subst w1'. fold id in Ht, Hfresh.
  assert (Ew2 : w2 = snd (command_timeout_callback id mid w1)).
  { unfold w2, step, run_action. unfold bind at 1. unfold get.
    rewrite Ht, pending_mid_last by exact Hfresh. reflexivity. }
  rewrite Ew2.
  unfold command_timeout_callback, emit, update, modify, bind.
  cbn [fst snd]. destruct (listener_throws (Ev.commandTimeout mid id)); cbn [fst snd].
  all: split; [simpl; rewrite Ht; apply map_delete_last; exact Hfresh|].
  all: split; [since_log; reflexivity | reflexivity].
Qed.

(* ================================================================== *)
(** * Replies to commands *)
(* ================================================================== *)

Lemma number4_table :
  forallb (number_pad_ok 4) (map N.of_nat (seq 0 (N.to_nat 10000))) = true.
Proof. vm_compute. reflexivity. Qed.

Lemma number3_table :
  forallb (number_pad_ok 3) (map N.of_nat (seq 0 (N.to_nat 1000))) = true.
Proof. vm_compute. reflexivity. Qed.

Lemma number_pad_spec width bound (n : N) :
  forallb (number_pad_ok width) (map N.of_nat (seq 0 (N.to_nat bound))) = true ->
  (n < bound)%N ->
  let s := Js.padStart width "0" (Js.toString n) in
  String.length s = width /\ Js.Number s = Js.Int (Z.of_N n).
Proof.
  intros Htable Hn s.
  assert (Hin : In n (map N.of_nat (seq 0 (N.to_nat bound)))).
  { apply in_map_iff. exists (N.to_nat n). split; [apply N2Nat.id|].
    apply in_seq. lia. }
  pose proof (proj1 (forallb_forall _ _) Htable n Hin) as H.
  unfold number_pad_ok in H. fold s in H.
  apply andb_prop in H. destruct H as [H1 H2].
  split; [apply Nat.eqb_eq, H1|].
  destruct (Js.Number s) as [|z]; simpl in H2; [discriminate|].
  apply Z.eqb_eq in H2. congruence.
Qed.

Lemma number4_field (n : N) (rest : string) :
  (n < 10000)%N ->
  Js.Number (Js.slice 0 4 (Js.padStart 4 "0" (Js.toString n) ++ rest))
  = Js.Int (Z.of_N n).
Proof.
  intros Hn. destruct (number_pad_spec 4 number4_table Hn) as [Hl Hv].
  unfold Js.slice. simpl Js.drop. change (4 - 0)%nat with 4%nat.
  rewrite (take_app_n _ _ Hl). exact Hv.
Qed.

Lemma after_prefix {A B} (Q : World -> Prop) (m : M A) (k : A -> M B) w :
  Q (snd (m w)) -> (forall a, stable Q (k a)) -> Q (snd (bind m k w)).
Proof.
  intros Hm Hk. unfold bind.
  destruct (m w) as [[a| e |] w']; simpl in *; auto. apply Hk, Hm.
Qed.

Lemma after_try {A} (Q : World -> Prop) (m : M A) (h : Err -> M A) w :
  Q (snd (m w)) -> (forall e, stable Q (h e)) -> Q (snd (try_catch m h w)).
Proof.
  intros Hm Hh. unfold try_catch.
  destruct (m w) as [[a| e |] w']; simpl in *; auto. apply Hh, Hm.
Qed.

Lemma stable_and (P Q : World -> Prop) {A} (m : M A) :
  stable P m -> stable Q m -> stable (fun w => P w /\ Q w) m.
Proof. intros HP HQ w [Hp Hq]. split; [apply HP | apply HQ]; assumption. Qed.

(** The log only grows. *)
Ltac log_side :=
  intros; unfold log_extends in *; simpl in *; split_socket;
  first [ assumption
        | match goal with
          | H : exists _, events _ = _ |- _ =>
              let tail := fresh "tail" in
              let E := fresh "E" in
              destruct H as [tail E]; eexists; rewrite E, <- app_assoc; reflexivity
          end
        | auto ].

Create HintDb log.

Ltac log_auto :=
  repeat first [ solve [auto with log nocore]
               | stable_struct log_side ltac:(idtac; unfold_head) ].

Lemma log_sendMID l mid payload expectAck :
  stable (log_extends l) (sendMID mid payload expectAck).
Proof. log_auto. Qed.
#[local] Hint Resolve log_sendMID : log.

Lemma log_handleTighteningResult l d :
  stable (log_extends l) (_handleTighteningResult d).
Proof. log_auto. Qed.
#[local] Hint Resolve log_handleTighteningResult : log.

Lemma log_handleMID l mid d : stable (log_extends l) (_handleMID mid d).
Proof. log_auto. Qed.
#[local] Hint Resolve log_handleMID : log.

Lemma log_onData_loop l fuel : stable (log_extends l) (_onData_loop fuel).
Proof. induction fuel as [|fuel IH]; simpl; log_auto. Qed.
#[local] Hint Resolve log_onData_loop : log.

Lemma log_run_action l a : stable (log_extends l) (run_action a).
Proof. log_auto. Qed.

Lemma log_extends_since w w' e :
  log_extends (events w ++ [e]) w' ->
  exists tail, emitted_since w w' = e :: tail.
Proof.
  intros [tail E]. exists tail. unfold emitted_since.
  rewrite E, <- app_assoc, skipn_length_app. reflexivity.
Qed.

Ltac tbl_side :=
  intros; unfold table_is in *; simpl in *; split_socket;
  first [ assumption | auto ].

Ltac tbl_auto := repeat stable_struct tbl_side ltac:(idtac; unfold_head).

Lemma after_update (Q : World -> Prop) {B} (f : State -> State) (k : unit -> M B) w :
  Q (snd (k tt (with_state f w))) -> Q (snd (bind (update f) k w)).
Proof. intros H. exact H. Qed.

Lemma first_pending_last (k mid : N) t (m : list (N * PendingCommand)) :
  existsb (fun c => N.eqb (pc_mid (snd c)) mid) m = false ->
  first_pending (Js.Int (Z.of_N mid)) (m ++ [(k, mkPending mid t)])%list = Some k.
Proof.
  induction m as [|[k' v'] m IH]; simpl; intros H.
  - rewrite Z.eqb_refl. reflexivity.
  - apply orb_false_iff in H. destruct H as [H1 H2].
    assert (E : (Z.of_N (pc_mid v') =? Z.of_N mid) = false).
    { apply Z.eqb_neq. intros X. apply N2Z.inj in X.
      apply N.eqb_neq in H1. contradiction. }
    rewrite E. apply IH, H2.
Qed.

Lemma handleMID_accepted a :
  _handleMID (Js.Int 5) (PCommandAccepted a)
  = (update (with_connection (Set_.lastMID (Some (Js.Int 5)))) ;;
     (_resolvePendingCommand a true None ;;
      emit (Ev.commandAccepted a) ;;
      w <- get ;;
      when (Batch.pendingReset (batch (state w)) && Js.strict_eq a (Js.Int 20))
           (update (with_batch (Set_.counter (Js.Int 0))) ;;
            update (with_batch (Set_.complete false)) ;;
            update (with_batch (Set_.pendingReset false)) ;;
            emit Ev.batchResetConfirmed)) ;;
     snapshot <- getState ;;
     emit (Ev.stateChanged snapshot)).
Proof. reflexivity. Qed.

Lemma handleMID_refused a b c :
  _handleMID (Js.Int 4) (PCommandError a b c)
  = (update (with_connection (Set_.lastMID (Some (Js.Int 4)))) ;;
     (_resolvePendingCommand a false (Some (PCommandError a b c)) ;;
      emit (Ev.commandError (PCommandError a b c)) ;;
      w <- get ;;
      when (Batch.pendingReset (batch (state w)))
           (update (with_batch (Set_.pendingReset false)) ;;
            emit (Ev.batchResetFailed (PCommandError a b c)))) ;;
     snapshot <- getState ;;
     emit (Ev.stateChanged snapshot)).
Proof. reflexivity. Qed.

Lemma resolve_last w (m : list (N * PendingCommand)) id mid t (success : bool) data :
  pendingCommands (state w) = (m ++ [(id, mkPending mid t)])%list ->
  existsb (fun c => N.eqb (pc_mid (snd c)) mid) m = false ->
  ~ In id (map fst m) ->
  let e := if success then Ev.commandSuccess (Js.Int (Z.of_N mid)) id data
           else Ev.commandFailed (Js.Int (Z.of_N mid)) id data in
  let w' := snd (_resolvePendingCommand (Js.Int (Z.of_N mid)) success data w) in
  table_is m w' /\ events w' = (events w ++ [e])%list.
Proof.
  intros Ht Hp Hid e w'.
  assert (E : exists r,
             _resolvePendingCommand (Js.Int (Z.of_N mid)) success data w
             = (r, add_event e
                     (with_state (with_pendingCommands (map_delete N.eqb id)) w))).
  { unfold _resolvePendingCommand. unfold bind at 1. unfold get.
    rewrite Ht, (@first_pending_last _ _ _ _ Hp).
    unfold bind, update, modify, emit. cbn [fst snd]. fold e.
    destruct (listener_throws e); eexists; reflexivity. }
  destruct E as [r E]. unfold w'. rewrite E. cbn [snd].
  split; [|reflexivity].
  unfold table_is. simpl. rewrite Ht. apply map_delete_last. exact Hid.
Qed.

Lemma process_frame_accepted reply w :
  process_frame (Js.Int 5) reply w
  = try_catch (_handleMID (Js.Int 5)
                 (PCommandAccepted (Js.Number (Js.slice 0 4 reply))))
              (fun err => emit (Ev.parseError (Js.Int 5) err)) w.
Proof. reflexivity. Qed.

Lemma process_frame_refused reply w :
  process_frame (Js.Int 4) reply w
  = try_catch (_handleMID (Js.Int 4)
                 (PCommandError (Js.Number (Js.slice 0 4 reply))
                                (Js.Number (Js.slice 4 8 reply))
                                (Js.trim (Js.slice_from 8 reply))))
              (fun err => emit (Ev.parseError (Js.Int 4) err)) w.
Proof. reflexivity. Qed.

(** X8. The reply of the controller settles the command it names.  From
    a reachable world, after a command with a MID of at most four digits
    that was not pending has gone out, a MID 0005 whose payload starts
    with this MID takes the command out of the pending table, which is
    again what it was before the command, and emits [commandSuccess] with
    the MID and the identifier the command returned; a MID 0004 naming
    the MID does the same with [commandFailed], which carries the parsed
    error.  This holds whether or not a listener throws. *)
Theorem command_resolved_by_reply :
  forall (c : Config) (w : World) (mid : N) (payload rest : string) (sk : Socket),
    reachable c w ->
    socket w = Some sk ->
    has_pending mid (state w) = false ->
    (mid < 10000)%N ->
    let id := N.succ (commandSeq w) in
    let w1 := snd (sendMID mid payload true w) in
    let reply := Js.padStart 4 "0" (Js.toString mid) ++ rest in
    fst (sendMID mid payload true w) = Ok (Some id)
    /\ (let w2 := snd (process_frame (Js.Int 5) reply w1) in
        pendingCommands (state w2) = pendingCommands (state w)
        /\ exists tail,
             emitted_since w1 w2
             = Ev.commandSuccess (Js.Int (Z.of_N mid)) id None :: tail)
    /\ (let w2 := snd (process_frame (Js.Int 4) reply w1) in
        pendingCommands (state w2) = pendingCommands (state w)
        /\ exists tail,
             emitted_since w1 w2
             = Ev.commandFailed (Js.Int (Z.of_N mid)) id
                 (Some (_parseMID (state w1) (Js.Int 4) reply)) :: tail).
Proof.
  intros c w mid payload rest sk Hr Hs Hp Hmid id w1 reply.
  pose proof (reachable_ids Hr) as Hi.
  pose proof (fresh_id_not_in_table Hi) as Hfresh. unfold command_ids in Hfresh.
  destruct (sendMID_registers payload Hi Hs (or_intror Hp)) as [w1' [E [Ht _]]].
  assert (E1 : w1 = w1') by (unfold w1; rewrite E; reflexivity).
  split; [rewrite E; reflexivity|].
  clearbody w1. subst w1'. fold id in Ht, Hfresh.
  unfold has_pending in Hp.
  split.
  - intros w2.
    set (cs := Ev.commandSuccess (Js.Int (Z.of_N mid)) id None).
    set (Q := fun w' : World =>
                table_is (pendingCommands (state w)) w'
                /\ log_extends (events w1 ++ [cs]) w').
    assert (HQ : Q w2).
    { unfold w2. rewrite process_frame_accepted.
      unfold reply. rewrite (number4_field rest Hmid), handleMID_accepted.
      apply after_try; [|intro; apply stable_and; [tbl_auto | log_auto]].
      apply after_update.
      apply after_prefix; [|intro; apply stable_and; [tbl_auto | log_auto]].
      apply after_prefix; [|intro; apply stable_and; [tbl_auto | log_auto]].
      destruct (@resolve_last
                  (with_state (with_connection (Set_.lastMID (Some (Js.Int 5)))) w1)
                  (pendingCommands (state w)) id mid (now w) true None Ht Hp Hfresh)
        as [Q1 Q2].
      split; [exact Q1|]. exists []. rewrite app_nil_r. exact Q2. }
    destruct HQ as [Q1 Q2]. split; [exact Q1 | apply log_extends_since, Q2].
  - intros w2.
    set (d := _parseMID (state w1) (Js.Int 4) reply).
    assert (Ed : d = PCommandError (Js.Int (Z.of_N mid))
                       (Js.Number (Js.slice 4 8 reply))
                       (Js.trim (Js.slice_from 8 reply))).
    { unfold d.
      change (_parseMID (state w1) (Js.Int 4) reply)
        with (PCommandError (Js.Number (Js.slice 0 4 reply))
                            (Js.Number (Js.slice 4 8 reply))
                            (Js.trim (Js.slice_from 8 reply))).
      unfold reply at 1. rewrite (number4_field rest Hmid). reflexivity. }
    set (cf := Ev.commandFailed (Js.Int (Z.of_N mid)) id (Some d)).
    set (Q := fun w' : World =>
                table_is (pendingCommands (state w)) w'
                /\ log_extends (events w1 ++ [cf]) w').
    assert (HQ : Q w2).
    { unfold w2. rewrite process_frame_refused.
      unfold reply at 1. rewrite (number4_field rest Hmid), handleMID_refused.
      apply after_try; [|intro; apply stable_and; [tbl_auto | log_auto]].
      apply after_update.
      apply after_prefix; [|intro; apply stable_and; [tbl_auto | log_auto]].
      apply after_prefix; [|intro; apply stable_and; [tbl_auto | log_auto]].
      destruct (@resolve_last
                  (with_state (with_connection (Set_.lastMID (Some (Js.Int 4)))) w1)
                  (pendingCommands (state w)) id mid (now w) false
                  (Some (PCommandError (Js.Int (Z.of_N mid))
                           (Js.Number (Js.slice 4 8 reply))
                           (Js.trim (Js.slice_from 8 reply))))
                  Ht Hp Hfresh)
        as [Q1 Q2].
      split; [exact Q1|]. exists []. rewrite app_nil_r. unfold cf. rewrite Ed.
      exact Q2. }
    destruct HQ as [Q1 Q2]. split; [exact Q1 | apply log_extends_since, Q2].
Qed.


Lemma connect_keeps_table opens w :
  pendingCommands (state (snd (connect opens w))) = pendingCommands (state w)
  /\ allowDuplicateCommands (snd (connect opens w)) = allowDuplicateCommands w.
Proof.
  unfold connect, connect_callback, _startHeartbeat, _stopHeartbeat, sendMID,
    _touchTraffic, socket_write, emit, update, modify, when, bind, ret, get, throw.
  simpl.
  repeat mcase.
  all: split; reflexivity.
Qed.

(** X9. A command issued while there is no socket fails and still
    blocks its MID.  With [this.socket] null, a command that expects an
    acknowledgement and passes the duplicate check throws the TypeError
    of the null socket after it has taken the next identifier and put
    itself into the pending table: nothing is written, but the MID is
    pending.  With duplicate commands not allowed, the same command then
    fails with a command error, also after [connect()] has opened a
    socket. *)
Theorem command_without_socket_stays_pending :
  forall (w : World) (mid : N) (payload : string),
    socket w = None ->
    may_send mid w ->
    let w1 := snd (sendMID mid payload true w) in
    fst (sendMID mid payload true w) = Throw null_socket_error
    /\ wire w1 = []
    /\ commandSeq w1 = N.succ (commandSeq w)
    /\ In (N.succ (commandSeq w)) (command_ids (state w1))
    /\ has_pending mid (state w1) = true
    /\ (allowDuplicateCommands w = false ->
        forall payload' opens,
          fst (sendMID mid payload' true w1) = Throw (CommandError mid)
          /\ fst (sendMID mid payload' true (snd (connect opens w1)))
             = Throw (CommandError mid)).
Proof.
  intros w mid payload Hs Hm w1.
  assert (Hgate : (if allowDuplicateCommands w then false
                   else has_pending mid (state w)) = false).
  { destruct Hm as [Hm|Hm]; rewrite Hm; [reflexivity|].
    destruct (allowDuplicateCommands w); reflexivity. }
  assert (E : sendMID mid payload true w
              = (Throw null_socket_error,
                 set_lastCommandId (Some (N.succ (commandSeq w)))
                   (with_state
                      (with_pendingCommands
                         (map_set N.eqb (N.succ (commandSeq w)) (mkPending mid (now w))))
                      (set_commandSeq (N.succ (commandSeq w))
                         (set_lastTrafficTs (now w) w))))).
  { unfold sendMID, _touchTraffic, socket_write, update, modify, when, bind, ret,
      get, throw.
    simpl.
    destruct (allowDuplicateCommands w); simpl; [|rewrite Hgate; simpl];
      rewrite Hs; reflexivity. }
  assert (Hin : forall (m : list (N * PendingCommand)) k v,
             In (k, v) (map_set N.eqb k v m)).
  { intros m k v. induction m as [|[k' v'] m IH]; simpl; [left; reflexivity|].
    destruct (N.eqb k' k); simpl; [left; reflexivity | right; exact IH]. }
  assert (Hp1 : has_pending mid (state w1) = true).
  { unfold w1. rewrite E. unfold has_pending. simpl.
    apply existsb_exists. eexists. split; [apply Hin|]. simpl. apply N.eqb_refl. }
  split; [rewrite E; reflexivity|].
  split; [unfold w1; rewrite E; unfold wire; simpl; rewrite Hs; reflexivity|].
  split; [unfold w1; rewrite E; reflexivity|].
  split.
  { unfold w1. rewrite E. unfold command_ids. simpl.
    apply in_map_iff. eexists. split; [|apply Hin]. reflexivity. }
  split; [exact Hp1|].
  intros Ha payload' opens.
  assert (Ha1 : allowDuplicateCommands w1 = false).
  { unfold w1. rewrite E. exact Ha. }
  split.
  - rewrite (@sendMID_pending_fails mid payload' w1 Ha1 Hp1). reflexivity.
  - destruct (connect_keeps_table opens w1) as [Kt Ka].
    rewrite sendMID_pending_fails; [reflexivity | congruence |].
    unfold has_pending in *. rewrite Kt. exact Hp1.
Qed.

(* ================================================================== *)
(** * The link *)
(* ================================================================== *)

Lemma add_events_closed l :
  forall w,
    add_events l w
    = mkWorld (autoReconnect w) (validateFrames w) (configuredSpindleCount w)
        (allowDuplicateCommands w) (socket w) (buffer w) (state w) (lastTrafficTs w)
        (heartbeatTimer w) (reconnectTimer w) (reconnectDelay w) (commandSeq w)
        (_lastCommandId w) (now w) (events w ++ l)%list.
Proof.
  induction l as [|e l IH]; intros w; simpl.
  - destruct w; simpl. rewrite app_nil_r. reflexivity.
  - rewrite IH. simpl. rewrite <- app_assoc. reflexivity.
Qed.

Lemma for_each_emit_quiet {A} (f : A -> Ev.t) (l : list A) :
  (forall a, listener_throws (f a) = false) ->
  forall w, for_each (fun a => emit (f a)) l w = (Ok tt, add_events (map f l) w).
Proof.
  intros Hq. induction l as [|a l IH]; intros w; simpl; [reflexivity|].
  unfold bind, emit at 1. rewrite Hq. apply IH.
Qed.

(** X10. What a close of the socket leaves behind.  Provided the
    listeners of [commandAborted], [disconnected] and [reconnecting] do
    not throw, [_onClose] returns with the client disconnected, the link
    layer not ready, the buffer empty, the heartbeat and the watchdog
    timers gone and the pending table empty; it emits one
    [commandAborted] per command that was pending, in table order, then
    [disconnected], and, when automatic reconnection is on and the client
    was connected, [reconnecting] with the attempt count raised by one
    and the current delay, the reconnect timer being armed.  A tightening
    cycle that was open stays open, its collected results kept: with the
    watchdog gone, the close itself does not end it. *)
Theorem onClose_resets_link :
  forall (w : World),
    (forall mid cmdId, listener_throws (Ev.commandAborted mid cmdId) = false) ->
    listener_throws Ev.disconnected = false ->
    (forall attempt delay, listener_throws (Ev.reconnecting attempt delay) = false) ->
    let w' := snd (_onClose w) in
    fst (_onClose w) = Ok tt
    /\ Connection.connected (connection (state w')) = false
    /\ Connection.linkLayerReady (connection (state w')) = false
    /\ buffer w' = ""
    /\ heartbeatTimer w' = None
    /\ Tightening.watchdog (tightening (state w')) = None
    /\ pendingCommands (state w') = []
    /\ Tightening.inProgress (tightening (state w'))
       = Tightening.inProgress (tightening (state w))
    /\ Tightening.pendingSpindles (tightening (state w'))
       = Tightening.pendingSpindles (tightening (state w))
    /\ emitted_since w w'
       = (aborted (pendingCommands (state w)) ++ [Ev.disconnected]
          ++ (if reconnects_on_close w
              then [Ev.reconnecting
                      (Connection.reconnectAttempts (connection (state w)) + 1)
                      (reconnectDelay w)]
              else []))%list
    /\ reconnectTimer w'
       = (if reconnects_on_close w then Some Armed else reconnectTimer w)
    /\ Connection.reconnecting (connection (state w'))
       = (if reconnects_on_close w then true
          else Connection.reconnecting (connection (state w))).
Proof.
  intros w Hqa Hqd Hqr w'. unfold w'. clear w'.
  unfold reconnects_on_close, aborted.
  unfold _onClose, _stopHeartbeat, _clearWatchdog, _clearPendingCommands,
    _scheduleReconnect, _stopReconnect, bind, get, modify, update, when, ret.
  simpl.
  destruct (heartbeatTimer w) eqn:Hh; simpl;
    destruct (Tightening.watchdog (tightening (state w))) eqn:Hwd; simpl.
  all: rewrite (for_each_emit_quiet
                  (fun e : N * PendingCommand =>
                     Ev.commandAborted (pc_mid (snd e)) (fst e))
                  (pendingCommands (state w)) (fun e => Hqa _ _)).
  all: rewrite add_events_closed; simpl.
  all: rewrite Hqd; simpl.
  all: destruct (autoReconnect w); simpl;
       [destruct (Connection.connected (connection (state w))); simpl|].
  all: try (destruct (reconnectTimer w) eqn:Hrt; simpl; rewrite Hqr; simpl).
  all: repeat split.
  all: first [ reflexivity
             | assumption
             | unfold emitted_since; simpl; repeat rewrite <- app_assoc;
               rewrite skipn_length_app; reflexivity ].
Qed.

Ltac delay_side :=
  intros;
  unfold delay_in_bounds, RECONNECT_INITIAL_DELAY_MS, RECONNECT_MAX_DELAY_MS,
    RECONNECT_BACKOFF_FACTOR in *;
  simpl in *; split_socket;
  first [ assumption | lia | auto ].

Create HintDb delay.

Ltac delay_auto :=
  repeat first [ solve [auto with delay nocore]
               | stable_struct delay_side ltac:(idtac; unfold_head) ].

Lemma delay_sendMID mid payload expectAck :
  stable delay_in_bounds (sendMID mid payload expectAck).
Proof. delay_auto. Qed.
#[local] Hint Resolve delay_sendMID : delay.

Lemma delay_handleMID mid d : stable delay_in_bounds (_handleMID mid d).
Proof. delay_auto. Qed.
#[local] Hint Resolve delay_handleMID : delay.

Lemma delay_onData_loop fuel : stable delay_in_bounds (_onData_loop fuel).
Proof. induction fuel as [|fuel IH]; simpl; delay_auto. Qed.
#[local] Hint Resolve delay_onData_loop : delay.



Lemma count_events_snoc p (l : list Ev.t) e :
  count_events p (l ++ [e])%list
  = (count_events p l + (if p e then 1 else 0))%nat.
Proof. rewrite count_events_app. unfold count_events. simpl. destruct (p e); reflexivity. Qed.

Ltac off_side :=
  intros; unfold reconnect_off in *; simpl in *; split_socket;
  first [ assumption
        | match goal with
          | H : _ /\ _ /\ _ |- _ =>
              let Ha := fresh "Ha" in
              let Ht := fresh "Ht" in
              let Hn := fresh "Hn" in
              destruct H as [Ha [Ht Hn]];
              split; [first [exact Ha | reflexivity]|];
              split; [first [exact Ht | discriminate]|];
              first [ exact Hn
                    | rewrite count_events_snoc, Hn; simpl;
                      repeat match goal with
                             | |- context [if ?b then _ else _] => destruct b
                             end;
                      simpl; lia ]
          end
        | auto ].

Create HintDb off.

Ltac off_auto :=
  repeat first [ solve [auto with off nocore]
               | stable_struct off_side ltac:(idtac; unfold_head) ].

Lemma off_sendMID n mid payload expectAck :
  stable (reconnect_off n) (sendMID mid payload expectAck).
Proof. off_auto. Qed.
#[local] Hint Resolve off_sendMID : off.

Lemma off_handleTighteningResult n d :
  stable (reconnect_off n) (_handleTighteningResult d).
Proof. off_auto. Qed.
#[local] Hint Resolve off_handleTighteningResult : off.

Lemma off_handleMID n mid d : stable (reconnect_off n) (_handleMID mid d).
Proof. off_auto. Qed.
#[local] Hint Resolve off_handleMID : off.

Lemma off_onData_loop n fuel : stable (reconnect_off n) (_onData_loop fuel).
Proof. induction fuel as [|fuel IH]; simpl; off_auto. Qed.
#[local] Hint Resolve off_onData_loop : off.

(** With reconnecting off, the end of [_onClose] schedules nothing. *)
Lemma off_close_tail n (wasConnected : bool) :
  stable (reconnect_off n)
    (w <- get ;; when (autoReconnect w && wasConnected) _scheduleReconnect).
Proof.
  apply stable_bind_get. intros w H.
  destruct H as [Ha H]. rewrite Ha. simpl. split; assumption.
Qed.
#[local] Hint Resolve off_close_tail : off.

Lemma off_reconnect_action n opens :
  stable (reconnect_off n) (run_action (act_reconnect opens)).
Proof.
  unfold run_action. apply stable_bind_get. intros w H.
  destruct (reconnectTimer w) as [[|]|] eqn:E; simpl; try exact H.
  destruct H as [_ [H _]]. congruence.
Qed.
#[local] Hint Resolve off_reconnect_action : off.

Lemma off_run_action n a : stable (reconnect_off n) (run_action a).
Proof. destruct a; off_auto. Qed.

Lemma disconnect_turns_off w :
  autoReconnect (snd (disconnect w)) = false
  /\ reconnectTimer (snd (disconnect w)) = None
  /\ events (snd (disconnect w)) = events w.
Proof.
  unfold disconnect, _stopReconnect, sendMID, _touchTraffic, socket_write, update,
    modify, when, bind, ret, get, throw.
  simpl.
  repeat mcase.
  all: repeat split; first [reflexivity | assumption].
Qed.

(** X12. After [disconnect()] the client does not reconnect.
    [disconnect()] turns automatic reconnection off, cancels the
    reconnect timer, emits nothing and, when there is a socket, writes
    one frame, MID 0002, and destroys the socket.  Whatever happens
    afterwards (calls, data, closes, timers, in any order and number)
    automatic reconnection stays off, no reconnect timer is armed and no
    [reconnecting] event is emitted. *)
Theorem disconnect_is_final :
  forall (w : World) (l : list Action),
    let w0 := snd (disconnect w) in
    let w' := run w0 l in
    (forall sk, socket w = Some sk ->
       socket w0 = Some (mkSocket (written sk ++ ["0020000200110101    "])%list true))
    /\ (socket w = None -> socket w0 = None)
    /\ events w0 = events w
    /\ autoReconnect w' = false
    /\ reconnectTimer w' <> Some Armed
    /\ count_events is_reconnecting (emitted_since w0 w') = 0%nat.
Proof.
  intros w l w0 w'.
  destruct (disconnect_turns_off w) as [Ha [Ht He]]. fold w0 in Ha, Ht, He.
  split; [|split; [|split; [exact He|]]].
  - intros sk Hs. unfold w0.
    unfold disconnect, _stopReconnect, sendMID, _touchTraffic, socket_write, update,
      modify, when, bind, ret, get, throw.
    simpl. destruct (reconnectTimer w); simpl; repeat (rewrite Hs; simpl); reflexivity.
  - intros Hs. unfold w0.
    unfold disconnect, _stopReconnect, bind, modify, get, ret.
    simpl. destruct (reconnectTimer w); simpl; rewrite Hs; simpl; exact Hs.
  - assert (H0 : reconnect_off (count_events is_reconnecting (events w0)) w0).
    { split; [exact Ha|]. split; [rewrite Ht; discriminate | reflexivity]. }
    assert (H1 : reconnect_off (count_events is_reconnecting (events w0)) w').
    { unfold w'. apply stable_run; [intro; apply off_run_action | exact H0]. }
    assert (H2 : log_extends (events w0) w').
    { unfold w'. apply stable_run; [intro; apply log_run_action|].
      exists []. symmetry. apply app_nil_r. }
    destruct H1 as [Ha' [Ht' Hn']]. destruct H2 as [tail E].
    split; [exact Ha'|]. split; [exact Ht'|].
    unfold emitted_since. rewrite E, skipn_length_app.
    rewrite E, count_events_app in Hn'. lia.
Qed.

Lemma keep_alive_frame : frame_text 9999 "" false = keep_alive.
Proof. reflexivity. Qed.

Ltac fresh_side :=
  intros; simpl in *; split_socket; first [ assumption | reflexivity | auto ].

Create HintDb traffic.

Ltac traffic_auto :=
  repeat first [ solve [auto with traffic nocore]
               | stable_struct fresh_side ltac:(idtac; unfold_head) ].

(** Whatever [_onData] goes on to do, the traffic time stamp it took
    stays the current time. *)
Lemma traffic_sendMID mid payload expectAck :
  stable (fun w => lastTrafficTs w = now w) (sendMID mid payload expectAck).
Proof. traffic_auto. Qed.
#[local] Hint Resolve traffic_sendMID : traffic.

Lemma traffic_handleMID mid d :
  stable (fun w => lastTrafficTs w = now w) (_handleMID mid d).
Proof. traffic_auto. Qed.
#[local] Hint Resolve traffic_handleMID : traffic.

Lemma traffic_onData_loop fuel :
  stable (fun w => lastTrafficTs w = now w) (_onData_loop fuel).
Proof. induction fuel as [|fuel IH]; simpl; traffic_auto. Qed.

(** X13. The heartbeat keeps a silent link alive and only that.  When
    the heartbeat interval ticks on a connected client with an open
    socket, the keep-alive frame, MID 9999, is written if and only if no
    frame was sent and no data received for 7000 ms or more; it is the
    one frame written, nothing is emitted, and the traffic time stamp
    becomes the current time.  On a client that is not connected, or
    with less than 7000 ms of silence, the tick changes nothing.  In
    particular, after data has come in, a tick less than 7000 ms later
    writes nothing. *)
Theorem heartbeat_keeps_alive :
  forall (w : World) (sk : Socket),
    heartbeatTimer w = Some Armed ->
    socket w = Some sk ->
    let w' := step act_heartbeat w in
    (Connection.connected (connection (state w)) = true ->
     HEARTBEAT_INTERVAL_MS <= now w - lastTrafficTs w ->
     wire w' = (wire w ++ [keep_alive])%list
     /\ lastTrafficTs w' = now w
     /\ events w' = events w
     /\ state w' = state w)
    /\ (Connection.connected (connection (state w)) = false
        \/ now w - lastTrafficTs w < HEARTBEAT_INTERVAL_MS ->
        w' = w)
    /\ (forall data ms,
          0 <= ms < HEARTBEAT_INTERVAL_MS ->
          let w1 := step (act_elapse ms) (step (act_data data) w) in
          step act_heartbeat w1 = w1).
Proof.
  intros w sk Hh Hs w'. split; [|split].
  - intros Hc Hi. apply Z.leb_le in Hi.
    assert (E : w' = set_socket
                       (Some (mkSocket (written sk ++ [keep_alive])%list (destroyed sk)))
                       (set_lastTrafficTs (now w) w)).
    { unfold w', step, run_action, heartbeat_callback, sendMID, _touchTraffic,
        socket_write, update, modify, when, bind, ret, get, throw.
      simpl. rewrite Hh. simpl. rewrite Hc. simpl. rewrite Hi. simpl.
      rewrite Hs. reflexivity. }
    rewrite E. unfold wire. simpl. rewrite Hs. repeat split.
  - intros Hn. unfold w', step, run_action, heartbeat_callback, when, bind, get, ret.
    simpl. rewrite Hh.
    destruct (Connection.connected (connection (state w))) eqn:Hc; simpl;
      [|reflexivity].
    destruct Hn as [Hn|Hn]; [discriminate|].
    apply Z.leb_gt in Hn. rewrite Hn. reflexivity.
  - intros data ms Hms w1.
    assert (Ed : step (act_data data) w = snd (_onData data w)).
    { unfold step, run_action, bind, get. rewrite Hs. reflexivity. }
    assert (Ht : lastTrafficTs (snd (_onData data w)) = now (snd (_onData data w))).
    { unfold _onData, _touchTraffic, bind, modify, get.
      apply traffic_onData_loop. reflexivity. }
    rewrite <- Ed in Ht.
    unfold w1. clear w1. generalize dependent (step (act_data data) w). intros w0 _ Ht.
    change (step (act_elapse ms) w0) with (set_now (now w0 + Z.max 0 ms) w0).
    unfold step, run_action, heartbeat_callback, when, bind, get, ret, set_now.
    simpl.
    destruct (heartbeatTimer w0) as [[|]|]; simpl; try reflexivity.
    destruct (Connection.connected (connection (state w0))); simpl; [|reflexivity].
    rewrite Ht.
    assert (E : (HEARTBEAT_INTERVAL_MS <=? now w0 + Z.max 0 ms - now w0) = false).
    { apply Z.leb_gt. lia. }
    rewrite E. reflexivity.
Qed.

(* ================================================================== *)
(** * Operator commands and their replies *)
(* ================================================================== *)

Lemma length_repeat_char c n : String.length (Js.repeat_char c n) = n.
Proof. induction n as [|n IH]; simpl; congruence. Qed.

Lemma repeat_char_snoc c n (s : string) :
  Js.repeat_char c n ++ String c s = String c (Js.repeat_char c n ++ s).
Proof. induction n as [|n IH]; simpl; congruence. Qed.

Lemma rev_string_app (s t acc : string) :
  Js.rev_string acc (s ++ t) = Js.rev_string (Js.rev_string acc s) t.
Proof. revert acc. induction s as [|c s IH]; intros acc; simpl; auto. Qed.

Lemma rev_string_repeat c n (acc : string) :
  Js.rev_string acc (Js.repeat_char c n) = Js.repeat_char c n ++ acc.
Proof.
  revert acc. induction n as [|n IH]; intros acc; simpl; [reflexivity|].
  rewrite IH. apply repeat_char_snoc.
Qed.

Lemma trim_start_spaces n (s : string) :
  Js.trim_start (Js.repeat_char " " n ++ s) = Js.trim_start s.
Proof. induction n as [|n IH]; simpl; auto. Qed.

Lemma trim_end_spaces n (s : string) :
  Js.trim_end (s ++ Js.repeat_char " " n) = Js.trim_end s.
Proof.
  unfold Js.trim_end.
  rewrite rev_string_app, rev_string_repeat, trim_start_spaces. reflexivity.
Qed.

Lemma trim_start_padded n (s : string) :
  Js.trim_start (s ++ Js.repeat_char " " n) = Js.trim_start s ++ Js.repeat_char " " n
  \/ (Js.trim_start s = "" /\ Js.trim_start (s ++ Js.repeat_char " " n) = "").
Proof.
  induction s as [|c s IH]; simpl.
  - right. split; [reflexivity|].
    rewrite <- (app_string_empty (Js.repeat_char " " n)). rewrite trim_start_spaces.
    reflexivity.
  - destruct (Js.is_space c); [exact IH | left; reflexivity].
Qed.

Lemma trim_padEnd n (s : string) : Js.trim (Js.padEnd n " " s) = Js.trim s.
Proof.
  unfold Js.trim, Js.padEnd.
  destruct (trim_start_padded (n - String.length s) s) as [E|[E1 E2]].
  - rewrite E. apply trim_end_spaces.
  - rewrite E1, E2. reflexivity.
Qed.

Lemma length_padEnd n (s : string) :
  (String.length s <= n)%nat -> String.length (Js.padEnd n " " s) = n.
Proof.
  intros H. unfold Js.padEnd. rewrite length_app_string, length_repeat_char. lia.
Qed.

(** X14. [downloadVIN] sends the VIN on 25 characters, or nothing.  A
    VIN of more than 25 characters is refused with an error before
    anything is touched: the client is as it was.  A VIN of 25 characters
    or fewer goes out as MID 0050 with an acknowledgement expected, in a
    frame of 45 characters whose payload is the VIN followed by spaces up
    to exactly 25 characters; read back by the MID 0051 parser, this
    payload is the VIN without its surrounding white space. *)
Theorem downloadVIN_pads_or_refuses :
  forall (vin : string) (w : World),
    ((25 < String.length vin)%nat ->
     downloadVIN vin w = (Throw (Error "VIN exceeds 25 characters"), w))
    /\ ((String.length vin <= 25)%nat ->
        let payload := Js.padEnd 25 " " vin in
        downloadVIN vin w = sendMID 50 payload true w
        /\ String.length payload = 25%nat
        /\ Js.slice 0 (String.length vin) payload = vin
        /\ Js.all_chars (Ascii.eqb " ") (Js.slice_from (String.length vin) payload)
           = true
        /\ frame_text 50 payload true = "0045005000100101    " ++ payload
        /\ forall s, _parseMID s (Js.Int 51) payload = PVin (Js.trim vin)).
Proof.
  intros vin w. split.
  - intros H. unfold downloadVIN, when, bind, throw.
    apply Nat.ltb_lt in H. rewrite H. reflexivity.
  - intros H payload.
    assert (Hl : String.length payload = 25%nat) by (apply length_padEnd; exact H).
    split.
    { unfold downloadVIN, when, bind, ret.
      assert (E : (25 <? String.length vin)%nat = false) by (apply Nat.ltb_ge; exact H).
      rewrite E. reflexivity. }
    split; [exact Hl|]. split.
    { unfold payload, Js.padEnd, Js.slice. simpl Js.drop.
      rewrite Nat.sub_0_r. apply take_app_exact. }
    split.
    { unfold payload, Js.padEnd, Js.slice_from. rewrite drop_app_exact.
      generalize (25 - String.length vin)%nat. intros n.
      induction n as [|n IH]; simpl; auto. }
    split.
    { unfold frame_text. rewrite !length_app_string, Hl. reflexivity. }
    intros s. change (_parseMID s (Js.Int 51) payload) with (PVin (Js.trim payload)).
    unfold payload. rewrite trim_padEnd. reflexivity.
Qed.

Lemma number3_field (n : N) (rest : string) :
  (n < 1000)%N ->
  Js.Number (Js.slice 0 3 (Js.padStart 3 "0" (Js.toString n) ++ rest))
  = Js.Int (Z.of_N n).
Proof.
  intros Hn. destruct (number_pad_spec 3 number3_table Hn) as [Hl Hv].
  unfold Js.slice. simpl Js.drop. change (3 - 0)%nat with 3%nat.
  rewrite (take_app_n _ _ Hl). exact Hv.
Qed.

Lemma job_reply_projection p w :
  let w' := snd (process_frame (Js.Int 35) p w) in
  job (state w')
  = Job.mk (Some (Js.Number (Js.slice 0 4 p))) (Job.paramSetId (job (state w)))
           true true
  /\ Product.vinLocked (product (state w')) = false
  /\ exists tail,
       emitted_since w w' = Ev.jobSelected (Js.Number (Js.slice 0 4 p)) :: tail.
Proof.
  run_frame.
  all: split; [reflexivity|]; split; [reflexivity|].
  all: unfold emitted_since; simpl; repeat rewrite <- app_assoc;
       rewrite skipn_length_app; simpl; eexists; reflexivity.
Qed.

Lemma paramset_reply_projection p w :
  job (state (snd (process_frame (Js.Int 11) p w)))
  = Set_.paramSetId (Some (Js.Number (Js.slice 0 3 p))) (job (state w)).
Proof. run_frame; reflexivity. Qed.

(** X15. The job a command selects is the job its reply sets.  For a job
    number below 10000, [selectJob] sends MID 0034 with the number on
    four digits; a MID 0035 reply that starts with these four digits is
    parsed to the same number and makes it the current job, active and
    locked, with the VIN lock released, and [jobSelected] is emitted with
    it, whatever the listeners do. *)
Theorem selectJob_round_trip :
  forall (jobId : N) (w : World),
    (jobId < 10000)%N ->
    let payload := Js.padStart 4 "0" (Js.toString jobId) in
    selectJob jobId w = sendMID 34 payload true w
    /\ String.length payload = 4%nat
    /\ forall (rest : string) (w1 : World),
         let w' := snd (process_frame (Js.Int 35) (payload ++ rest) w1) in
         _parseMID (state w1) (Js.Int 35) (payload ++ rest)
         = PJob (Js.Int (Z.of_N jobId))
         /\ Job.jobId (job (state w')) = Some (Js.Int (Z.of_N jobId))
         /\ Job.active (job (state w')) = true
         /\ Job.locked (job (state w')) = true
         /\ Product.vinLocked (product (state w')) = false
         /\ exists tail,
              emitted_since w1 w' = Ev.jobSelected (Js.Int (Z.of_N jobId)) :: tail.
Proof.
  intros jobId w Hj payload.
  split; [reflexivity|].
  split; [apply (number_pad_spec 4 number4_table Hj)|].
  intros rest w1 w'.
  pose proof (number4_field rest Hj) as Hn. fold payload in Hn.
  destruct (job_reply_projection (payload ++ rest) w1) as [Hjob [Hv He]].
  fold w' in Hjob, Hv, He. rewrite Hn in Hjob, He.
  split.
  { change (_parseMID (state w1) (Js.Int 35) (payload ++ rest))
      with (PJob (Js.Number (Js.slice 0 4 (payload ++ rest)))).
    rewrite Hn. reflexivity. }
  rewrite Hjob. simpl. repeat split; assumption.
Qed.

(** X16. The parameter set a command selects is the one its reply sets.
    For a parameter set number below 1000, [selectParameterSet] sends
    MID 0018 with the number on three digits; a MID 0011 reply that
    starts with these three digits is parsed to the same number and
    stores it as the parameter set of the job, the rest of the job left
    as it was. *)
Theorem selectParameterSet_round_trip :
  forall (paramSetId : N) (w : World),
    (paramSetId < 1000)%N ->
    let payload := Js.padStart 3 "0" (Js.toString paramSetId) in
    selectParameterSet paramSetId w = sendMID 18 payload true w
    /\ String.length payload = 3%nat
    /\ forall (rest : string) (w1 : World),
         let w' := snd (process_frame (Js.Int 11) (payload ++ rest) w1) in
         _parseMID (state w1) (Js.Int 11) (payload ++ rest)
         = PParamSet (Js.Int (Z.of_N paramSetId))
         /\ job (state w')
            = Set_.paramSetId (Some (Js.Int (Z.of_N paramSetId))) (job (state w1)).
Proof.
  intros paramSetId w Hp payload.
  split; [reflexivity|].
  split; [apply (number_pad_spec 3 number3_table Hp)|].
  intros rest w1 w'.
  pose proof (number3_field rest Hp) as Hn. fold payload in Hn.
  split.
  { change (_parseMID (state w1) (Js.Int 11) (payload ++ rest))
      with (PParamSet (Js.Number (Js.slice 0 3 (payload ++ rest)))).
    rewrite Hn. reflexivity. }
  unfold w'. rewrite paramset_reply_projection, Hn. reflexivity.
Qed.

(* ================================================================== *)
(** * Spindle count *)
(* ================================================================== *)

Lemma stable_guarded_get (I : World -> Prop) (g : World -> bool)
    (body : World -> M unit) {B} (rest : World -> M B) :
  (forall w, I w -> g w = false) ->
  (forall w, stable I (rest w)) ->
  stable I (bind get (fun w => bind (when (g w) (body w)) (fun _ => rest w))).
Proof.
  intros Hg Hr w Hw. unfold bind at 1. unfold get.
  unfold bind. rewrite (Hg w Hw). simpl. apply Hr, Hw.
Qed.

Ltac fixed_guard :=
  intros; cbv beta;
  match goal with
  | Hf : count_fixed _ _ _ |- _ =>
      destruct Hf as [_ [Hsrc [Hs|Hs]]]; rewrite Hsrc, Hs; reflexivity
  end.

Ltac fixed_side :=
  intros; unfold count_fixed in *; simpl in *; split_socket;
  first [ assumption | auto ].

Create HintDb fixed.

Ltac fixed_auto :=
  repeat first [ solve [auto with fixed nocore]
               | apply stable_guarded_get; [solve [fixed_guard] | intro]
               | stable_struct fixed_side ltac:(idtac; unfold_head) ].

Lemma fixed_sendMID n s mid payload expectAck :
  stable (count_fixed n s) (sendMID mid payload expectAck).
Proof. fixed_auto. Qed.
#[local] Hint Resolve fixed_sendMID : fixed.

Lemma fixed_handleTighteningResult n s d :
  stable (count_fixed n s) (_handleTighteningResult d).
Proof. fixed_auto. Qed.
#[local] Hint Resolve fixed_handleTighteningResult : fixed.

Lemma fixed_handleMID n s mid d : stable (count_fixed n s) (_handleMID mid d).
Proof. fixed_auto. Qed.
#[local] Hint Resolve fixed_handleMID : fixed.

Lemma fixed_onData_loop n s fuel : stable (count_fixed n s) (_onData_loop fuel).
Proof. induction fuel as [|fuel IH]; simpl; fixed_auto. Qed.
#[local] Hint Resolve fixed_onData_loop : fixed.

Lemma fixed_data n s data : stable (count_fixed n s) (run_action (act_data data)).
Proof. fixed_auto. Qed.

(** X17. A spindle count set by hand stands.  [setSpindleCount] refuses
    a count below 1 or above 99 with an error and changes nothing; any
    other count, [NaN] included since it fails neither comparison, becomes
    the spindle count with source [manual], and [spindleCountUpdated] is
    emitted with it.  And while the source is [manual] or [config], no
    data from the controller changes the count or its source: neither
    the count reported by MID 0101 nor the spindle numbers of results. *)
Theorem spindle_count_precedence :
  forall (w : World),
    (forall z, z < 1 \/ 99 < z ->
       setSpindleCount (Js.Int z) w
       = (Throw (Error "Spindle count must be between 1 and 99"), w))
    /\ (forall count,
          count = Js.NaN \/ (exists z, count = Js.Int z /\ 1 <= z <= 99) ->
          let w' := snd (setSpindleCount count w) in
          count_fixed count src_manual w'
          /\ emitted_since w w' = [Ev.spindleCountUpdated count src_manual])
    /\ (forall n s (received : list string),
          count_fixed n s w ->
          count_fixed n s (run w (map act_data received))).
Proof.
  intros w. split; [|split].
  - intros z Hz. unfold setSpindleCount, when, bind, throw. simpl.
    assert (E : (z <? 1) || (99 <? z) = true).
    { apply orb_true_iff. destruct Hz; [left; apply Z.ltb_lt | right; apply Z.ltb_lt];
        assumption. }
    rewrite E. reflexivity.
  - intros count Hc w'.
    assert (E : Js.lt count (Js.Int 1) || Js.gt count (Js.Int 99) = false).
    { destruct Hc as [->|[z [-> Hz]]]; [reflexivity|]. simpl.
      apply orb_false_iff. split; apply Z.ltb_ge; lia. }
    unfold w', setSpindleCount, emit, update, modify, when, bind, ret.
    rewrite E. simpl.
    destruct (listener_throws (Ev.spindleCountUpdated count src_manual)); simpl.
    all: split; [repeat split; right; reflexivity|].
    all: unfold emitted_since; simpl; rewrite skipn_length_app; reflexivity.
  - intros n s received H. revert w H.
    induction received as [|data received IH]; intros w H; simpl; [exact H|].
    apply IH. unfold step. apply fixed_data. exact H.
Qed.

(* ================================================================== *)
(** * Alarm lists *)
(* ================================================================== *)

Lemma alarm_codes_empty fuel : alarm_codes fuel "" = [].
Proof. destruct fuel; reflexivity. Qed.

Lemma alarm_codes_turn fuel (str : string) :
  str <> "" ->
  alarm_codes (S fuel) str
  = if String.eqb (Js.slice 0 4 str) "0000"
    then alarm_codes fuel (Js.slice_from 4 str)
    else Js.slice 0 4 str :: alarm_codes fuel (Js.slice_from 4 str).
Proof. intros H. destruct str; [congruence | reflexivity]. Qed.

Lemma take_short n (s : string) : (String.length s <= n)%nat -> Js.take n s = s.
Proof.
  revert s. induction n as [|n IH]; intros s H; destruct s as [|c s]; simpl in *;
    try reflexivity; [lia|]. rewrite IH; [reflexivity | lia].
Qed.

Lemma drop_short n (s : string) : (String.length s <= n)%nat -> Js.drop n s = "".
Proof.
  revert s. induction n as [|n IH]; intros s H; destruct s as [|c s]; simpl in *;
    try reflexivity; [lia|]. apply IH. lia.
Qed.

Lemma length_take n (s : string) :
  String.length (Js.take n s) = Nat.min n (String.length s).
Proof.
  revert s. induction n as [|n IH]; intros s; destruct s as [|c s]; simpl;
    try reflexivity. rewrite IH. reflexivity.
Qed.

Lemma eqb_length_differs (a b : string) :
  String.length a <> String.length b -> String.eqb a b = false.
Proof.
  intros H. apply String.eqb_neq. intros E. apply H. rewrite E. reflexivity.
Qed.

Lemma slice_first n (s : string) : Js.slice 0 n s = Js.take n s.
Proof. unfold Js.slice. rewrite Nat.sub_0_r. reflexivity. Qed.

Lemma slice_from_drop n (s : string) : Js.slice_from n s = Js.drop n s.
Proof. reflexivity. Qed.

Lemma alarm_codes_chunks (t : string) :
  (String.length t < 4)%nat ->
  forall codes fuel,
    Forall (fun c => String.length c = 4%nat) codes ->
    (String.length (concat_codes codes ++ t) <= fuel)%nat ->
    alarm_codes fuel (concat_codes codes ++ t)
    = (filter reported codes ++ match t with "" => [] | _ => [t] end)%list.
Proof.
  intros Ht. induction codes as [|c cs IH]; intros fuel Hc Hf; simpl in *.
  - destruct t as [|a t']; [apply alarm_codes_empty|].
    destruct fuel as [|fuel]; [simpl in Hf; lia|].
    rewrite alarm_codes_turn by discriminate.
    rewrite !slice_first, slice_from_drop.
    rewrite take_short by lia. rewrite drop_short by lia.
    rewrite eqb_length_differs by (simpl in *; lia).
    rewrite alarm_codes_empty. reflexivity.
  - inversion Hc as [|? ? Hc1 Hc2]; subst.
    rewrite app_string_assoc in *. rewrite length_app_string in Hf.
    destruct fuel as [|fuel]; [lia|].
    rewrite alarm_codes_turn.
    2:{ destruct c; [discriminate Hc1 | discriminate]. }
    rewrite !slice_first, slice_from_drop.
    rewrite (take_app_n _ _ Hc1), (drop_app_n _ _ Hc1).
    rewrite IH; [ | exact Hc2 | lia ].
    assert (Er : reported c = negb (String.eqb c "0000")) by reflexivity.
    rewrite Er. destruct (String.eqb c "0000"); reflexivity.
Qed.

Lemma alarm_codes_sound fuel :
  forall str,
    Forall (fun c => c <> "0000" /\ (1 <= String.length c <= 4)%nat)
           (alarm_codes fuel str).
Proof.
  induction fuel as [|fuel IH]; intros str; [constructor|].
  destruct str as [|a str]; [constructor|].
  rewrite alarm_codes_turn by discriminate.
  destruct (String.eqb (Js.slice 0 4 (String a str)) "0000") eqn:E; [apply IH|].
  constructor; [|apply IH].
  split; [apply String.eqb_neq, E|].
  rewrite slice_first, length_take. simpl String.length. lia.
Qed.

(** X18. The alarm list is read four characters at a time.  For a text
    made of four-character codes, possibly followed by a last piece of
    one to three characters, [_parseAlarmList] returns the codes in
    order without the empty slots ["0000"], and the last piece if there
    is one.  Whatever the text, no returned code is ["0000"] and each has
    between one and four characters. *)
Theorem parseAlarmList_chunks :
  forall (codes : list string) (t : string),
    Forall (fun c => String.length c = 4%nat) codes ->
    (String.length t < 4)%nat ->
    _parseAlarmList (concat_codes codes ++ t)
    = (filter reported codes ++ match t with "" => [] | _ => [t] end)%list
    /\ forall str,
         Forall (fun c => c <> "0000" /\ (1 <= String.length c <= 4)%nat)
                (_parseAlarmList str).
Proof.
  intros codes t Hc Ht. split.
  - unfold _parseAlarmList. apply alarm_codes_chunks; [exact Ht | exact Hc | lia].
  - intros str. apply alarm_codes_sound.
Qed.

(* ================================================================== *)
(** * The handshake *)
(* ================================================================== *)







(* ================================================================== *)
(** * Alarms *)
(* ================================================================== *)

Lemma startTightening_blocked_by_alarm w :
  Controller.errorActive (controller (state w)) = true ->
  exists code,
    startTightening w = (Throw (InterlockError code), w)
    /\ code <> VIN_REQUIRED /\ code <> JOB_NOT_ACTIVE.
Proof.
  intros He.
  unfold startTightening, _check, bind, get, when, throw, ret.
  destruct (Connection.connected (connection (state w))); simpl;
    [|eexists; split; [reflexivity | split; discriminate]].
  destruct (Connection.linkLayerReady (connection (state w))); simpl;
    [|eexists; split; [reflexivity | split; discriminate]].
  destruct (Tool.enabled (tool (state w))); simpl;
    [|eexists; split; [reflexivity | split; discriminate]].
  destruct (Tool.running (tool (state w))); simpl;
    [eexists; split; [reflexivity | split; discriminate]|].
  destruct (Controller.ready (controller (state w))); simpl;
    [|eexists; split; [reflexivity | split; discriminate]].
  rewrite He. simpl. eexists; split; [reflexivity | split; discriminate].
Qed.

Lemma alarm_projection p w :
  let w' := snd (process_frame (Js.Int 70) p w) in
  exists a,
    _parseMID (state w) (Js.Int 70) p = PAlarm a
    /\ alarmCode a = Js.slice 0 4 p
    /\ controller (state w')
       = Set_.errorActive true
           (Set_.alarms (Controller.alarms (controller (state w)) ++ [a])%list
              (controller (state w))).
Proof.
  eexists. split; [reflexivity|]. split; [reflexivity|].
  run_frame; reflexivity.
Qed.

Lemma alarm_status_projection p w :
  controller (state (snd (process_frame (Js.Int 76) p w)))
  = if char_is 0 "1" p then controller (state w)
    else Set_.errorActive false (Set_.alarms [] (controller (state w))).
Proof.
  unfold process_frame, try_catch, _parseMID, _handleMID, getState, emit, update,
    modify, when, bind, ret, get, throw.
  simpl. destruct (char_is 0 "1" p); simpl; repeat mcase; reflexivity.
Qed.

Lemma tool_status_projection p w :
  let w' := snd (process_frame (Js.Int 41) p w) in
  Controller.errorActive (controller (state w')) = char_is 3 "1" p
  /\ Controller.ready (controller (state w')) = char_is 0 "1" p
  /\ Controller.alarms (controller (state w')) = Controller.alarms (controller (state w))
  /\ Tool.enabled (tool (state w')) = char_is 1 "1" p
  /\ Tool.running (tool (state w')) = char_is 2 "1" p.
Proof.
  unfold process_frame, try_catch, _parseMID, _handleMID, _startTighteningCycle,
    _startWatchdog, _clearWatchdog, getState, emit, update, modify, when, bind, ret,
    get, throw.
  simpl. repeat mcase. all: repeat split; reflexivity.
Qed.

(** X21. An alarm stops the tool until the controller says otherwise.
    After a MID 0070 the alarm, parsed from the payload, is the last of
    the stored alarms and the error flag is set, so that
    [startTightening] fails with an interlock error, that of the alarm
    or of an earlier rule, and writes nothing.  A MID 0076 whose status
    character is not ['1'] empties the stored alarms and clears the
    flag; one whose status is ['1'] changes neither.  The flag is also
    set by every tool status, MID 0041, to its alarm character, whatever
    alarms are stored.  All this holds whatever the listeners do. *)
Theorem alarm_interlock :
  forall (w : World) (p : string),
    (let w' := snd (process_frame (Js.Int 70) p w) in
     (exists a,
        _parseMID (state w) (Js.Int 70) p = PAlarm a
        /\ alarmCode a = Js.slice 0 4 p
        /\ Controller.alarms (controller (state w'))
           = (Controller.alarms (controller (state w)) ++ [a])%list)
     /\ Controller.errorActive (controller (state w')) = true
     /\ exists code,
          startTightening w' = (Throw (InterlockError code), w')
          /\ code <> VIN_REQUIRED /\ code <> JOB_NOT_ACTIVE)
    /\ (let w' := snd (process_frame (Js.Int 76) p w) in
        (char_is 0 "1" p = false ->
         Controller.alarms (controller (state w')) = []
         /\ Controller.errorActive (controller (state w')) = false)
        /\ (char_is 0 "1" p = true -> controller (state w') = controller (state w)))
    /\ (let w' := snd (process_frame (Js.Int 41) p w) in
        Controller.errorActive (controller (state w')) = char_is 3 "1" p
        /\ Controller.alarms (controller (state w'))
           = Controller.alarms (controller (state w))).
Proof.
  intros w p. split; [|split].
  - intros w'. destruct (alarm_projection p w) as [a [Ha [Hc Hw]]]. fold w' in Hw.
    assert (He : Controller.errorActive (controller (state w')) = true)
      by (rewrite Hw; reflexivity).
    split; [exists a; rewrite Hw; repeat split; assumption|].
    split; [exact He | apply startTightening_blocked_by_alarm, He].
  - intros w'. unfold w'. rewrite alarm_status_projection. split; intros ->.
    + split; reflexivity.
    + reflexivity.
  - intros w'. destruct (tool_status_projection p w) as [H1 [_ [H3 _]]].
    split; assumption.
Qed.

(* ================================================================== *)
(** * Running a computation step by step *)
(* ================================================================== *)

Lemma bind_get {B} (k : World -> M B) w : bind get k w = k w w.
Proof. reflexivity. Qed.

Lemma bind_ret {A B} (a : A) (k : A -> M B) w : bind (ret a) k w = k a w.
Proof. reflexivity. Qed.

Lemma bind_update {B} (f : State -> State) (k : unit -> M B) w :
  bind (update f) k w = k tt (with_state f w).
Proof. reflexivity. Qed.

Lemma bind_modify {B} (f : World -> World) (k : unit -> M B) w :
  bind (modify f) k w = k tt (f w).
Proof. reflexivity. Qed.

Lemma bind_emit {B} (e : Ev.t) (k : unit -> M B) w :
  listener_throws e = false -> bind (emit e) k w = k tt (add_event e w).
Proof. intros H. unfold bind, emit. rewrite H. reflexivity. Qed.

Lemma bind_assoc {A B C} (m : M A) (f : A -> M B) (k : B -> M C) w :
  bind (bind m f) k w = bind m (fun a => bind (f a) k) w.
Proof. unfold bind. destruct (m w) as [[a| e |] w']; reflexivity. Qed.

Lemma bind_when_true {B} (m : M unit) (k : unit -> M B) w :
  bind (when true m) k w = bind m k w.
Proof. reflexivity. Qed.

Lemma bind_when_false {B} (m : M unit) (k : unit -> M B) w :
  bind (when false m) k w = k tt w.
Proof. reflexivity. Qed.

(* ================================================================== *)
(** * Collecting the results of a cycle *)
(* ================================================================== *)

Lemma same_value_zero_refl k : Js.same_value_zero k k = true.
Proof. unfold Js.same_value_zero. destruct (Js.num_eq_dec k k); congruence. Qed.

Lemma same_value_zero_neq k k' : k' <> k -> Js.same_value_zero k' k = false.
Proof. unfold Js.same_value_zero. destruct (Js.num_eq_dec k' k); congruence. Qed.

Lemma spindle_set_fresh (k : Js.num) (v : Result) (m : list (Js.num * Result)) :
  ~ In k (map fst m) ->
  map_set Js.same_value_zero k v m = (m ++ [(k, v)])%list.
Proof.
  induction m as [|[k' v'] m IH]; simpl; intros Hn; [reflexivity|].
  rewrite same_value_zero_neq by tauto.
  rewrite IH; [reflexivity | tauto].
Qed.

Lemma events_add_event e w : events (add_event e w) = (events w ++ [e])%list.
Proof. reflexivity. Qed.

Lemma grows_refl w : grows_quietly (events w) w.
Proof. exists []. split; [symmetry; apply app_nil_r | reflexivity]. Qed.

Lemma grows_with_state l f w : grows_quietly l w -> grows_quietly l (with_state f w).
Proof. intros H. exact H. Qed.

Lemma grows_add_event l e w :
  grows_quietly l w -> is_completed e = false -> grows_quietly l (add_event e w).
Proof.
  intros [evs [E Hc]] He. exists (evs ++ [e])%list. split.
  - rewrite events_add_event, E, app_assoc. reflexivity.
  - rewrite count_events_snoc, Hc, He. reflexivity.
Qed.

Section ResultListeners.

Hypothesis quiet : result_listeners_quiet.

Ltac run_collect :=
  unfold _handleTighteningResult, _clearWatchdog, emit, update, modify, when,
    bind, ret, get, throw;
  simpl;
  repeat first [ rewrite (proj1 quiet); simpl
               | rewrite (proj1 (proj2 quiet)); simpl
               | rewrite (proj1 (proj2 (proj2 quiet))); simpl
               | rewrite (proj2 (proj2 (proj2 quiet))); simpl ].

Lemma collect_one_more n s d w :
  count_fixed (Js.Int n) s w ->
  ~ In (spindle d) (map fst (Tightening.pendingSpindles (tightening (state w)))) ->
  Z.of_nat (List.length (Tightening.pendingSpindles (tightening (state w)))) + 1 < n ->
  let w1 := snd (_handleTighteningResult d w) in
  count_fixed (Js.Int n) s w1
  /\ Tightening.pendingSpindles (tightening (state w1))
     = (Tightening.pendingSpindles (tightening (state w)) ++ [(spindle d, d)])%list
  /\ exists evs,
       events w1 = (events w ++ evs)%list
       /\ count_events is_completed evs = 0%nat.
Proof.
  intros [Hc [Hsrc Hs]] Hfresh Hlt.
  assert (Hsrc' : match Tool.spindleCountSource (tool (state w)) with
                  | src_default =>
                      Js.gt (spindle d) (Tool.spindleCount (tool (state w)))
                  | _ => false
                  end = false).
  { rewrite Hsrc. destruct Hs as [-> | ->]; reflexivity. }
  assert (Hlen : (Z.of_nat (List.length
                    (map_set Js.same_value_zero (spindle d) d
                       (Tightening.pendingSpindles (tightening (state w)))))
                  <? n) = true).
  { rewrite spindle_set_fresh by exact Hfresh. rewrite length_app. simpl.
    apply Z.ltb_lt. lia. }
  run_collect.
  destruct (negb (Product.vinLocked (product (state w)))
            && vin_truthy (Product.vin (product (state w)))); simpl.
  all: repeat first [ rewrite (proj1 quiet); simpl
                    | rewrite (proj1 (proj2 quiet)); simpl
                    | rewrite Hsrc'; simpl
                    | rewrite Hc; simpl
                    | rewrite Hlen; simpl ].
  all: split; [repeat split; assumption|].
  all: split; [apply spindle_set_fresh; exact Hfresh|].
  all: eexists; split; [repeat rewrite <- app_assoc; reflexivity | reflexivity].
Qed.

Lemma collect_last n s d w :
  count_fixed (Js.Int n) s w ->
  ~ In (spindle d) (map fst (Tightening.pendingSpindles (tightening (state w)))) ->
  Z.of_nat (List.length (Tightening.pendingSpindles (tightening (state w)))) + 1 = n ->
  let w1 := snd (_handleTighteningResult d w) in
  let results :=
    (map_values (Tightening.pendingSpindles (tightening (state w))) ++ [d])%list in
  Tightening.pendingSpindles (tightening (state w1)) = []
  /\ Tightening.inProgress (tightening (state w1)) = false
  /\ Tightening.watchdog (tightening (state w1)) = None
  /\ exists evs duration,
       events w1
       = (events w ++ evs
            ++ [Ev.tighteningCycleCompleted results (forallb ok results) duration])%list
       /\ count_events is_completed evs = 0%nat.
Proof.
  intros [Hc [Hsrc Hs]] Hfresh Hlt.
  assert (Hsrc' : match Tool.spindleCountSource (tool (state w)) with
                  | src_default =>
                      Js.gt (spindle d) (Tool.spindleCount (tool (state w)))
                  | _ => false
                  end = false).
  { rewrite Hsrc. destruct Hs as [-> | ->]; reflexivity. }
  assert (Hlen : Js.lt
                   (Js.Int (Z.of_nat (List.length
                      (map_set Js.same_value_zero (spindle d) d
                         (Tightening.pendingSpindles (tightening (state w)))))))
                   (Tool.spindleCount (tool (state w))) = false).
  { rewrite Hc, spindle_set_fresh by exact Hfresh. rewrite length_app. simpl.
    apply Z.ltb_ge. lia. }
  assert (Hres : map_values
                   (map_set Js.same_value_zero (spindle d) d
                      (Tightening.pendingSpindles (tightening (state w))))
                 = (map_values (Tightening.pendingSpindles (tightening (state w)))
                      ++ [d])%list).
  { rewrite spindle_set_fresh by exact Hfresh. unfold map_values. rewrite map_app.
    reflexivity. }
  destruct quiet as [Qv [Qr [Qp Qb]]].
  intros w1 results. unfold w1. clear w1.
  unfold _handleTighteningResult.
  rewrite bind_get. cbv beta.
  destruct (negb (Product.vinLocked (product (state w)))
            && vin_truthy (Product.vin (product (state w)))).
  1: rewrite bind_when_true, bind_assoc, bind_update; cbv beta;
     rewrite bind_emit by apply Qv.
  2: rewrite bind_when_false.
  all: cbv beta; rewrite bind_get; cbv beta.
  all: cbn [state tool add_event with_state with_product].
  all: rewrite Hsrc', bind_when_false; cbv beta.
  all: rewrite bind_emit by apply Qr; cbv beta.
  all: rewrite bind_update, bind_get; cbv beta.
  all: cbn [state tool tightening add_event with_state with_product with_tightening
            Tightening.pendingSpindles Set_.pendingSpindles].
  all: rewrite Hlen, Hres.
  all: unfold _clearWatchdog; rewrite bind_assoc, bind_get; cbv beta.
  all: cbn [state tool tightening add_event with_state with_product with_tightening
            Tightening.watchdog Set_.pendingSpindles].
  all: destruct (Tightening.watchdog (tightening (state w))) eqn:Hwd;
       [rewrite bind_update | rewrite bind_ret]; cbv beta.
  all: rewrite !bind_update; cbv beta.
  all: cbn [state batch add_event with_state with_product with_tightening].
  all: destruct (Batch.active (batch (state w))
                 && negb (Batch.complete (batch (state w))));
       [rewrite bind_when_true, bind_assoc, bind_update; cbv beta;
        rewrite bind_assoc, bind_get; cbv beta;
        rewrite bind_assoc; rewrite bind_emit by apply Qp; cbv beta;
        match goal with
        | |- context [when ?c _] => destruct c
        end;
        [rewrite bind_when_true, bind_assoc, bind_update; cbv beta;
         rewrite bind_assoc, bind_update; cbv beta;
         rewrite bind_assoc, bind_get; cbv beta;
         rewrite bind_emit by apply Qb; cbv beta
        |rewrite bind_when_false; cbv beta]
       |rewrite bind_when_false; cbv beta].
  all: rewrite bind_get; cbv beta; unfold emit; cbn [snd].
  all: split; [reflexivity|]; split; [reflexivity|].
  all: split; [first [reflexivity | simpl; exact Hwd]|].
  all: match goal with
       | |- context [add_event (Ev.tighteningCycleCompleted _ _ _) ?W] =>
           assert (G : grows_quietly (events w) W)
             by (repeat first [ apply grows_with_state
                              | apply grows_add_event; [|reflexivity]
                              | apply grows_refl ])
       end.
  all: destruct G as [evs [E Hcount]]; exists evs; eexists.
  all: split; [|exact Hcount].
  all: rewrite events_add_event, E, <- app_assoc; reflexivity.
Qed.

Lemma collect_snoc ds d w :
  collect (ds ++ [d]) w = snd (_handleTighteningResult d (collect ds w)).
Proof. unfold collect. rewrite fold_left_app. reflexivity. Qed.

Lemma collect_prefix n s ds : forall w,
  count_fixed (Js.Int n) s w ->
  Tightening.pendingSpindles (tightening (state w)) = [] ->
  NoDup (map spindle ds) ->
  Z.of_nat (List.length ds) < n ->
  count_fixed (Js.Int n) s (collect ds w)
  /\ Tightening.pendingSpindles (tightening (state (collect ds w))) = by_spindle ds
  /\ grows_quietly (events w) (collect ds w).
Proof.
  induction ds as [|d ds IH] using rev_ind; intros w Hf Hp Hnd Hlen.
  - split; [exact Hf|]. split; [exact Hp|]. apply grows_refl.
  - rewrite map_app in Hnd. apply NoDup_remove in Hnd. simpl in Hnd.
    rewrite app_nil_r in Hnd. destruct Hnd as [Hnd Hnew].
    rewrite length_app in Hlen. simpl in Hlen.
    destruct (IH w Hf Hp Hnd ltac:(lia)) as [Hf' [Hp' [evs [E Hc]]]].
    rewrite collect_snoc.
    assert (Hfresh : ~ In (spindle d)
              (map fst (Tightening.pendingSpindles
                          (tightening (state (collect ds w)))))).
    { rewrite Hp'. unfold by_spindle. rewrite map_map. exact Hnew. }
    assert (Hlt : Z.of_nat (List.length (Tightening.pendingSpindles
                     (tightening (state (collect ds w))))) + 1 < n).
    { rewrite Hp'. unfold by_spindle. rewrite length_map. lia. }
    destruct (collect_one_more d Hf' Hfresh Hlt) as [Hf1 [Hp1 [evs1 [E1 Hc1]]]].
    split; [exact Hf1|]. split.
    + rewrite Hp1, Hp'. unfold by_spindle. rewrite map_app. reflexivity.
    + exists (evs ++ evs1)%list. split.
      * rewrite E1, E, app_assoc. reflexivity.
      * rewrite count_events_app, Hc, Hc1. reflexivity.
Qed.

(** X22. One cycle out of [n] results.  With the spindle count
    fixed to [n] by the configuration or by [setSpindleCount], no
    result pending, and listeners of [vinLocked], [spindleResult],
    [batchProgress] and [batchCompleted] that do not throw, [n] results
    of pairwise distinct spindles make one cycle.  The first [n - 1] of them complete nothing; the [n]-th emits
    one [tighteningCycleCompleted] that carries all [n] results in the
    order of their arrival, with [overallOk] the conjunction of their
    [ok] fields, and leaves no result pending, no cycle in progress and
    no watchdog armed. *)
Theorem cycle_collects_every_spindle n s ds d w :
  count_fixed (Js.Int n) s w ->
  Tightening.pendingSpindles (tightening (state w)) = [] ->
  NoDup (map spindle (ds ++ [d])) ->
  Z.of_nat (List.length ds) + 1 = n ->
  let w1 := collect (ds ++ [d]) w in
  count_events is_completed (emitted_since w (collect ds w)) = 0%nat
  /\ Tightening.pendingSpindles (tightening (state (collect ds w))) = by_spindle ds
  /\ (exists evs duration,
        events w1
        = (events w ++ evs
             ++ [Ev.tighteningCycleCompleted (ds ++ [d]) (forallb ok (ds ++ [d]))
                   duration])%list
        /\ count_events is_completed evs = 0%nat)
  /\ Tightening.pendingSpindles (tightening (state w1)) = []
  /\ Tightening.inProgress (tightening (state w1)) = false
  /\ Tightening.watchdog (tightening (state w1)) = None.
Proof.
  intros Hf Hp Hnd Hlen w1. unfold w1. clear w1.
  pose proof Hnd as Hnd'.
  rewrite map_app in Hnd'. apply NoDup_remove in Hnd'. simpl in Hnd'.
  rewrite app_nil_r in Hnd'. destruct Hnd' as [Hnd' Hnew].
  destruct (@collect_prefix n s ds w Hf Hp Hnd' ltac:(lia)) as [Hf' [Hp' [evs [E Hc]]]].
  assert (Hfresh : ~ In (spindle d)
            (map fst (Tightening.pendingSpindles
                        (tightening (state (collect ds w)))))).
  { rewrite Hp'. unfold by_spindle. rewrite map_map. exact Hnew. }
  assert (Hlast : Z.of_nat (List.length (Tightening.pendingSpindles
                     (tightening (state (collect ds w))))) + 1 = n).
  { rewrite Hp'. unfold by_spindle. rewrite length_map. exact Hlen. }
  destruct (collect_last d Hf' Hfresh Hlast) as [Hp1 [Hi1 [Hw1 [evs1 [dur [E1 Hc1]]]]]].
  assert (Hvals : map_values (Tightening.pendingSpindles
                     (tightening (state (collect ds w)))) = ds).
  { rewrite Hp'. unfold by_spindle, map_values. rewrite map_map. simpl.
    apply map_id. }
  rewrite Hvals in E1.
  split.
  { unfold emitted_since. rewrite E, skipn_app, Nat.sub_diag, skipn_all. exact Hc. }
  split; [exact Hp'|].
  rewrite collect_snoc.
  split.
  { exists (evs ++ evs1)%list, dur. split.
    - rewrite E1, E. repeat rewrite <- app_assoc. reflexivity.
    - rewrite count_events_app, Hc, Hc1. reflexivity. }
  split; [exact Hp1|]. split; [exact Hi1 | exact Hw1].
Qed.

End ResultListeners.

End Client.

(* ================================================================== *)
(** * Instances *)
(* ================================================================== *)

Lemma startTightening_interlock_order_witness :
  first_violation (state (constructor default_config 0)) = Some NOT_CONNECTED
  /\ startTightening (constructor default_config 0)
     = (Throw (InterlockError NOT_CONNECTED), constructor default_config 0).
Proof.
  split; [reflexivity|].
  apply (startTightening_interlock_order (constructor default_config 0)).
  reflexivity.
Defined.

(** C2, on the code. [enableTool()] and [selectJob()] do not call
    [_check]: with the socket open and the handshake not done they write
    their frame and return a command id, where they are specified to fail
    with LINK_NOT_READY; after the socket has closed they still write,
    where they are specified to fail with NOT_CONNECTED; and before any
    connection they fail with the TypeError of the null socket, after
    having registered the command as pending. *)
Theorem commands_skip_interlock :
  let w0 := constructor default_config 0 in
  let w1 := step quiet_listeners sample_timer_toJSON (act_call (call_connect true)) w0 in
  let w2 := step quiet_listeners sample_timer_toJSON act_close w1 in
  (Connection.connected (connection (state w1)) = true
   /\ Connection.linkLayerReady (connection (state w1)) = false
   /\ fst (enableTool w1) = Ok (Some 1%N)
   /\ wire (snd (enableTool w1)) = (wire w1 ++ ["0020004200100101    "])%list
   /\ fst (selectJob 7 w1) = Ok (Some 1%N)
   /\ wire (snd (selectJob 7 w1)) = (wire w1 ++ ["0024003400100101    0007"])%list)
  /\ (Connection.connected (connection (state w2)) = false
      /\ fst (enableTool w2) = Ok (Some 1%N)
      /\ wire (snd (enableTool w2)) = (wire w2 ++ ["0020004200100101    "])%list)
  /\ (Connection.connected (connection (state w0)) = false
      /\ fst (enableTool w0)
         = Throw (TypeError "Cannot read properties of null (reading 'write')")
      /\ pending_mids (state (snd (enableTool w0))) = [42%N]).
Proof. vm_compute. repeat split; reflexivity. Qed.

Lemma result_always_acknowledged_witness :
  exists r w',
    process_frame failing_result_listener sample_timer_toJSON (Js.Int 61)
      "000000000100123400009011"
      (set_socket (Some (mkSocket [] false)) (constructor default_config 0))
    = (r, w')
    /\ r <> Hang
    /\ wire w' = ([] ++ [frame_text 62 "" false])%list.
Proof.
  apply (@result_always_acknowledged failing_result_listener sample_timer_toJSON
           (set_socket (Some (mkSocket [] false)) (constructor default_config 0))
           (Js.Int 61) "000000000100123400009011" (mkSocket [] false)).
  - reflexivity.
  - left; reflexivity.
Defined.

(** A batch of size 10 with 5 cycles counted, on an open link. *)
Notation batch_at_five :=
  (run quiet_listeners sample_timer_toJSON (constructor default_config 0)
    [ act_call (call_connect true);
      act_data (frame_text 31 "000100100005" true) ]).


(** C5, on the code. At revision 1 the parsed spindle is the literal 1
    whatever the frame; on a frame whose header carries station 02 and
    spindle 02 the decoder passes MID and payload on and the result has
    spindle 1, where the header field reads 2. *)
Theorem rev1_spindle_not_from_header :
  (forall p, spindle (_parse0061 (Js.Int 1) p) = Js.Int 1)
  /\ let text := "0044" ++ "0061" ++ "001" ++ "0" ++ "02" ++ "02" ++ "    "
                 ++ "000000000100123400009011" in
     exists body payload r,
       next_frame true text = Frame (Js.Int 61) body payload ""
       /\ Js.slice 8 10 body = "02"
       /\ Js.slice 10 12 body = "02"
       /\ Js.Number (Js.slice 10 12 body) = Js.Int 2
       /\ Protocol.revision (protocol createInitialState) = Js.Int 1
       /\ _parseMID createInitialState (Js.Int 61) payload = PResult r
       /\ spindle r = Js.Int 1.
Proof.
  split; [intros p; reflexivity|].
  cbv zeta.
  eexists; eexists; eexists.
  split; [vm_compute; reflexivity|].
  repeat split; vm_compute; reflexivity.
Qed.

(** A single-spindle tool that has just started to run: the cycle is
    open and the watchdog armed. *)
Notation cycle_started :=
  (run quiet_listeners sample_timer_toJSON (constructor default_config 0)
    [ act_call (call_connect true);
      act_data (frame_text 41 "1110" true) ]).



Lemma frame_round_trip_witness :
  (43 < 10000)%N
  /\ valid_payload "VIN123"
  /\ Z.of_nat (String.length "VIN123") + 20 <= 9999
  /\ buffer (constructor default_config 0) = ""
  /\ next_frame true (Js.strip_nul (frame_text 43 "VIN123" true))
     = Frame (Js.Int 43) (Js.slice_from 4 (frame_text 43 "VIN123" true)) "VIN123" "".
Proof.
  assert (H1 : (43 < 10000)%N) by reflexivity.
  assert (H2 : valid_payload "VIN123") by reflexivity.
  assert (H3 : Z.of_nat (String.length "VIN123") + 20 <= 9999) by (simpl; lia).
  assert (H4 : buffer (constructor default_config 0) = "") by reflexivity.
  split; [exact H1|]. split; [exact H2|]. split; [exact H3|]. split; [exact H4|].
  exact (proj1 (@frame_round_trip quiet_listeners sample_timer_toJSON 43%N "VIN123"
                  true (constructor default_config 0) H1 H2 H3 H4)).
Defined.

(** The controller reports a batch of size 5 with counter 9. *)
Notation batch_over_size :=
  (run quiet_listeners sample_timer_toJSON (constructor default_config 0)
    [ act_call (call_connect true);
      act_data (frame_text 31 "000100050009" true) ]).

(** The controller reports a batch of size 5 with counter 5. *)
Notation batch_at_size :=
  (run quiet_listeners sample_timer_toJSON (constructor default_config 0)
    [ act_call (call_connect true);
      act_data (frame_text 31 "000100050005" true) ]).



(** A frame whose MID field is not a number has been received. *)
Notation after_unreadable_mid :=
  (run quiet_listeners sample_timer_toJSON (constructor default_config 0)
    [ act_call (call_connect true);
      act_data "0020abcd001001010    " ]).



(* ================================================================== *)
(** * Instances: decoder *)
(* ================================================================== *)

Lemma onData_leaves_no_frame_witness :
  validateFrames (constructor default_config 0) = true
  /\ fst (_onData quiet_listeners sample_timer_toJSON "00200041001"
            (constructor default_config 0)) <> Hang.
Proof.
  split; [reflexivity|].
  exact (proj1 (@onData_leaves_no_frame quiet_listeners sample_timer_toJSON
                  "00200041001" (constructor default_config 0) eq_refl)).
Defined.

(** A client constructed with [validateFrames: false]. *)
Notation unvalidated := (constructor (mkConfig true false None false) 0).

Lemma onData_spins_without_validation_witness :
  (forall m e, quiet_listeners (Ev.parseError m e) = false)
  /\ validateFrames unvalidated = false
  /\ (4 <= String.length (buffer unvalidated ++ Js.strip_nul "abcd"))%nat
  /\ length_field_falsy (buffer unvalidated ++ Js.strip_nul "abcd")
  /\ fst (_onData quiet_listeners sample_timer_toJSON "abcd" unvalidated) = Hang.
Proof.
  assert (Q : forall m e, quiet_listeners (Ev.parseError m e) = false)
    by (intros; reflexivity).
  assert (L : (4 <= String.length (buffer unvalidated ++ Js.strip_nul "abcd"))%nat)
    by (simpl; lia).
  assert (Z : length_field_falsy (buffer unvalidated ++ Js.strip_nul "abcd"))
    by reflexivity.
  split; [exact Q|]. split; [reflexivity|]. split; [exact L|]. split; [exact Z|].
  exact (proj2 (proj2 (@onData_spins_without_validation quiet_listeners
                         sample_timer_toJSON "abcd" unvalidated Q eq_refl L Z))).
Defined.

(** A tool status report followed by a VIN request. *)
Notation two_messages := [ mkMessage 41 "1110" true; mkMessage 52 "" false ].

Lemma two_messages_encodable : Forall encodable two_messages.
Proof.
  repeat constructor; try reflexivity; simpl; lia.
Qed.

Lemma onData_splits_stream_witness :
  (forall m e, quiet_listeners (Ev.parseError m e) = false)
  /\ Forall encodable two_messages
  /\ buffer (constructor default_config 0) = ""
  /\ _onData quiet_listeners sample_timer_toJSON (stream two_messages)
       (constructor default_config 0)
     = (Ok tt, dispatch_all quiet_listeners sample_timer_toJSON two_messages
                 (receiving "" (constructor default_config 0))).
Proof.
  assert (Q : forall m e, quiet_listeners (Ev.parseError m e) = false)
    by (intros; reflexivity).
  split; [exact Q|]. split; [exact two_messages_encodable|]. split; [reflexivity|].
  exact (proj1 (@onData_splits_stream quiet_listeners sample_timer_toJSON
                  two_messages (constructor default_config 0) Q
                  two_messages_encodable eq_refl)).
Defined.

Lemma frame_in_two_chunks_witness :
  (43 < 10000)%N
  /\ valid_payload ""
  /\ Z.of_nat (String.length "") + 20 <= 9999
  /\ frame_text 43 "" true = "00200043" ++ "00100101    "
  /\ "00100101    " <> ""
  /\ _onData quiet_listeners sample_timer_toJSON "00200043"
       (constructor default_config 0)
     = (Ok tt, receiving "00200043" (constructor default_config 0)).
Proof.
  assert (H1 : (43 < 10000)%N) by reflexivity.
  assert (H2 : valid_payload "") by reflexivity.
  assert (H3 : Z.of_nat (String.length "") + 20 <= 9999) by (simpl; lia).
  assert (H4 : frame_text 43 "" true = "00200043" ++ "00100101    ") by reflexivity.
  assert (H5 : "00100101    " <> "") by discriminate.
  split; [exact H1|]. split; [exact H2|]. split; [exact H3|]. split; [exact H4|].
  split; [exact H5|].
  exact (proj1 (@frame_in_two_chunks quiet_listeners sample_timer_toJSON 43%N ""
                  true "00200043" "00100101    " (constructor default_config 0)
                  (receiving "00200043" (constructor default_config 0))
                  H1 H2 H3 H4 H5 eq_refl eq_refl)).
Defined.

Lemma onData_resynchronises_witness :
  (forall e, quiet_listeners (Ev.frameError e) = false)
  /\ validateFrames (constructor default_config 0) = true
  /\ buffer (constructor default_config 0) = ""
  /\ garbage "x#"
  /\ (43 < 10000)%N
  /\ valid_payload ""
  /\ Z.of_nat (String.length "") + 20 <= 9999
  /\ snd (_onData quiet_listeners sample_timer_toJSON ("x#" ++ frame_text 43 "" true)
            (constructor default_config 0))
     = snd (process_frame quiet_listeners sample_timer_toJSON (Js.Int 43) ""
              (add_events (garbage_errors "x#" (frame_text 43 "" true))
                 (receiving "" (constructor default_config 0)))).
Proof.
  assert (Q : forall e, quiet_listeners (Ev.frameError e) = false)
    by (intros; reflexivity).
  assert (G : garbage "x#") by reflexivity.
  assert (H1 : (43 < 10000)%N) by reflexivity.
  assert (H2 : valid_payload "") by reflexivity.
  assert (H3 : Z.of_nat (String.length "") + 20 <= 9999) by (simpl; lia).
  split; [exact Q|]. split; [reflexivity|]. split; [reflexivity|]. split; [exact G|].
  split; [exact H1|]. split; [exact H2|]. split; [exact H3|].
  exact (proj1 (@onData_resynchronises quiet_listeners sample_timer_toJSON "x#" 43%N
                  "" true (constructor default_config 0) Q eq_refl eq_refl G H1 H2 H3)).
Defined.


(* ================================================================== *)
(** * Instances: commands, link and cycles *)
(* ================================================================== *)

(** A client whose socket has just opened. *)
Notation connected_client :=
  (run quiet_listeners sample_timer_toJSON (constructor default_config 0)
    [ act_call (call_connect true) ]).

(** The same client after a heartbeat interval without traffic. *)
Notation idle_client :=
  (run quiet_listeners sample_timer_toJSON (constructor default_config 0)
    [ act_call (call_connect true); act_elapse HEARTBEAT_INTERVAL_MS ]).

(** The same client after it has subscribed to the tightening results. *)
Notation subscribing_client :=
  (run quiet_listeners sample_timer_toJSON (constructor default_config 0)
    [ act_call (call_connect true); act_call call_subscribeTighteningResults ]).

(** A client told that its tool has two spindles. *)
Notation two_spindle_client :=
  (snd (setSpindleCount quiet_listeners (Js.Int 2) (constructor default_config 0))).

(** A result of spindle [k]. *)
Notation result_of k okb :=
  (mkResult "" (Js.Int k) (Js.Int 0) (Js.Int 0) None None okb []).

Lemma connected_client_reachable :
  reachable quiet_listeners sample_timer_toJSON default_config connected_client.
Proof. exists 0. eexists. reflexivity. Qed.

Lemma command_ids_fresh_witness :
  reachable quiet_listeners sample_timer_toJSON default_config connected_client
  /\ ids_in_sequence connected_client.
Proof.
  split; [exact connected_client_reachable|].
  exact (proj1 (@command_ids_fresh quiet_listeners sample_timer_toJSON
                  default_config connected_client connected_client_reachable)).
Defined.

Lemma command_timeout_frees_mid_witness :
  reachable quiet_listeners sample_timer_toJSON default_config connected_client
  /\ socket connected_client = Some (mkSocket ["0020000100110101    "] false)
  /\ may_send 42 connected_client
  /\ pendingCommands
       (state (step quiet_listeners sample_timer_toJSON (act_command_timeout 1)
                 (snd (sendMID 42 "" true connected_client))))
     = pendingCommands (state connected_client).
Proof.
  assert (S : socket connected_client = Some (mkSocket ["0020000100110101    "] false))
    by reflexivity.
  assert (M : may_send 42 connected_client) by (right; reflexivity).
  split; [exact connected_client_reachable|]. split; [exact S|]. split; [exact M|].
  exact (proj1 (proj2 (proj2
           (@command_timeout_frees_mid quiet_listeners sample_timer_toJSON
              default_config connected_client 42%N "" _
              connected_client_reachable S M)))).
Defined.

Lemma command_resolved_by_reply_witness :
  reachable quiet_listeners sample_timer_toJSON default_config connected_client
  /\ socket connected_client = Some (mkSocket ["0020000100110101    "] false)
  /\ has_pending 42 (state connected_client) = false
  /\ (42 < 10000)%N
  /\ pendingCommands
       (state (snd (process_frame quiet_listeners sample_timer_toJSON (Js.Int 5)
                      (Js.padStart 4 "0" (Js.toString 42%N) ++ "")
                      (snd (sendMID 42 "" true connected_client)))))
     = pendingCommands (state connected_client).
Proof.
  assert (S : socket connected_client = Some (mkSocket ["0020000100110101    "] false))
    by reflexivity.
  assert (P : has_pending 42 (state connected_client) = false) by reflexivity.
  assert (L : (42 < 10000)%N) by reflexivity.
  split; [exact connected_client_reachable|]. split; [exact S|]. split; [exact P|].
  split; [exact L|].
  exact (proj1 (proj1 (proj2
           (@command_resolved_by_reply quiet_listeners sample_timer_toJSON
              default_config connected_client 42%N "" "" _
              connected_client_reachable S P L)))).
Defined.

Lemma command_without_socket_stays_pending_witness :
  socket (constructor default_config 0) = None
  /\ may_send 42 (constructor default_config 0)
  /\ fst (sendMID 42 "" true (constructor default_config 0)) = Throw null_socket_error.
Proof.
  assert (M : may_send 42 (constructor default_config 0)) by (right; reflexivity).
  split; [reflexivity|]. split; [exact M|].
  exact (proj1 (@command_without_socket_stays_pending quiet_listeners
                  (constructor default_config 0) 42%N "" eq_refl M)).
Defined.

Lemma onClose_resets_link_witness :
  (forall mid cmdId, quiet_listeners (Ev.commandAborted mid cmdId) = false)
  /\ quiet_listeners Ev.disconnected = false
  /\ (forall attempt delay, quiet_listeners (Ev.reconnecting attempt delay) = false)
  /\ fst (_onClose quiet_listeners connected_client) = Ok tt.
Proof.
  assert (Q1 : forall mid cmdId, quiet_listeners (Ev.commandAborted mid cmdId) = false)
    by (intros; reflexivity).
  assert (Q2 : forall attempt delay,
            quiet_listeners (Ev.reconnecting attempt delay) = false)
    by (intros; reflexivity).
  split; [exact Q1|]. split; [reflexivity|]. split; [exact Q2|].
  exact (proj1 (@onClose_resets_link quiet_listeners connected_client Q1 eq_refl Q2)).
Defined.


Lemma heartbeat_keeps_alive_witness :
  heartbeatTimer idle_client = Some Armed
  /\ socket idle_client = Some (mkSocket ["0020000100110101    "] false)
  /\ Connection.connected (connection (state idle_client)) = true
  /\ HEARTBEAT_INTERVAL_MS <= now idle_client - lastTrafficTs idle_client
  /\ wire (step quiet_listeners sample_timer_toJSON act_heartbeat idle_client)
     = (wire idle_client ++ [keep_alive])%list.
Proof.
  assert (T : heartbeatTimer idle_client = Some Armed) by reflexivity.
  assert (S : socket idle_client = Some (mkSocket ["0020000100110101    "] false))
    by reflexivity.
  assert (C : Connection.connected (connection (state idle_client)) = true)
    by reflexivity.
  assert (I : HEARTBEAT_INTERVAL_MS <= now idle_client - lastTrafficTs idle_client)
    by (vm_compute; discriminate).
  split; [exact T|]. split; [exact S|]. split; [exact C|]. split; [exact I|].
  exact (proj1 (proj1 (@heartbeat_keeps_alive quiet_listeners sample_timer_toJSON
                         idle_client _ T S) C I)).
Defined.

Lemma selectJob_round_trip_witness :
  (7 < 10000)%N
  /\ selectJob 7 (constructor default_config 0)
     = sendMID 34 "0007" true (constructor default_config 0).
Proof.
  assert (L : (7 < 10000)%N) by reflexivity.
  split; [exact L|].
  exact (proj1 (@selectJob_round_trip quiet_listeners sample_timer_toJSON 7%N
                  (constructor default_config 0) L)).
Defined.

Lemma selectParameterSet_round_trip_witness :
  (12 < 1000)%N
  /\ selectParameterSet 12 (constructor default_config 0)
     = sendMID 18 "012" true (constructor default_config 0).
Proof.
  assert (L : (12 < 1000)%N) by reflexivity.
  split; [exact L|].
  exact (proj1 (@selectParameterSet_round_trip quiet_listeners sample_timer_toJSON
                  12%N (constructor default_config 0) L)).
Defined.

Lemma parseAlarmList_chunks_witness :
  Forall (fun c => String.length c = 4%nat) ["E404"; "0000"; "E117"]
  /\ (String.length "E9" < 4)%nat
  /\ _parseAlarmList "E4040000E117E9" = ["E404"; "E117"; "E9"].
Proof.
  assert (F : Forall (fun c => String.length c = 4%nat) ["E404"; "0000"; "E117"])
    by (repeat constructor).
  assert (L : (String.length "E9" < 4)%nat) by (simpl; lia).
  split; [exact F|]. split; [exact L|].
  exact (proj1 (@parseAlarmList_chunks ["E404"; "0000"; "E117"] "E9" F L)).
Defined.



Lemma quiet_result_listeners : result_listeners_quiet quiet_listeners.
Proof. repeat split. Qed.

Lemma two_spindles_distinct :
  NoDup (map spindle ([result_of 1 true] ++ [result_of 2 false])).
Proof.
  constructor.
  - simpl. intros [H|[]]. discriminate H.
  - constructor; [simpl; tauto | constructor].
Qed.

Lemma cycle_collects_every_spindle_witness :
  result_listeners_quiet quiet_listeners
  /\ count_fixed (Js.Int 2) src_manual two_spindle_client
  /\ Tightening.pendingSpindles (tightening (state two_spindle_client)) = []
  /\ NoDup (map spindle ([result_of 1 true] ++ [result_of 2 false]))
  /\ Z.of_nat (List.length [result_of 1 true]) + 1 = 2
  /\ count_events is_completed
       (emitted_since two_spindle_client
          (collect quiet_listeners [result_of 1 true] two_spindle_client)) = 0%nat.
Proof.
  assert (F : count_fixed (Js.Int 2) src_manual two_spindle_client)
    by (repeat split; right; reflexivity).
  assert (P : Tightening.pendingSpindles (tightening (state two_spindle_client)) = [])
    by reflexivity.
  assert (L : Z.of_nat (List.length [result_of 1 true]) + 1 = 2) by reflexivity.
  split; [exact quiet_result_listeners|]. split; [exact F|]. split; [exact P|].
  split; [exact two_spindles_distinct|]. split; [exact L|].
  exact (proj1 (@cycle_collects_every_spindle quiet_listeners quiet_result_listeners
                  2 src_manual [result_of 1 true] (result_of 2 false)
                  two_spindle_client F P two_spindles_distinct L)).
Defined.
